(** * blender_agent: the socket client and the command wrappers

    A shallow embedding of [blender_connection.py] (the JSON-over-TCP
    client [BlenderConnection]) and of [blender_tools.py] (one wrapper per
    remote command, and the polling loop of
    [generate_3d_model_from_text]), with the properties of the
    specification proved about them.

    Layout:
    - [Py]: Python values as they come out of [json.loads], exceptions,
      the result-and-state monad, and the few built-in operations the
      source applies to untyped values ([in], [.get], [[...]], truth
      value, [join], ...).  The parts of the Python runtime that are
      libraries of their own ([json], the UTF-8 codec, [repr], [sorted])
      are the fields of the class [PyRuntime]; every theorem holds for
      every runtime.
    - [BlenderConnection]: the client object, the network it talks to
      (a script of what the other side does, and a trace of what the
      program did), and its methods.
    - [BlenderTools]: the wrappers.
    - [Sample]: one concrete runtime, to run the model on.
    - [Spec]: the vocabulary of the statements; [Scenario]: concrete
      sessions.
    - the properties, each after the facts it rests on and followed by
      runs on concrete sessions. *)

From Stdlib Require Import String Ascii List ZArith Bool Lia DecimalString.
From Stdlib Require Import Floats.
Import ListNotations.
Open Scope string_scope.
Set Warnings "-register-all".

(* ================================================================== *)
(** * Python values, exceptions and built-ins                          *)
(* ================================================================== *)

Module Py.

(** [bytes]: what [socket.recv] returns and [socket.sendall] takes. *)
Abbreviation bytes := (list Byte.byte).

(** [b''.join(chunks)] *)
Definition join_bytes (chunks : list bytes) : bytes := List.concat chunks.

(** The values [json.loads] produces and the wrappers handle.  A [dict]
    keeps its insertion order (it decides [json.dumps] and [items()]), so
    it is an association list; keys are always [str] here.  A Python
    [str] is held as its UTF-8 text. *)
Inductive pyval : Type :=
| PNone
| PBool (b : bool)
| PInt (z : Z)
| PFloat (f : float)
| PStr (s : string)
| PList (l : list pyval)
| PDict (d : list (string * pyval)).

(** The exception classes the source raises, catches or lets through. *)
Inductive exn_class : Type :=
| PlainException        (* raise Exception(...) *)
| SocketTimeout         (* socket.timeout *)
| ConnectionError
| BrokenPipeError       (* a ConnectionError *)
| ConnectionResetError  (* a ConnectionError *)
| OSError               (* any other socket error *)
| JSONDecodeError
| UnicodeDecodeError
| ValueError
| TypeError
| KeyError
| IndexError
| AttributeError.

(** An exception: its class and [str(e)]. *)
Record exn : Type := Exn { exn_cls : exn_class; exn_text : string }.

(** [except socket.timeout] *)
Definition is_socket_timeout (e : exn) : bool :=
  match exn_cls e with SocketTimeout => true | _ => false end.

(** [except (ConnectionError, BrokenPipeError, ConnectionResetError)] *)
Definition is_connection_error (e : exn) : bool :=
  match exn_cls e with
  | ConnectionError | BrokenPipeError | ConnectionResetError => true
  | _ => false
  end.

(** [except json.JSONDecodeError] *)
Definition is_json_decode_error (e : exn) : bool :=
  match exn_cls e with JSONDecodeError => true | _ => false end.

(** The outcome of a call: a value, or an exception on its way up. *)
Inductive result (A : Type) : Type :=
| Ret (a : A)
| Raise (e : exn).
Arguments Ret {A} a.
Arguments Raise {A} e.

(** ** The monad of the stateful code: a state and an outcome *)

Definition M (S A : Type) : Type := S -> result A * S.

Definition ret {S A} (a : A) : M S A := fun s => (Ret a, s).
Definition raise {S A} (e : exn) : M S A := fun s => (Raise e, s).
Definition bind {S A B} (m : M S A) (k : A -> M S B) : M S B :=
  fun s => match m s with
           | (Ret a, s') => k a s'
           | (Raise e, s') => (Raise e, s')
           end.
(** [try: m  except Exception as e: h e] *)
Definition try_except {S A} (m : M S A) (h : exn -> M S A) : M S A :=
  fun s => match m s with
           | (Ret a, s') => (Ret a, s')
           | (Raise e, s') => h e s'
           end.
(** A step that cannot touch the state: a pure operation that may raise. *)
Definition lift {S A} (r : result A) : M S A := fun s => (r, s).
Definition modify {S} (f : S -> S) : M S unit := fun s => (Ret tt, f s).

(** The same sequencing for pure operations that may raise. *)
Definition rbind {A B} (r : result A) (k : A -> result B) : result B :=
  match r with Ret a => k a | Raise e => Raise e end.

Declare Scope py_scope.
Delimit Scope py_scope with py.
Notation "x <- m ;; k" := (bind m (fun x => k))
  (at level 61, m at next level, right associativity) : py_scope.
Notation "m ;;; k" := (bind m (fun _ => k))
  (at level 61, right associativity) : py_scope.
Notation "x <~ r ;; k" := (rbind r (fun x => k))
  (at level 61, r at next level, right associativity) : py_scope.

(** ** Dictionaries *)

Fixpoint dict_get (d : list (string * pyval)) (k : string) : option pyval :=
  match d with
  | [] => None
  | (k', v) :: rest => if String.eqb k' k then Some v else dict_get rest k
  end.

Definition dict_has (d : list (string * pyval)) (k : string) : bool :=
  match dict_get d k with Some _ => true | None => false end.

(** [d[k] = v]: replaces the value in place, or appends a new key. *)
Fixpoint dict_set (d : list (string * pyval)) (k : string) (v : pyval)
  : list (string * pyval) :=
  match d with
  | [] => [(k, v)]
  | (k', v') :: rest =>
      if String.eqb k' k then (k', v) :: rest else (k', v') :: dict_set rest k v
  end.

(** ** Built-ins on untyped values *)

Definition type_name (v : pyval) : string :=
  match v with
  | PNone => "NoneType"
  | PBool _ => "bool"
  | PInt _ => "int"
  | PFloat _ => "float"
  | PStr _ => "str"
  | PList _ => "list"
  | PDict _ => "dict"
  end.

(** [bool(v)] *)
Definition truthy (v : pyval) : bool :=
  match v with
  | PNone => false
  | PBool b => b
  | PInt z => negb (Z.eqb z 0)
  | PFloat f => negb (PrimFloat.eqb f PrimFloat.zero)
  | PStr s => negb (String.eqb s EmptyString)
  | PList l => match l with [] => false | _ => true end
  | PDict d => match d with [] => false | _ => true end
  end.

(** [v == s] for a string literal [s]: only an equal [str] is equal. *)
Definition eq_str (v : pyval) (s : string) : bool :=
  match v with PStr t => String.eqb t s | _ => false end.

(** The characters of a [str]: a byte of the form 10xxxxxx continues the
    character before it. *)
Definition is_continuation (c : ascii) : bool :=
  let n := nat_of_ascii c in (128 <=? n)%nat && (n <? 192)%nat.

Fixpoint chars (s : string) : list string :=
  match s with
  | EmptyString => []
  | String c rest =>
      let chs := chars rest in
      match rest with
      | String c' _ =>
          if is_continuation c' then
            match chs with
            | ch :: chs' => String c ch :: chs'
            | [] => [String c EmptyString]
            end
          else String c EmptyString :: chs
      | EmptyString => String c EmptyString :: chs
      end
  end.

(** [sub in s] for two [str]. *)
Fixpoint has_substring (sub s : string) : bool :=
  String.prefix sub s
  || match s with
     | EmptyString => false
     | String _ rest => has_substring sub rest
     end.

(** [v.get(k, default)]: only a [dict] has [get]. *)
Definition py_get (v : pyval) (k : string) (default : pyval) : result pyval :=
  match v with
  | PDict d => Ret (match dict_get d k with Some x => x | None => default end)
  | _ => Raise (Exn AttributeError
                  ("'" ++ type_name v ++ "' object has no attribute 'get'"))
  end.

(** [k in v] for a string literal [k]. *)
Definition py_in (k : string) (v : pyval) : result bool :=
  match v with
  | PDict d => Ret (dict_has d k)
  | PList l => Ret (existsb (fun x => eq_str x k) l)
  | PStr s => Ret (has_substring k s)
  | _ => Raise (Exn TypeError
                  ("argument of type '" ++ type_name v ++ "' is not iterable"))
  end.

(** [for x in v]: the items a loop, [all], [any] or [join] sees. *)
Definition py_iter (v : pyval) : result (list pyval) :=
  match v with
  | PList l => Ret l
  | PDict d => Ret (map (fun kv => PStr (fst kv)) d)
  | PStr s => Ret (map PStr (chars s))
  | _ => Raise (Exn TypeError
                  ("'" ++ type_name v ++ "' object is not iterable"))
  end.

(** [len(v)] *)
Definition py_len (v : pyval) : result Z :=
  match v with
  | PList l => Ret (Z.of_nat (length l))
  | PDict d => Ret (Z.of_nat (length d))
  | PStr s => Ret (Z.of_nat (length (chars s)))
  | _ => Raise (Exn TypeError
                  ("object of type '" ++ type_name v ++ "' has no len()"))
  end.

(** [v.items()] *)
Definition py_items (v : pyval) : result (list (string * pyval)) :=
  match v with
  | PDict d => Ret d
  | _ => Raise (Exn AttributeError
                  ("'" ++ type_name v ++ "' object has no attribute 'items'"))
  end.

(** [l[i]] for a list literal [l] of strings and an untyped index: an
    [int] (a [bool] is one) counts from the front, or from the back when
    negative. *)
Definition index_literal (l : list string) (i : pyval) : result string :=
  let at_ (z : Z) :=
    let n := Z.of_nat (length l) in
    let z' := if (z <? 0)%Z then (z + n)%Z else z in
    if ((0 <=? z') && (z' <? n))%Z
    then match nth_error l (Z.to_nat z') with
         | Some s => Ret s
         | None => Raise (Exn IndexError "list index out of range")
         end
    else Raise (Exn IndexError "list index out of range") in
  match i with
  | PInt z => at_ z
  | PBool b => at_ (if b then 1%Z else 0%Z)
  | _ => Raise (Exn TypeError
                  ("list indices must be integers or slices, not " ++ type_name i))
  end.

(** ** The runtime: the libraries the source calls

    [json], the UTF-8 codec, [repr] and [sorted] are not code of this
    repository; the model takes them as given.  [None] is the library's
    own failure: [json.JSONDecodeError] for [json_loads],
    [UnicodeDecodeError] for [bytes_decode]. *)
Class PyRuntime : Type := {
  (** [json.loads(text)] *)
  json_loads : string -> option pyval;
  (** [json.dumps(v)] *)
  json_dumps : pyval -> string;
  (** [json.dumps(v, indent=2)] *)
  json_dumps_indent2 : pyval -> string;
  (** [text.encode('utf-8')] *)
  str_encode : string -> bytes;
  (** [data.decode('utf-8')] *)
  bytes_decode : bytes -> option string;
  (** [str(e)] of the [UnicodeDecodeError] for bytes that do not decode *)
  decode_error_text : bytes -> string;
  (** [str(e)] of the [JSONDecodeError] for a text that does not parse *)
  loads_error_text : string -> string;
  (** [repr(v)] *)
  py_repr : pyval -> string;
  (** [sorted(items, key=..., reverse=True)], each item given with its
      key; comparing two keys may raise *)
  sorted_reverse : forall A : Type, list (pyval * A) -> result (list A)
}.

Section WithRuntime.
Context {R : PyRuntime}.

(** [str(v)], and [{v}] in an f-string: a [str] is itself, anything else
    prints as its [repr]. *)
Definition py_str (v : pyval) : string :=
  match v with PStr s => s | _ => py_repr v end.

(** [v[k]] for a string literal [k]. *)
Definition py_getitem (v : pyval) (k : string) : result pyval :=
  match v with
  | PDict d => match dict_get d k with
               | Some x => Ret x
               | None => Raise (Exn KeyError (py_repr (PStr k)))
               end
  | PList _ =>
      Raise (Exn TypeError "list indices must be integers or slices, not str")
  | PStr _ =>
      Raise (Exn TypeError "string indices must be integers, not 'str'")
  | _ => Raise (Exn TypeError
                  ("'" ++ type_name v ++ "' object is not subscriptable"))
  end.

(** [sep.join(v)]: every item must be a [str]. *)
Fixpoint join_items (sep : string) (n : nat) (items : list pyval)
  : result string :=
  match items with
  | [] => Ret EmptyString
  | x :: rest =>
      match x with
      | PStr s =>
          match rest with
          | [] => Ret s
          | _ => (tl <~ join_items sep (S n) rest ;; Ret (s ++ sep ++ tl))%py
          end
      | _ => Raise (Exn TypeError
                      ("sequence item " ++ py_repr (PInt (Z.of_nat n))
                       ++ ": expected str instance, "
                       ++ type_name x ++ " found"))
      end
  end.

Definition py_join (sep : string) (v : pyval) : result string :=
  match py_iter v with
  | Ret items => join_items sep 0 items
  | Raise _ => Raise (Exn TypeError "can only join an iterable")
  end.

(** [json.loads(data.decode('utf-8'))] *)
Definition loads_bytes (data : bytes) : result pyval :=
  match bytes_decode data with
  | None => Raise (Exn UnicodeDecodeError (decode_error_text data))
  | Some text =>
      match json_loads text with
      | Some v => Ret v
      | None => Raise (Exn JSONDecodeError (loads_error_text text))
      end
  end.

End WithRuntime.

End Py.

(* ================================================================== *)
(** * blender_connection.py                                            *)
(* ================================================================== *)

Module BlenderConnection.
Import Py.
Local Open Scope py_scope.

(** The object: [self.host], [self.port], [self.socket].  A connected
    socket is named by a number; no two sockets share one. *)
Record t : Type := {
  host : string;
  port : Z;
  socket : option nat
}.

(** [BlenderConnection(host='localhost', port=9876)] *)
Definition init (h : string) (p : Z) : t :=
  {| host := h; port := p; socket := None |}.

(** ** The network

    What the other side does is a script.  [recv_event]: the outcome of
    one [sock.recv(buffer_size)], a chunk (the empty chunk: the peer
    closed) or an exception.  [exchange]: what happens to one request,
    whether [sendall] goes through and the [recv] outcomes that follow;
    when they run out nothing more arrives and [recv] times out.  One
    response per request: what a request leaves unread is not seen by
    the next one. *)
Inductive socket_error_class : Type :=
| Timeout             (* socket.timeout *)
| ConnectionFault     (* ConnectionError *)
| BrokenPipe          (* BrokenPipeError *)
| ConnectionReset     (* ConnectionResetError *)
| OtherSocketError.   (* any other OSError *)

(** What a socket call can raise: its class and its text. *)
Record socket_error : Type := {
  error_class : socket_error_class;
  error_text : string
}.

Definition exn_of (e : socket_error) : exn :=
  Exn (match error_class e with
       | Timeout => SocketTimeout
       | ConnectionFault => ConnectionError
       | BrokenPipe => BrokenPipeError
       | ConnectionReset => ConnectionResetError
       | OtherSocketError => OSError
       end)
      (error_text e).

Inductive recv_event : Type :=
| RecvData (chunk : bytes)
| RecvRaise (e : socket_error).

Record exchange : Type := {
  send_outcome : option socket_error;  (* [Some e]: [sendall] raises [e] *)
  replies : list recv_event
}.

(** What the program did to the outside, in order. *)
Inductive event : Type :=
| EvConnect (h : string) (p : Z) (fd : nat) (ok : bool)
| EvSend (fd : nat) (data : bytes)
| EvClose (fd : nat)
| EvSleep (seconds : Z).

Record network : Type := {
  connect_script : list bool;      (* outcomes of the connects to come;
                                      nobody listens after the last *)
  exchange_script : list exchange; (* the requests to come; silence after
                                      the last *)
  next_fd : nat;
  trace : list event
}.

(** The state a method runs in: the object and the network. *)
Record session : Type := { self : t; net : network }.

Definition set_socket (o : option nat) : M session unit :=
  modify (fun s => {| self := {| host := host (self s); port := port (self s);
                                 socket := o |};
                      net := net s |}).

Definition log_event (e : event) (n : network) : network :=
  {| connect_script := connect_script n;
     exchange_script := exchange_script n;
     next_fd := next_fd n;
     trace := (trace n ++ [e])%list |}.

(** [time.sleep(seconds)] *)
Definition sleep (seconds : Z) : M session unit :=
  modify (fun s => {| self := self s; net := log_event (EvSleep seconds) (net s) |}).

(** [socket.socket(...)] followed by [.connect((host, port))]: takes the
    next outcome of the script and a fresh socket number. *)
Definition open_socket : M session (nat * bool) := fun s =>
  let n := net s in
  let fd := next_fd n in
  let ok := match connect_script n with [] => false | b :: _ => b end in
  (Ret (fd, ok),
   {| self := self s;
      net := {| connect_script := tl (connect_script n);
                exchange_script := exchange_script n;
                next_fd := S fd;
                trace := (trace n ++ [EvConnect (host (self s)) (port (self s)) fd ok])%list |} |}).

(** [connect]: an open socket is kept; otherwise one attempt, and on any
    exception the handle is cleared and the answer is [False]. *)
Definition connect : M session bool := fun s =>
  match socket (self s) with
  | Some _ => (Ret true, s)
  | None =>
      (r <- open_socket ;;
       let '(fd, ok) := r in
       if ok then set_socket (Some fd) ;;; ret true
       else set_socket None ;;; ret false) s
  end.

(** [disconnect]: the socket is closed, whatever [close] raises is
    logged and dropped, and the handle is cleared. *)
Definition disconnect : M session unit := fun s =>
  match socket (self s) with
  | Some fd =>
      set_socket None
        {| self := self s; net := log_event (EvClose fd) (net s) |}
  | None => (Ret tt, s)
  end.

(** [self.socket.sendall(data)]: the request goes out (or fails) and the
    script says what comes back on the socket. *)
Definition sendall (data : bytes) : M session (list recv_event) := fun s =>
  match socket (self s) with
  | None =>
      (Raise (Exn AttributeError "'NoneType' object has no attribute 'sendall'"), s)
  | Some fd =>
      let n := net s in
      let ex := match exchange_script n with
                | [] => {| send_outcome := None; replies := [] |}
                | e :: _ => e
                end in
      let s' := {| self := self s;
                   net := {| connect_script := connect_script n;
                             exchange_script := tl (exchange_script n);
                             next_fd := next_fd n;
                             trace := (trace n ++ [EvSend fd data])%list |} |} in
      match send_outcome ex with
      | Some e => (Raise (exn_of e), s')
      | None => (Ret (replies ex), s')
      end
  end.

Section WithRuntime.
Context {R : PyRuntime}.

(** How the [while True] loop of [receive_full_response] ends. *)
Inductive loop_exit : Type :=
| Returned (data : bytes)       (* [return data] inside the loop *)
| Broke (chunks : list bytes)   (* [break], or the timeout caught outside *)
| Raised (e : exn).

(** The loop, over the [recv] outcomes still to come. *)
Fixpoint receive_loop (chunks : list bytes) (sock : list recv_event)
  : loop_exit :=
  match sock with
  | [] => Broke chunks                       (* socket.timeout *)
  | RecvRaise e :: rest =>
      if is_socket_timeout (exn_of e) then Broke chunks
      else Raised (exn_of e)
  | RecvData chunk :: rest =>
      match chunk with
      | [] =>
          match chunks with
          | [] => Raised (Exn PlainException
                            "Connection closed before receiving any data")
          | _ => Broke chunks
          end
      | _ =>
          let chunks' := (chunks ++ [chunk])%list in
          let data := join_bytes chunks' in
          match loads_bytes data with
          | Ret _ => Returned data
          | Raise e =>
              if is_json_decode_error e then receive_loop chunks' rest
              else Raised e
          end
      end
  end.

(** [receive_full_response(sock)] *)
Definition receive_full_response (sock : list recv_event) : result bytes :=
  match receive_loop [] sock with
  | Returned data => Ret data
  | Raised e => Raise e
  | Broke chunks =>
      match chunks with
      | _ :: _ =>
          let data := join_bytes chunks in
          match loads_bytes data with
          | Ret _ => Ret data
          | Raise e =>
              if is_json_decode_error e
              then Raise (Exn PlainException "Incomplete JSON response received")
              else Raise e
          end
      | [] => Raise (Exn PlainException "No data received")
      end
  end.

(** The dictionary [send_command] serialises. *)
Definition command (command_type : string)
  (params : option (list (string * pyval))) : pyval :=
  PDict [("type", PStr command_type);
         ("params", PDict (match params with Some d => d | None => [] end))].

(** The bytes of a request on the wire. *)
Definition wire (command_type : string)
  (params : option (list (string * pyval))) : bytes :=
  str_encode (json_dumps (command command_type params)).

(** What [send_command] does with the parsed response. *)
Definition read_response (response : pyval) : result pyval :=
  (* the f-string of the debug line reads [response.get('status', ...)] *)
  _ <~ py_get response "status" (PStr "unknown") ;;
  status <~ py_get response "status" PNone ;;
  if eq_str status "error" then
    message <~ py_get response "message" (PStr "Unknown error from Blender") ;;
    Raise (Exn PlainException (py_str message))
  else
    py_get response "result" (PDict []).

(** The [try] block of [send_command]. *)
Definition send_command_try (command_type : string)
  (params : option (list (string * pyval))) : M session pyval :=
  sock <- sendall (wire command_type params) ;;
  response_data <- lift (receive_full_response sock) ;;
  response <- lift (loads_bytes response_data) ;;
  lift (read_response response).

(** Its [except] clauses, in order. *)
Definition send_command_except (e : exn) : M session pyval :=
  if is_socket_timeout e then
    set_socket None ;;;
    raise (Exn PlainException
             "Timeout waiting for Blender response - try simplifying your request")
  else if is_connection_error e then
    set_socket None ;;;
    raise (Exn PlainException ("Connection to Blender lost: " ++ exn_text e))
  else if is_json_decode_error e then
    raise (Exn PlainException ("Invalid response from Blender: " ++ exn_text e))
  else
    set_socket None ;;;
    raise (Exn PlainException ("Communication error with Blender: " ++ exn_text e)).

(** [send_command(command_type, params=None)] *)
Definition send_command (command_type : string)
  (params : option (list (string * pyval))) : M session pyval :=
  (* [if not self.socket and not self.connect()] *)
  connected <- (fun s => match socket (self s) with
                         | Some _ => (Ret true, s)
                         | None => connect s
                         end) ;;
  if negb connected then
    raise (Exn ConnectionError "Not connected to Blender")
  else
    try_except (send_command_try command_type params) send_command_except.

(** The mapping a status check answers with when [send_command] raised. *)
Definition status_failure (e : exn) : pyval :=
  PDict [("enabled", PBool false); ("message", PStr (exn_text e))].

(** [get_polyhaven_status()] *)
Definition get_polyhaven_status : M session pyval :=
  try_except (send_command "get_polyhaven_status" None)
             (fun e => ret (status_failure e)).

(** [get_hyper3d_status()] *)
Definition get_hyper3d_status : M session pyval :=
  try_except (send_command "get_hyper3d_status" None)
             (fun e => ret (status_failure e)).

End WithRuntime.

End BlenderConnection.

(* ================================================================== *)
(** * blender_tools.py                                                 *)
(* ================================================================== *)

Module BlenderTools.
Import Py.
Import BlenderConnection.
Local Open Scope py_scope.

(** The module's state: the global [blender_connection] and the network
    the object it names talks to. *)
Record world : Type := {
  blender_connection : option BlenderConnection.t;
  wnet : network
}.

(** [set_blender_connection(connection)] *)
Definition set_blender_connection (connection : BlenderConnection.t)
  : M world unit :=
  modify (fun w => {| blender_connection := Some connection; wnet := wnet w |}).

(** [get_blender_connection()] *)
Definition get_blender_connection : M world BlenderConnection.t := fun w =>
  match blender_connection w with
  | None => (Raise (Exn ValueError "Blender connection not initialized"), w)
  | Some c => (Ret c, w)
  end.

(** [blender = get_blender_connection()] and then a body that works on
    that object: the global names the same object throughout, so what
    the body does to it is what the global holds afterwards. *)
Definition with_blender {A} (body : M session A) : M world A := fun w =>
  match get_blender_connection w with
  | (Raise e, w') => (Raise e, w')
  | (Ret c, _) =>
      let '(r, s') := body {| self := c; net := wnet w |} in
      (r, {| blender_connection := Some (self s'); wnet := net s' |})
  end.

(** ["\n"] *)
Definition nl : string := String (ascii_of_nat 10) EmptyString.

(** [if x: params[key] = x] for an optional [str] argument. *)
Definition set_if_str (key : string) (x : option string)
  (params : list (string * pyval)) : list (string * pyval) :=
  match x with
  | Some s => if truthy (PStr s) then dict_set params key (PStr s) else params
  | None => params
  end.

(** [if x: params[key] = x] for an optional list argument. *)
Definition set_if_list (key : string) (x : option (list pyval))
  (params : list (string * pyval)) : list (string * pyval) :=
  match x with
  | Some l => if truthy (PList l) then dict_set params key (PList l) else params
  | None => params
  end.

(** [if x is not None: params[key] = x] *)
Definition set_if_given (key : string) (x : option pyval)
  (params : list (string * pyval)) : list (string * pyval) :=
  match x with
  | Some v => dict_set params key v
  | None => params
  end.

Section WithRuntime.
Context {R : PyRuntime}.

(** ** Basic tools *)

Definition get_scene_info : M world pyval :=
  with_blender
    (result <- send_command "get_scene_info" None ;;
     ret (PStr (json_dumps_indent2 result))).

Definition get_object_info (name : string) : M world pyval :=
  with_blender
    (result <- send_command "get_object_info" (Some [("name", PStr name)]) ;;
     ret (PStr (json_dumps_indent2 result))).

Definition create_object (type : string) (name : option string)
  (location rotation scale : option (list pyval)) : M world pyval :=
  with_blender
    (let params := [("type", PStr type)] in
     let params := set_if_str "name" name params in
     let params := set_if_list "location" location params in
     let params := set_if_list "rotation" rotation params in
     let params := set_if_list "scale" scale params in
     result <- send_command "create_object" (Some params) ;;
     created <- lift (py_getitem result "name") ;;
     ret (PStr ("Created " ++ type ++ " object: " ++ py_str created))).

Definition modify_object (name : string)
  (location rotation scale : option (list pyval)) (visible : option bool)
  : M world pyval :=
  with_blender
    (let params := [("name", PStr name)] in
     let params := set_if_given "location" (option_map PList location) params in
     let params := set_if_given "rotation" (option_map PList rotation) params in
     let params := set_if_given "scale" (option_map PList scale) params in
     let params := set_if_given "visible" (option_map PBool visible) params in
     result <- send_command "modify_object" (Some params) ;;
     modified <- lift (py_getitem result "name") ;;
     ret (PStr ("Modified object: " ++ py_str modified))).

Definition delete_object (name : string) : M world pyval :=
  with_blender
    (_ <- send_command "delete_object" (Some [("name", PStr name)]) ;;
     ret (PStr ("Deleted object: " ++ name))).

Definition set_material (object_name : string) (material_name : option string)
  (color : option (list pyval)) : M world pyval :=
  with_blender
    (let params := [("object_name", PStr object_name)] in
     let params := set_if_str "material_name" material_name params in
     let params := set_if_list "color" color params in
     _ <- send_command "set_material" (Some params) ;;
     ret (PStr ("Applied material to " ++ object_name))).

Definition execute_blender_code (code : string) : M world pyval :=
  with_blender
    (_ <- send_command "execute_code" (Some [("code", PStr code)]) ;;
     ret (PStr "Code executed successfully")).

Definition import_model (file_path : string) (name : option string)
  : M world pyval :=
  with_blender
    (let params := [("file_path", PStr file_path)] in
     let params := set_if_str "name" name params in
     result <- send_command "import_model" (Some params) ;;
     has_error <- lift (py_in "error" result) ;;
     if has_error then
       err <- lift (py_getitem result "error") ;;
       ret (PStr ("Error importing model: " ++ py_str err))
     else
       main_object <- lift (py_get result "main_object" (PDict [])) ;;
       main_object_name <- lift (py_get main_object "name" (PStr "Unknown")) ;;
       imported_objects <- lift (py_get result "imported_objects" (PList [])) ;;
       total_objects <- lift (py_len imported_objects) ;;
       ret (PStr ("Successfully imported " ++ file_path
                  ++ ". Main object: '" ++ py_str main_object_name
                  ++ "'. Total objects imported: "
                  ++ py_str (PInt total_objects) ++ "."))).

(** ** PolyHaven tools *)

Definition polyhaven_disabled : pyval :=
  PStr "PolyHaven integration is not enabled in Blender.".

Definition get_polyhaven_status : M world pyval :=
  with_blender
    (result <- BlenderConnection.get_polyhaven_status ;;
     _ <- lift (py_get result "enabled" (PBool false)) ;;
     lift (py_get result "message" (PStr EmptyString))).

(** The text after [if "error" in result]. *)
Definition error_line (result : pyval) : M session pyval :=
  err <- lift (py_getitem result "error") ;;
  ret (PStr ("Error: " ++ py_str err)).

Definition get_polyhaven_categories (asset_type : string) : M world pyval :=
  with_blender
    (ph_status <- BlenderConnection.get_polyhaven_status ;;
     enabled <- lift (py_get ph_status "enabled" (PBool false)) ;;
     if negb (truthy enabled) then
       lift (py_get ph_status "message" polyhaven_disabled)
     else
       result <- send_command "get_polyhaven_categories"
                              (Some [("asset_type", PStr asset_type)]) ;;
       has_error <- lift (py_in "error" result) ;;
       if has_error then error_line result
       else
         categories <- lift (py_get result "categories" (PDict [])) ;;
         items <- lift (py_items categories) ;;
         sorted_categories <-
           lift (sorted_reverse _ (map (fun kv => (snd kv, kv)) items)) ;;
         ret (PStr (fold_left
                      (fun out (kv : string * pyval) =>
                         out ++ "- " ++ fst kv ++ ": " ++ py_str (snd kv)
                             ++ " assets" ++ nl)
                      sorted_categories
                      ("Categories for " ++ asset_type ++ ":" ++ nl ++ nl)))).

(** The four lines [search_polyhaven_assets] prints for one asset. *)
Definition format_asset (asset_id : string) (asset_data : pyval)
  : result string :=
  (name <~ py_get asset_data "name" (PStr asset_id) ;;
   type <~ py_get asset_data "type" (PInt 0) ;;
   type_label <~ index_literal ["HDRI"; "Texture"; "Model"] type ;;
   categories <~ py_get asset_data "categories" (PList []) ;;
   joined <~ py_join ", " categories ;;
   downloads <~ py_get asset_data "download_count" (PStr "Unknown") ;;
   Ret ("- " ++ py_str name ++ " (ID: " ++ asset_id ++ ")" ++ nl
        ++ "  Type: " ++ type_label ++ nl
        ++ "  Categories: " ++ joined ++ nl
        ++ "  Downloads: " ++ py_str downloads ++ nl ++ nl)).

(** The [for] loop over the sorted assets. *)
Fixpoint format_assets (out : string) (assets : list (string * pyval))
  : result string :=
  match assets with
  | [] => Ret out
  | (asset_id, asset_data) :: rest =>
      (lines <~ format_asset asset_id asset_data ;;
       format_assets (out ++ lines) rest)
  end.

(** The keys [sorted] computes before it compares any:
    [x[1].get("download_count", 0)] for every item, in order. *)
Fixpoint download_keys (items : list (string * pyval))
  : result (list (pyval * (string * pyval))) :=
  match items with
  | [] => Ret []
  | kv :: rest =>
      (key <~ py_get (snd kv) "download_count" (PInt 0) ;;
       keyed <~ download_keys rest ;;
       Ret ((key, kv) :: keyed))
  end.

Definition search_polyhaven_assets (asset_type : string)
  (categories : option string) : M world pyval :=
  with_blender
    (ph_status <- BlenderConnection.get_polyhaven_status ;;
     enabled <- lift (py_get ph_status "enabled" (PBool false)) ;;
     if negb (truthy enabled) then
       lift (py_get ph_status "message" polyhaven_disabled)
     else
       let params := [("asset_type", PStr asset_type)] in
       let params := set_if_str "categories" categories params in
       result <- send_command "search_polyhaven_assets" (Some params) ;;
       has_error <- lift (py_in "error" result) ;;
       if has_error then error_line result
       else
         assets <- lift (py_get result "assets" (PDict [])) ;;
         total_count <- lift (py_get result "total_count" (PInt 0)) ;;
         returned_count <- lift (py_get result "returned_count" (PInt 0)) ;;
         let formatted_output := "Found " ++ py_str total_count ++ " assets" in
         let formatted_output :=
           match categories with
           | Some c => if truthy (PStr c)
                       then formatted_output ++ " in categories: " ++ c
                       else formatted_output
           | None => formatted_output
           end in
         let formatted_output :=
           formatted_output ++ nl ++ "Showing " ++ py_str returned_count
                            ++ " assets:" ++ nl ++ nl in
         items <- lift (py_items assets) ;;
         keyed <- lift (download_keys items) ;;
         sorted_assets <- lift (sorted_reverse _ keyed) ;;
         text <- lift (format_assets formatted_output sorted_assets) ;;
         ret (PStr text)).

Definition download_polyhaven_asset (asset_id asset_type resolution : string)
  (file_format : option string) : M world pyval :=
  with_blender
    (ph_status <- BlenderConnection.get_polyhaven_status ;;
     enabled <- lift (py_get ph_status "enabled" (PBool false)) ;;
     if negb (truthy enabled) then
       lift (py_get ph_status "message" polyhaven_disabled)
     else
       let params := [("asset_id", PStr asset_id);
                      ("asset_type", PStr asset_type);
                      ("resolution", PStr resolution)] in
       let params := set_if_str "file_format" file_format params in
       result <- send_command "download_polyhaven_asset" (Some params) ;;
       has_error <- lift (py_in "error" result) ;;
       if has_error then error_line result
       else
         success <- lift (py_get result "success" PNone) ;;
         if truthy success then
           message <- lift (py_get result "message"
                              (PStr "Asset downloaded and imported successfully")) ;;
           if String.eqb asset_type "hdris" then
             ret (PStr (py_str message
                        ++ ". The HDRI has been set as the world environment."))
           else if String.eqb asset_type "textures" then
             material_name <- lift (py_get result "material" (PStr EmptyString)) ;;
             maps_list <- lift (py_get result "maps" (PList [])) ;;
             maps <- lift (py_join ", " maps_list) ;;
             ret (PStr (py_str message ++ ". Created material '"
                        ++ py_str material_name ++ "' with maps: " ++ maps ++ "."))
           else if String.eqb asset_type "models" then
             objects_list <- lift (py_get result "imported_objects" (PList [])) ;;
             imported_objects <- lift (py_join ", " objects_list) ;;
             ret (PStr (py_str message ++ ". Imported objects: "
                        ++ imported_objects ++ "."))
           else ret message
         else
           message <- lift (py_get result "message" (PStr "Unknown error")) ;;
           ret (PStr ("Failed to download asset: " ++ py_str message))).

Definition set_texture (object_name texture_id : string) : M world pyval :=
  with_blender
    (ph_status <- BlenderConnection.get_polyhaven_status ;;
     enabled <- lift (py_get ph_status "enabled" (PBool false)) ;;
     if negb (truthy enabled) then
       lift (py_get ph_status "message" polyhaven_disabled)
     else
       let params := [("object_name", PStr object_name);
                      ("texture_id", PStr texture_id)] in
       result <- send_command "set_texture" (Some params) ;;
       has_error <- lift (py_in "error" result) ;;
       if has_error then error_line result
       else
         success <- lift (py_get result "success" PNone) ;;
         if truthy success then
           material_name <- lift (py_get result "material" (PStr EmptyString)) ;;
           maps_list <- lift (py_get result "maps" (PList [])) ;;
           maps <- lift (py_join ", " maps_list) ;;
           ret (PStr ("Successfully applied texture '" ++ texture_id ++ "' to "
                      ++ object_name ++ " using material '"
                      ++ py_str material_name ++ "' with maps: " ++ maps ++ "."))
         else
           message <- lift (py_get result "message" (PStr "Unknown error")) ;;
           ret (PStr ("Failed to apply texture: " ++ py_str message))).

(** ** Hyper3D Rodin tools *)

Definition hyper3d_disabled : pyval :=
  PStr "Hyper3D Rodin integration is not enabled in Blender.".

Definition get_hyper3d_status : M world pyval :=
  with_blender
    (result <- BlenderConnection.get_hyper3d_status ;;
     lift (py_get result "message" (PStr EmptyString))).

(** What one poll answer means for the loop. *)
Inductive poll_outcome : Type :=
| Complete                      (* [is_complete = True] *)
| Pending                       (* [is_complete] stays [False] *)
| Failed (message : string).    (* [return f"Error: Job failed ..."] *)

(** The test on [status_result] inside the loop. *)
Definition check_status (status_result : pyval) : result poll_outcome :=
  (has_list <~ py_in "status_list" status_result ;;
   if has_list then
     (* Main site API *)
     statuses <~ py_getitem status_result "status_list" ;;
     items <~ py_iter statuses ;;
     if forallb (fun status => eq_str status "Done") items then Ret Complete
     else if existsb (fun status => eq_str status "Failed") items then
       Ret (Failed ("Error: Job failed with status: " ++ py_str statuses))
     else Ret Pending
   else
     has_status <~ py_in "status" status_result ;;
     if has_status then
       (* Fal.ai API *)
       status <~ py_getitem status_result "status" ;;
       if eq_str status "COMPLETED" then Ret Complete
       else if negb (eq_str status "IN_PROGRESS" || eq_str status "IN_QUEUE")
       then Ret (Failed ("Error: Job failed with status: " ++ py_str status))
       else Ret Pending
     else Ret Pending).

(** [poll_params] of one attempt. *)
Definition poll_params (subscription_key request_id : pyval)
  : list (string * pyval) :=
  if truthy subscription_key then [("subscription_key", subscription_key)]
  else if truthy request_id then [("request_id", request_id)]
  else [].

(** How the [for attempt in range(max_attempts)] loop ends. *)
Inductive loop_end : Type :=
| Completed                     (* [break] with [is_complete] set *)
| Exhausted                     (* the range ran out *)
| Returns (v : pyval).          (* [return] inside the loop *)

Fixpoint poll_loop (attempts : nat) (subscription_key request_id : pyval)
  : M session loop_end :=
  match attempts with
  | O => ret Exhausted
  | S attempts' =>
      status_result <- send_command "poll_rodin_job_status"
                         (Some (poll_params subscription_key request_id)) ;;
      outcome <- lift (check_status status_result) ;;
      match outcome with
      | Complete => ret Completed
      | Failed message => ret (Returns (PStr message))
      | Pending =>
          (* Wait before polling again *)
          sleep 5 ;;;
          poll_loop attempts' subscription_key request_id
      end
  end.

Definition max_attempts : nat := 60.

(** [import_params] *)
Definition import_params (model_name : string) (job_id request_id : pyval)
  : list (string * pyval) :=
  let params := [("name", PStr model_name)] in
  if truthy job_id then dict_set params "task_uuid" job_id
  else if truthy request_id then dict_set params "request_id" request_id
  else params.

(** Step 3: import the generated asset. *)
Definition import_generated (model_name : string) (job_id request_id : pyval)
  : M session pyval :=
  import_result <- send_command "import_generated_asset"
                     (Some (import_params model_name job_id request_id)) ;;
  succeed <- lift (py_get import_result "succeed" (PBool false)) ;;
  if negb (truthy succeed) then
    err <- lift (py_get import_result "error" (PStr "Unknown error")) ;;
    ret (PStr ("Error importing generated model: " ++ py_str err))
  else
    ret (PStr ("Successfully generated and imported 3D model '" ++ model_name
               ++ "' based on the text prompt.")).

(** Step 2 and what follows it. *)
Definition poll_then_import (model_name : string)
  (job_id subscription_key request_id : pyval) : M session pyval :=
  ended <- poll_loop max_attempts subscription_key request_id ;;
  match ended with
  | Returns v => ret v
  | Exhausted => ret (PStr "Error: Job timed out without completion")
  | Completed => import_generated model_name job_id request_id
  end.

(** The parameters of [create_rodin_job]. *)
Definition job_params (text_prompt : string)
  (bbox_condition : option (list pyval)) : list (string * pyval) :=
  [("text_prompt", PStr text_prompt);
   ("images", PNone);
   ("bbox_condition", match bbox_condition with
                      | Some l => PList l
                      | None => PNone
                      end)].

Definition generate_3d_model_from_text (text_prompt model_name : string)
  (bbox_condition : option (list pyval)) : M world pyval :=
  with_blender
    (h3d_status <- BlenderConnection.get_hyper3d_status ;;
     enabled <- lift (py_get h3d_status "enabled" (PBool false)) ;;
     if negb (truthy enabled) then
       lift (py_get h3d_status "message" hyper3d_disabled)
     else
       (* 1. Create the generation job *)
       job_result <- send_command "create_rodin_job"
                       (Some (job_params text_prompt bbox_condition)) ;;
       has_error <- lift (py_in "error" job_result) ;;
       if has_error then
         err <- lift (py_getitem job_result "error") ;;
         ret (PStr ("Error creating generation job: " ++ py_str err))
       else
         has_uuid <- lift (py_in "uuid" job_result) ;;
         if has_uuid then
           job_id <- lift (py_getitem job_result "uuid") ;;
           jobs <- lift (py_get job_result "jobs" (PDict [])) ;;
           subscription_key <- lift (py_get jobs "subscription_key" PNone) ;;
           poll_then_import model_name job_id subscription_key PNone
         else
           has_request_id <- lift (py_in "request_id" job_result) ;;
           if has_request_id then
             request_id <- lift (py_getitem job_result "request_id") ;;
             poll_then_import model_name PNone PNone request_id
           else
             ret (PStr ("Error: Unexpected job result format: "
                        ++ py_str job_result))).

(** [final_answer(answer)] *)
Definition final_answer (answer : string) : string := answer.

End WithRuntime.

End BlenderTools.

(* ================================================================== *)
(** * blender_agent.py                                                 *)
(* ================================================================== *)

Module BlenderAgent.
Import Py.
Local Open Scope py_scope.

(** The entries of [available_tools]: the wrappers of [blender_tools.py],
    by name. *)
Inductive tool : Type :=
| get_scene_info
| get_object_info
| create_object
| modify_object
| delete_object
| set_material
| import_model
| execute_blender_code
| final_answer
| get_polyhaven_status
| get_polyhaven_categories
| search_polyhaven_assets
| download_polyhaven_asset
| set_texture
| get_hyper3d_status
| generate_3d_model_from_text.

(** [# Set up the basic tools] *)
Definition basic_tools : list tool :=
  [get_scene_info; get_object_info; create_object; modify_object;
   delete_object; set_material; import_model; execute_blender_code;
   final_answer].

Section WithRuntime.
Context {R : PyRuntime}.

(** [if include_polyhaven:] the status check, the status tool, and the
    four PolyHaven tools when the status says enabled; otherwise the
    warning, whose f-string reads the message. *)
Definition add_polyhaven_tools (available_tools : list tool)
  : M BlenderConnection.session (list tool) :=
  ph_status <- BlenderConnection.get_polyhaven_status ;;
  let available_tools := (available_tools ++ [get_polyhaven_status])%list in
  enabled <- lift (py_get ph_status "enabled" (PBool false)) ;;
  if truthy enabled then
    ret (available_tools
         ++ [get_polyhaven_categories; search_polyhaven_assets;
             download_polyhaven_asset; set_texture])%list
  else
    _ <- lift (py_get ph_status "message" (PStr EmptyString)) ;;
    ret available_tools.

(** [if include_hyper3d:] the same for Hyper3D Rodin and its one tool. *)
Definition add_hyper3d_tools (available_tools : list tool)
  : M BlenderConnection.session (list tool) :=
  h3d_status <- BlenderConnection.get_hyper3d_status ;;
  let available_tools := (available_tools ++ [get_hyper3d_status])%list in
  enabled <- lift (py_get h3d_status "enabled" (PBool false)) ;;
  if truthy enabled then
    ret (available_tools ++ [generate_3d_model_from_text])%list
  else
    _ <- lift (py_get h3d_status "message" (PStr EmptyString)) ;;
    ret available_tools.

(** [create_blender_agent], from its first line to the tool list it
    hands to [CodeAgent]: the connection is made and set globally, one
    connect is tried (a failure is only logged), and the list is put
    together.  What the function does after that (the model object, the
    prompt file, the agent object) it does with other libraries. *)
Definition create_blender_agent (host : string) (port : Z)
  (include_polyhaven include_hyper3d : bool)
  : M BlenderTools.world (list tool) :=
  BlenderTools.set_blender_connection (BlenderConnection.init host port) ;;;
  BlenderTools.with_blender
    (_ <- BlenderConnection.connect ;;
     available_tools <- (if include_polyhaven
                         then add_polyhaven_tools basic_tools
                         else ret basic_tools) ;;
     if include_hyper3d then add_hyper3d_tools available_tools
     else ret available_tools).

(** [shutdown_blender_connection()]: whatever goes wrong is logged. *)
Definition shutdown_blender_connection : M BlenderTools.world unit :=
  try_except (BlenderTools.with_blender BlenderConnection.disconnect)
             (fun _ => ret tt).

End WithRuntime.

End BlenderAgent.

(* ================================================================== *)
(** * A runtime to run the model on                                    *)
(* ================================================================== *)

(** One [PyRuntime], for the closed examples.  It follows CPython on
    ASCII text without floating-point literals: [json_loads] reads
    objects, arrays, strings (with the one-letter escapes), integers,
    [true], [false], [null], [NaN] and the infinities, and rejects
    everything else, also a fraction, an exponent or a [\u] escape;
    the printers write a float with all the digits of its exact value
    where CPython writes the shortest digits that read back, and leave
    bytes above 127 as they are; [sorted_reverse] orders numbers and
    strings and takes any other pair of keys as unordered; the two error
    texts are shortened.  No theorem depends on it. *)
Module Sample.
Import Py.

Definition dquote : ascii := "034"%char.
Definition backslash : ascii := "092"%char.

(** A JSON text written with ['] for the double quote. *)
Fixpoint json_text (s : string) : string :=
  match s with
  | EmptyString => EmptyString
  | String c rest =>
      String (if Ascii.eqb c "'"%char then dquote else c) (json_text rest)
  end.

Definition decimal (z : Z) : string := NilZero.string_of_int (Z.to_int z).

(** *** Floats *)

Fixpoint drop_trailing_zeros (digits : list ascii) : list ascii :=
  match digits with
  | [] => []
  | c :: rest =>
      match drop_trailing_zeros rest with
      | [] => if Ascii.eqb c "0"%char then [] else [c]
      | kept => c :: kept
      end
  end.

(** The decimal expansion of [m * 2^e] for [e < 0]: the digits of
    [m * 5^(-e)] with the point [-e] places from the right. *)
Definition binary_fraction (m : positive) (e : Z) : string :=
  let k := Z.to_nat (- e) in
  let digits := list_ascii_of_string (decimal (Z.pos m * 5 ^ (- e))) in
  let padded := (repeat "0"%char (S k - length digits) ++ digits)%list in
  let whole := firstn (length padded - k) padded in
  let fraction := drop_trailing_zeros (skipn (length padded - k) padded) in
  string_of_list_ascii whole ++ "."
  ++ string_of_list_ascii (match fraction with [] => ["0"%char] | _ => fraction end).

Definition float_text (nan inf : string) (f : float) : string :=
  let minus (s : bool) := if s then "-" else EmptyString in
  match Prim2SF f with
  | S754_nan => nan
  | S754_infinity s => minus s ++ inf
  | S754_zero s => minus s ++ "0.0"
  | S754_finite s m e =>
      minus s ++ (if (0 <=? e)%Z then decimal (Z.pos m * 2 ^ e) ++ ".0"
                  else binary_fraction m e)
  end.

(** *** json.dumps *)

Definition hex_digit (n : nat) : ascii :=
  nth n (list_ascii_of_string "0123456789abcdef") "0"%char.

Definition json_escape (c : ascii) : string :=
  let n := nat_of_ascii c in
  if Ascii.eqb c dquote then String backslash (String dquote EmptyString)
  else if Ascii.eqb c backslash then String backslash (String backslash EmptyString)
  else if (n =? 10)%nat then String backslash "n"
  else if (n =? 13)%nat then String backslash "r"
  else if (n =? 9)%nat then String backslash "t"
  else if (n =? 8)%nat then String backslash "b"
  else if (n =? 12)%nat then String backslash "f"
  else if (n <? 32)%nat then
    String backslash
      ("u00" ++ String (hex_digit (n / 16)) (String (hex_digit (n mod 16)) EmptyString))
  else String c EmptyString.

Fixpoint json_escape_all (s : string) : string :=
  match s with
  | EmptyString => EmptyString
  | String c rest => json_escape c ++ json_escape_all rest
  end.

Definition json_quote (s : string) : string :=
  String dquote (json_escape_all s ++ String dquote EmptyString).

Fixpoint dumps (v : pyval) : string :=
  match v with
  | PNone => "null"
  | PBool b => if b then "true" else "false"
  | PInt z => decimal z
  | PFloat f => float_text "NaN" "Infinity" f
  | PStr s => json_quote s
  | PList l => "[" ++ String.concat ", " (map dumps l) ++ "]"
  | PDict d =>
      "{" ++ String.concat ", "
               (map (fun kv => match kv with
                               | (k, x) => json_quote k ++ ": " ++ dumps x
                               end) d)
          ++ "}"
  end.

Definition spaces (n : nat) : string := string_of_list_ascii (repeat " "%char n).

Fixpoint dumps_indent (depth : nat) (v : pyval) {struct v} : string :=
  let open_line := BlenderTools.nl ++ spaces (2 * S depth) in
  let close_line := BlenderTools.nl ++ spaces (2 * depth) in
  match v with
  | PList ((_ :: _) as l) =>
      "[" ++ open_line
          ++ String.concat ("," ++ open_line) (map (dumps_indent (S depth)) l)
          ++ close_line ++ "]"
  | PDict ((_ :: _) as d) =>
      "{" ++ open_line
          ++ String.concat ("," ++ open_line)
               (map (fun kv => match kv with
                               | (k, x) => json_quote k ++ ": "
                                           ++ dumps_indent (S depth) x
                               end) d)
          ++ close_line ++ "}"
  | _ => dumps v
  end.

(** *** repr *)

Definition repr_escape (quote : ascii) (c : ascii) : string :=
  let n := nat_of_ascii c in
  if Ascii.eqb c quote then String backslash (String c EmptyString)
  else if Ascii.eqb c backslash then String backslash (String backslash EmptyString)
  else if (n =? 10)%nat then String backslash "n"
  else if (n =? 13)%nat then String backslash "r"
  else if (n =? 9)%nat then String backslash "t"
  else if ((n <? 32) || (n =? 127))%nat then
    String backslash
      ("x" ++ String (hex_digit (n / 16)) (String (hex_digit (n mod 16)) EmptyString))
  else String c EmptyString.

Fixpoint repr_escape_all (quote : ascii) (s : string) : string :=
  match s with
  | EmptyString => EmptyString
  | String c rest => repr_escape quote c ++ repr_escape_all quote rest
  end.

Fixpoint mentions (c : ascii) (s : string) : bool :=
  match s with
  | EmptyString => false
  | String c' rest => Ascii.eqb c c' || mentions c rest
  end.

(** ['...'], or ["..."] when the text has a ['] and no double quote. *)
Definition repr_str (s : string) : string :=
  let quote := if mentions "'"%char s && negb (mentions dquote s)
               then dquote else "'"%char in
  String quote (repr_escape_all quote s ++ String quote EmptyString).

Fixpoint repr (v : pyval) : string :=
  match v with
  | PNone => "None"
  | PBool b => if b then "True" else "False"
  | PInt z => decimal z
  | PFloat f => float_text "nan" "inf" f
  | PStr s => repr_str s
  | PList l => "[" ++ String.concat ", " (map repr l) ++ "]"
  | PDict d =>
      "{" ++ String.concat ", "
               (map (fun kv => match kv with
                               | (k, x) => repr_str k ++ ": " ++ repr x
                               end) d)
          ++ "}"
  end.

(** *** json.loads *)

Definition is_space (c : ascii) : bool :=
  let n := nat_of_ascii c in
  ((n =? 32) || (n =? 9) || (n =? 10) || (n =? 13))%nat.

Fixpoint skip_spaces (s : string) : string :=
  match s with
  | String c rest => if is_space c then skip_spaces rest else s
  | EmptyString => s
  end.

(** [Some rest] when [s] starts with [word]. *)
Fixpoint after (word s : string) : option string :=
  match word, s with
  | EmptyString, _ => Some s
  | String a word', String b s' => if Ascii.eqb a b then after word' s' else None
  | String _ _, EmptyString => None
  end.

Definition unescape (c : ascii) : option ascii :=
  if Ascii.eqb c dquote then Some dquote
  else if Ascii.eqb c backslash then Some backslash
  else if Ascii.eqb c "/"%char then Some "/"%char
  else if Ascii.eqb c "n"%char then Some "010"%char
  else if Ascii.eqb c "r"%char then Some "013"%char
  else if Ascii.eqb c "t"%char then Some "009"%char
  else if Ascii.eqb c "b"%char then Some "008"%char
  else if Ascii.eqb c "f"%char then Some "012"%char
  else None.

(** The text of a string literal, from after its opening quote. *)
Fixpoint read_string (s : string) : option (string * string) :=
  match s with
  | EmptyString => None
  | String c rest =>
      if Ascii.eqb c dquote then Some (EmptyString, rest)
      else if Ascii.eqb c backslash then
        match rest with
        | String e rest' =>
            match unescape e, read_string rest' with
            | Some ch, Some (text, more) => Some (String ch text, more)
            | _, _ => None
            end
        | EmptyString => None
        end
      else if (nat_of_ascii c <? 32)%nat then None
      else match read_string rest with
           | Some (text, more) => Some (String c text, more)
           | None => None
           end
  end.

Definition is_digit (c : ascii) : bool :=
  let n := nat_of_ascii c in ((48 <=? n) && (n <=? 57))%nat.

Fixpoint read_digits (s : string) : string * string :=
  match s with
  | String c rest =>
      if is_digit c then let '(ds, more) := read_digits rest in (String c ds, more)
      else (EmptyString, s)
  | EmptyString => (EmptyString, s)
  end.

(** An integer literal: no leading zero, and no fraction or exponent
    after it. *)
Definition read_integer (s : string) : option (pyval * string) :=
  let '(negative, body) :=
    match s with
    | String c rest => if Ascii.eqb c "-"%char then (true, rest) else (false, s)
    | EmptyString => (false, s)
    end in
  let '(digits, more) := read_digits body in
  let well_formed :=
    match digits with
    | EmptyString => false
    | String c (String _ _) => negb (Ascii.eqb c "0"%char)
    | String _ EmptyString => true
    end in
  let float_follows :=
    match more with
    | String c _ => Ascii.eqb c "."%char || Ascii.eqb c "e"%char || Ascii.eqb c "E"%char
    | EmptyString => false
    end in
  if well_formed && negb float_follows then
    match NilZero.int_of_string digits with
    | Some d => Some (PInt (if negative then - Z.of_int d else Z.of_int d)%Z, more)
    | None => None
    end
  else None.

Fixpoint read_value (fuel : nat) (s : string) {struct fuel}
  : option (pyval * string) :=
  match fuel with
  | O => None
  | S fuel' =>
      match skip_spaces s with
      | EmptyString => None
      | String c rest as s' =>
          if Ascii.eqb c dquote then
            match read_string rest with
            | Some (text, more) => Some (PStr text, more)
            | None => None
            end
          else if Ascii.eqb c "["%char then
            match skip_spaces rest with
            | String c' more =>
                if Ascii.eqb c' "]"%char then Some (PList [], more)
                else match read_items fuel' rest with
                     | Some (items, more') => Some (PList items, more')
                     | None => None
                     end
            | EmptyString => None
            end
          else if Ascii.eqb c "{"%char then
            match skip_spaces rest with
            | String c' more =>
                if Ascii.eqb c' "}"%char then Some (PDict [], more)
                else match read_members fuel' [] rest with
                     | Some (members, more') => Some (PDict members, more')
                     | None => None
                     end
            | EmptyString => None
            end
          else
            match after "null" s', after "true" s', after "false" s',
                  after "NaN" s', after "Infinity" s', after "-Infinity" s' with
            | Some more, _, _, _, _, _ => Some (PNone, more)
            | _, Some more, _, _, _, _ => Some (PBool true, more)
            | _, _, Some more, _, _, _ => Some (PBool false, more)
            | _, _, _, Some more, _, _ => Some (PFloat nan, more)
            | _, _, _, _, Some more, _ => Some (PFloat infinity, more)
            | _, _, _, _, _, Some more => Some (PFloat neg_infinity, more)
            | _, _, _, _, _, _ => read_integer s'
            end
      end
  end
with read_items (fuel : nat) (s : string) {struct fuel}
  : option (list pyval * string) :=
  match fuel with
  | O => None
  | S fuel' =>
      match read_value fuel' s with
      | Some (v, more) =>
          match skip_spaces more with
          | String c more' =>
              if Ascii.eqb c ","%char then
                match read_items fuel' more' with
                | Some (vs, more'') => Some (v :: vs, more'')
                | None => None
                end
              else if Ascii.eqb c "]"%char then Some ([v], more')
              else None
          | EmptyString => None
          end
      | None => None
      end
  end
with read_members (fuel : nat) (seen : list (string * pyval)) (s : string)
  {struct fuel} : option (list (string * pyval) * string) :=
  match fuel with
  | O => None
  | S fuel' =>
      match skip_spaces s with
      | String q rest =>
          if Ascii.eqb q dquote then
            match read_string rest with
            | Some (key, more) =>
                match skip_spaces more with
                | String colon more' =>
                    if Ascii.eqb colon ":"%char then
                      match read_value fuel' more' with
                      | Some (v, more'') =>
                          (* a key given twice keeps its place and takes
                             the later value *)
                          let seen' := dict_set seen key v in
                          match skip_spaces more'' with
                          | String c after_value =>
                              if Ascii.eqb c ","%char
                              then read_members fuel' seen' after_value
                              else if Ascii.eqb c "}"%char
                              then Some (seen', after_value)
                              else None
                          | EmptyString => None
                          end
                      | None => None
                      end
                    else None
                | EmptyString => None
                end
            | None => None
            end
          else None
      | EmptyString => None
      end
  end.

(** One value, and nothing but spaces after it. *)
Definition loads (text : string) : option pyval :=
  match read_value (2 * String.length text + 2) text with
  | Some (v, more) =>
      match skip_spaces more with
      | EmptyString => Some v
      | String _ _ => None
      end
  | None => None
  end.

(** *** The UTF-8 codec *)

(** The shape of UTF-8: a lead byte and the continuation bytes it asks
    for. *)
Fixpoint utf8_shape (pending : nat) (data : list ascii) : bool :=
  match data with
  | [] => (pending =? 0)%nat
  | c :: rest =>
      let n := nat_of_ascii c in
      match pending with
      | S p => is_continuation c && utf8_shape p rest
      | O =>
          if (n <? 128)%nat then utf8_shape 0 rest
          else if ((194 <=? n) && (n <=? 223))%nat then utf8_shape 1 rest
          else if ((224 <=? n) && (n <=? 239))%nat then utf8_shape 2 rest
          else if ((240 <=? n) && (n <=? 244))%nat then utf8_shape 3 rest
          else false
      end
  end.

Definition decode (data : bytes) : option string :=
  let text := string_of_list_byte data in
  if utf8_shape 0 (list_ascii_of_string text) then Some text else None.

(** *** sorted *)

(** A number as [n * 2^e], or one of the special floats. *)
Inductive number : Type :=
| NotANumber
| Infinite (negative : bool)
| Finite (n e : Z).

Definition number_of (v : pyval) : option number :=
  match v with
  | PBool b => Some (Finite (if b then 1 else 0) 0)
  | PInt z => Some (Finite z 0)
  | PFloat f =>
      Some (match Prim2SF f with
            | S754_nan => NotANumber
            | S754_infinity s => Infinite s
            | S754_zero _ => Finite 0 0
            | S754_finite s m e => Finite (if s then Z.neg m else Z.pos m) e
            end)
  | _ => None
  end.

Definition number_lt (a b : number) : bool :=
  match a, b with
  | NotANumber, _ | _, NotANumber => false
  | Infinite s, Infinite s' => s && negb s'
  | Infinite s, Finite _ _ => s
  | Finite _ _, Infinite s => negb s
  | Finite n e, Finite n' e' =>
      let low := Z.min e e' in
      (n * 2 ^ (e - low) <? n' * 2 ^ (e' - low))%Z
  end.

(** [a < b] *)
Definition less (a b : pyval) : result bool :=
  match number_of a, number_of b with
  | Some x, Some y => Ret (number_lt x y)
  | _, _ =>
      match a, b with
      | PStr s, PStr t => Ret (String.ltb s t)
      | _, _ =>
          Raise (Exn TypeError
                   ("'<' not supported between instances of '" ++ type_name a
                    ++ "' and '" ++ type_name b ++ "'"))
      end
  end.

(** [x] goes before the first item with a smaller key, so items with
    equal keys stay in the order they came in. *)
Fixpoint insert_descending {A} (x : pyval * A) (sorted : list (pyval * A))
  : result (list (pyval * A)) :=
  match sorted with
  | [] => Ret [x]
  | y :: rest =>
      (smaller <~ less (fst y) (fst x) ;;
       if smaller then Ret (x :: y :: rest)
       else (placed <~ insert_descending x rest ;; Ret (y :: placed)))%py
  end.

Definition sort_descending (A : Type) (items : list (pyval * A))
  : result (list A) :=
  (sorted <~ fold_left (fun acc x => (done <~ acc ;; insert_descending x done)%py)
                       items (Ret []) ;;
   Ret (map snd sorted))%py.

(** *** The runtime *)

Definition runtime : PyRuntime := {|
  json_loads := loads;
  json_dumps := dumps;
  json_dumps_indent2 := dumps_indent 0;
  str_encode := list_byte_of_string;
  bytes_decode := decode;
  decode_error_text := fun _ => "'utf-8' codec can't decode the data";
  loads_error_text := fun _ => "Expecting value";
  py_repr := repr;
  sorted_reverse := sort_descending
|}.

(** The bytes of a JSON text written with [']. *)
Definition json_bytes (s : string) : bytes := list_byte_of_string (json_text s).

End Sample.

(* ================================================================== *)
(** * The vocabulary of the statements                                 *)
(* ================================================================== *)

Module Spec.
Import Py.
Import BlenderConnection.
Import BlenderTools.

(** The world in which the global names the object of a session. *)
Definition world_of (s : session) : world :=
  {| blender_connection := Some (self s); wnet := net s |}.

(** A method body run from a world: its outcome and the world after. *)
Definition run_in {A} (body : M session A) (s : session) : result A * world :=
  (fst (body s), world_of (snd (body s))).

(** The session once a request went out on socket [fd]: the script moved
    on by one exchange and the trace grew by the send. *)
Definition after_send (fd : nat) (data : bytes) (s : session) : session :=
  {| self := self s;
     net := {| connect_script := connect_script (net s);
               exchange_script := tl (exchange_script (net s));
               next_fd := next_fd (net s);
               trace := (trace (net s) ++ [EvSend fd data])%list |} |}.

(** The same with the cached socket dropped. *)
Definition invalidated (s : session) : session :=
  {| self := {| host := host (self s); port := port (self s); socket := None |};
     net := net s |}.

(** The session after a connect attempt on a session without a socket. *)
Definition connected_to (ok : bool) (s : session) : session :=
  {| self := {| host := host (self s); port := port (self s);
                socket := if ok then Some (next_fd (net s)) else None |};
     net := {| connect_script := tl (connect_script (net s));
               exchange_script := exchange_script (net s);
               next_fd := S (next_fd (net s));
               trace := (trace (net s)
                         ++ [EvConnect (host (self s)) (port (self s))
                                       (next_fd (net s)) ok])%list |} |}.

(** The session with these exchanges to come instead of its own. *)
Definition with_script (exs : list exchange) (s : session) : session :=
  {| self := self s;
     net := {| connect_script := connect_script (net s);
               exchange_script := exs;
               next_fd := next_fd (net s);
               trace := trace (net s) |} |}.

(** [d.get(k, default)] on a mapping. *)
Definition or_default (d : list (string * pyval)) (k : string)
  (default : pyval) : pyval :=
  match dict_get d k with Some v => v | None => default end.

(** The payloads of the sends of a trace, in order. *)
Fixpoint sent (evs : list event) : list bytes :=
  match evs with
  | [] => []
  | EvSend _ data :: rest => data :: sent rest
  | _ :: rest => sent rest
  end.

(** The first [k] outcomes of a socket, when they are [k] chunks with
    something in them. *)
Fixpoint leading_chunks (k : nat) (sock : list recv_event)
  : option (list bytes) :=
  match k with
  | O => Some []
  | S k' =>
      match sock with
      | RecvData (b :: chunk) :: rest =>
          option_map (cons (b :: chunk)) (leading_chunks k' rest)
      | _ => None
      end
  end.

(** Nothing more comes: the next [recv] times out (also when the script
    is over) or returns the empty chunk of a closed connection. *)
Definition goes_quiet (sock : list recv_event) : Prop :=
  match sock with
  | [] => True
  | RecvRaise e :: _ => error_class e = Timeout
  | RecvData [] :: _ => True
  | RecvData (_ :: _) :: _ => False
  end.

Section WithRuntime.
Context {R : PyRuntime}.

(** [data] parses: [json.loads(data.decode('utf-8'))] returns. *)
Definition parses (data : bytes) : Prop := exists v, loads_bytes data = Ret v.

(** [data] is not JSON yet: the same call raises [json.JSONDecodeError]. *)
Definition incomplete (data : bytes) : Prop :=
  exists e, loads_bytes data = Raise e /\ is_json_decode_error e = true.

(** The exchange goes through and the bytes read back parse to
    [response]. *)
Definition answers (ex : exchange) (response : pyval) : Prop :=
  send_outcome ex = None
  /\ exists data, receive_full_response (replies ex) = Ret data
                  /\ loads_bytes data = Ret response.

(** The exchange answers with a mapping whose status is not ["error"]
    and [send_command] hands out [result]. *)
Definition yields (ex : exchange) (result : pyval) : Prop :=
  exists d, answers ex (PDict d)
            /\ read_response (PDict d) = Ret result.

(** The exchange answers with status ["error"] and this message text. *)
Definition fails_with (ex : exchange) (text : string) : Prop :=
  exists d, answers ex (PDict d)
            /\ dict_get d "status" = Some (PStr "error")
            /\ text = py_str (or_default d "message"
                                (PStr "Unknown error from Blender")).

(** The trace of [n] polls that found the job pending: a send and a
    five-second sleep each. *)
Fixpoint pending_polls (fd : nat) (poll : bytes) (n : nat) : list event :=
  match n with
  | O => []
  | S n' => EvSend fd poll :: EvSleep 5 :: pending_polls fd poll n'
  end.

(** A [create_rodin_job] result the wrapper accepts, and the three
    identifiers it takes from it. *)
Inductive job_ids : pyval -> pyval -> pyval -> pyval -> Prop :=
| MainSiteJob d job_id subscription_key :
    dict_has d "error" = false ->
    dict_get d "uuid" = Some job_id ->
    py_get (or_default d "jobs" (PDict [])) "subscription_key" PNone
    = Ret subscription_key ->
    job_ids (PDict d) job_id subscription_key PNone
| FalAiJob d request_id :
    dict_has d "error" = false ->
    dict_has d "uuid" = false ->
    dict_get d "request_id" = Some request_id ->
    job_ids (PDict d) PNone PNone request_id.

(** The session after [time.sleep(seconds)]. *)
Definition slept (seconds : Z) (s : session) : session :=
  {| self := self s; net := log_event (EvSleep seconds) (net s) |}.

(** The session after [k] polls that each went out on [fd], were
    answered, and were followed by the five-second sleep. *)
Fixpoint after_polls (fd : nat) (poll : bytes) (k : nat) (s : session)
  : session :=
  match k with
  | O => s
  | S k' => after_polls fd poll k' (slept 5 (after_send fd poll s))
  end.

(** A wrapper stops at its status check: when the check returns a
    mapping whose ["enabled"] is false (or missing), the wrapper returns
    the mapping's ["message"] (or the default text) from the very state
    the check left, and what went out since the wrapper started is at
    most the one status command. *)
Definition short_circuits (tool : M world pyval) (check : M session pyval)
  (status_command : string) (default : pyval) : Prop :=
  forall (s s' : session) (d : list (string * pyval)),
    check s = (Ret (PDict d), s') ->
    truthy (or_default d "enabled" (PBool false)) = false ->
    tool (world_of s) = (Ret (or_default d "message" default), world_of s')
    /\ exists evs,
         trace (net s') = (trace (net s) ++ evs)%list
         /\ (sent evs = [] \/ sent evs = [wire status_command None]).

(** The bytes of one poll request. *)
Definition poll_wire (subscription_key request_id : pyval) : bytes :=
  wire "poll_rodin_job_status" (Some (poll_params subscription_key request_id)).

(** A poll that finds the job still running: the loop sleeps and goes
    round again. *)
Definition pending (ex : exchange) : Prop :=
  exists r, yields ex r /\ check_status r = Ret Pending.

(** A poll answered with a ["status_list"] all of whose entries are
    ["Done"]. *)
Definition all_done (ex : exchange) : Prop :=
  exists d l, yields ex (PDict d)
              /\ dict_get d "status_list" = Some (PList l)
              /\ forall x, In x l -> x = PStr "Done".

(** A poll answered with the ["status_list"] [l], which has an entry
    ["Failed"]. *)
Definition some_failed (ex : exchange) (l : list pyval) : Prop :=
  exists d, yields ex (PDict d)
            /\ dict_get d "status_list" = Some (PList l)
            /\ In (PStr "Failed") l.

(** A status mapping that says the integration is on. *)
Definition enabled (status : pyval) : Prop :=
  exists d, status = PDict d
            /\ truthy (or_default d "enabled" (PBool false)) = true.

End WithRuntime.

End Spec.

(* ================================================================== *)
(** * Sessions to run                                                  *)
(* ================================================================== *)

Module Scenario.
Import Py.
Import BlenderConnection.
Import BlenderTools.

(** A session on socket 0 of [localhost:9876] with these exchanges to
    come. *)
Definition connected (exs : list exchange) : session :=
  {| self := {| host := "localhost"; port := 9876; socket := Some 0 |};
     net := {| connect_script := [];
               exchange_script := exs;
               next_fd := 1;
               trace := [] |} |}.

(** A session without a socket; the connects to come go as [oks]
    says. *)
Definition disconnected_then (oks : list bool) (exs : list exchange)
  : session :=
  {| self := init "localhost" 9876;
     net := {| connect_script := oks;
               exchange_script := exs;
               next_fd := 0;
               trace := [] |} |}.

Definition disconnected (ok : bool) (exs : list exchange) : session :=
  disconnected_then [ok] exs.

(** The response arrives in these pieces (written with ['] for the
    double quote), and then nothing more. *)
Definition reply_in (pieces : list string) : exchange :=
  {| send_outcome := None;
     replies := map (fun piece => RecvData (Sample.json_bytes piece)) pieces |}.

Definition reply (text : string) : exchange := reply_in [text].

(** The request goes out and nothing comes back. *)
Definition silence : exchange := {| send_outcome := None; replies := [] |}.

(** The request goes out and the peer resets the connection. *)
Definition reset : exchange :=
  {| send_outcome := None;
     replies := [RecvRaise {| error_class := ConnectionReset;
                              error_text := "[Errno 104] Connection reset by peer" |}] |}.

Definition box1_created : string :=
  "{'status':'success','result':{'name':'Box1'}}".

Definition unknown_type : string :=
  "{'status':'error','message':'Unknown object type'}".

Definition polyhaven_off : string :=
  "{'status':'success','result':{'enabled':false,'message':'PolyHaven is off'}}".

Definition hyper3d_off : string :=
  "{'status':'success','result':{'enabled':false,'message':'Hyper3D is off'}}".

Definition integration_on : string :=
  "{'status':'success','result':{'enabled':true,'message':'ready'}}".

Definition job_created : string :=
  "{'status':'success','result':{'uuid':'job-1','jobs':{'subscription_key':'key-1'}}}".

Definition poll_waiting : string :=
  "{'status':'success','result':{'status_list':['Waiting','Done']}}".

Definition poll_done : string :=
  "{'status':'success','result':{'status_list':['Done','Done']}}".

Definition poll_failed : string :=
  "{'status':'success','result':{'status_list':['Done','Failed']}}".

Definition poll_empty : string :=
  "{'status':'success','result':{'status_list':[]}}".

Definition import_succeeded : string :=
  "{'status':'success','result':{'succeed':true}}".

(** A status answer whose result is a list. *)
Definition status_as_list : string :=
  "{'status':'success','result':[]}".

End Scenario.

(* ================================================================== *)
(** * More vocabulary and more sessions                                *)
(* ================================================================== *)

Module Further.
Import Py.
Import BlenderConnection.
Import BlenderTools.
Import Spec.

(** The sleeps of a trace, in order. *)
Fixpoint sleeps (evs : list event) : list Z :=
  match evs with
  | [] => []
  | EvSleep seconds :: rest => seconds :: sleeps rest
  | _ :: rest => sleeps rest
  end.

(** The sockets a trace closes, in order. *)
Fixpoint closes (evs : list event) : list nat :=
  match evs with
  | [] => []
  | EvClose fd :: rest => fd :: closes rest
  | _ :: rest => closes rest
  end.

(** What a run added to a trace: at most [sends] requests and at most
    [naps] sleeps, each of five seconds, and no close. *)
Definition adds_at_most (sends naps : nat) (before after : list event)
  : Prop :=
  exists evs,
    after = (before ++ evs)%list
    /\ length (sent evs) <= sends
    /\ length (sleeps evs) <= naps
    /\ Forall (fun seconds => seconds = 5%Z) (sleeps evs)
    /\ closes evs = [].

(** A method that adds no more than that, from whatever session. *)
Definition costs {A} (sends naps : nat) (m : M session A) : Prop :=
  forall s, adds_at_most sends naps (trace (net s)) (trace (net (snd (m s)))).

(** Nobody listens: there is no socket, and every connect to come
    fails. *)
Definition unreachable (s : session) : Prop :=
  socket (self s) = None
  /\ forallb negb (connect_script (net s)) = true.

(** The session after [n] connects that failed. *)
Fixpoint after_refusals (n : nat) (s : session) : session :=
  match n with
  | O => s
  | S n' => after_refusals n' (Spec.connected_to false s)
  end.

(** The entry an optional argument makes in the parameters when the
    code asks [if x:], and when it asks [if x is not None:]. *)
Definition if_truthy (key : string) (x : option pyval)
  : list (string * pyval) :=
  match x with
  | Some v => if truthy v then [(key, v)] else []
  | None => []
  end.

Definition if_given (key : string) (x : option pyval)
  : list (string * pyval) :=
  match x with
  | Some v => [(key, v)]
  | None => []
  end.

Section WithRuntime.
Context {R : PyRuntime}.



End WithRuntime.

(** The tool list of an agent: the basic tools; with [include_polyhaven]
    the PolyHaven status tool, and the four PolyHaven tools when it is
    on; with [include_hyper3d] the Hyper3D status tool, and the
    generation tool when it is on. *)
Definition offered (include_polyhaven polyhaven_on include_hyper3d hyper3d_on : bool)
  : list BlenderAgent.tool :=
  (BlenderAgent.basic_tools
   ++ (if include_polyhaven then
         BlenderAgent.get_polyhaven_status
         :: (if polyhaven_on then
               [BlenderAgent.get_polyhaven_categories;
                BlenderAgent.search_polyhaven_assets;
                BlenderAgent.download_polyhaven_asset;
                BlenderAgent.set_texture]
             else [])
       else [])
   ++ (if include_hyper3d then
         BlenderAgent.get_hyper3d_status
         :: (if hyper3d_on then [BlenderAgent.generate_3d_model_from_text]
             else [])
       else []))%list.

(** The session [create_blender_agent] starts from: a new object, and
    the network as it is. *)
Definition fresh_session (h : string) (p : Z) (w : world) : session :=
  {| self := init h p; net := wnet w |}.

(** [sendall] times out. *)
Definition send_times_out : exchange :=
  {| send_outcome := Some {| error_class := Timeout; error_text := "timed out" |};
     replies := [] |}.

(** A response whose two-byte character (the e acute of "cafe") is cut
    in the middle by the chunking. *)
Definition cut_character : exchange :=
  {| send_outcome := None;
     replies :=
       [RecvData (Sample.json_bytes "{'status':'success','result':{'name':'caf"
                  ++ [Byte.xc3])%list;
        RecvData (Byte.xa9 :: Sample.json_bytes "'}}")] |}.

(** The same response in one chunk. *)
Definition whole_character : exchange :=
  {| send_outcome := None;
     replies :=
       [RecvData (Sample.json_bytes "{'status':'success','result':{'name':'caf"
                  ++ Byte.xc3 :: Byte.xa9 :: Sample.json_bytes "'}}")%list] |}.

(** Responses and results of the runs: a response without a status, a
    response that is no object, a name Blender changed, a result
    without a name, an error inside a result, and jobs of the other
    shape. *)
Definition no_status : string := "{'result':{'objects':3}}".

Definition not_an_object : string := "[1, 2]".

Definition renamed : string :=
  "{'status':'success','result':{'name':'Box1.001'}}".

Definition nameless : string :=
  "{'status':'success','result':{'type':'CUBE'}}".

Definition error_in_result : string :=
  "{'status':'success','result':{'error':'File not found'}}".

Definition job_without_id : string :=
  "{'status':'success','result':{'state':'queued'}}".

Definition job_by_request : string :=
  "{'status':'success','result':{'request_id':'req-1'}}".

Definition poll_in_queue : string :=
  "{'status':'success','result':{'status':'IN_QUEUE'}}".

Definition poll_completed : string :=
  "{'status':'success','result':{'status':'COMPLETED'}}".


(** A world in which no connection was set yet, on this network. *)
Definition unset (s : session) : world :=
  {| blender_connection := None; wnet := net s |}.

End Further.

(* ================================================================== *)
(** * Facts about the client                                           *)
(* ================================================================== *)

Module ConnectionFacts.
Import Py.
Import BlenderConnection.
Import Spec.
Local Open Scope py_scope.

Section WithRuntime.
Context {R : PyRuntime}.

Lemma loads_bytes_cases (data : bytes) :
  parses data \/ incomplete data
  \/ exists e, loads_bytes data = Raise e /\ exn_cls e = UnicodeDecodeError.
Proof.
  unfold parses, incomplete, loads_bytes.
  destruct (bytes_decode data) as [text|].
  - destruct (json_loads text) as [v|].
    + left. now exists v.
    + right. left. eexists. split; [reflexivity|reflexivity].
  - right. right. eexists. split; reflexivity.
Qed.

Lemma parses_not_incomplete (data : bytes) : parses data -> ~ incomplete data.
Proof. intros [v Hv] [e [He _]]. congruence. Qed.

Lemma socket_error_not_json (e : socket_error) :
  is_json_decode_error (exn_of e) = false.
Proof. destruct e as [[] ?]; reflexivity. Qed.

(** What the loop of [receive_full_response] can end with, from any
    accumulator. *)
Lemma receive_loop_returned (sock : list recv_event) :
  forall chunks data,
    receive_loop chunks sock = Returned data ->
    exists k cs,
      0 < k /\ leading_chunks k sock = Some cs
      /\ data = join_bytes (chunks ++ cs)
      /\ parses data
      /\ forall j, 0 < j < k ->
           incomplete (join_bytes (chunks ++ firstn j cs)).
Proof.
  induction sock as [|ev rest IH]; intros chunks data H; simpl in H.
  - discriminate.
  - destruct ev as [chunk|e].
    + destruct chunk as [|b chunk].
      * destruct chunks; discriminate.
      * destruct (loads_bytes (join_bytes (chunks ++ [b :: chunk]))) as [v|e] eqn:Hl.
        -- inversion H; subst.
           exists 1. eexists. simpl. split; [lia|]. split; [reflexivity|].
           split; [reflexivity|]. split; [now exists v|]. intros j Hj; lia.
        -- destruct (is_json_decode_error e) eqn:Hj; [|discriminate].
           destruct (IH _ _ H) as (k & cs & Hk & Hlead & Hdata & Hp & Hinc).
           exists (S k), ((b :: chunk) :: cs). simpl. rewrite Hlead. simpl.
           rewrite <- app_assoc in Hdata. simpl in Hdata.
           repeat split; try lia; auto.
           intros j Hj'. destruct j as [|j]; [lia|]. simpl.
           destruct j as [|j].
           ++ simpl. exists e. split; auto.
           ++ specialize (Hinc (S j)). rewrite <- app_assoc in Hinc.
              simpl in Hinc. apply Hinc. lia.
    + destruct (is_socket_timeout (exn_of e)); discriminate.
Qed.

Lemma receive_loop_returns (sock : list recv_event) :
  forall chunks k cs,
    0 < k -> leading_chunks k sock = Some cs ->
    parses (join_bytes (chunks ++ cs)) ->
    (forall j, 0 < j < k -> incomplete (join_bytes (chunks ++ firstn j cs))) ->
    receive_loop chunks sock = Returned (join_bytes (chunks ++ cs)).
Proof.
  induction sock as [|ev rest IH]; intros chunks k cs Hk Hlead Hp Hinc.
  - destruct k; [lia|discriminate].
  - destruct k as [|k]; [lia|]. simpl in Hlead.
    destruct ev as [[|b chunk]|e]; try discriminate.
    destruct (leading_chunks k rest) as [cs'|] eqn:Hl'; [|discriminate].
    simpl in Hlead. inversion Hlead; subst cs. clear Hlead. simpl.
    destruct k as [|k].
    + simpl in Hl'. inversion Hl'; subst cs'.
      destruct Hp as [v Hv]. now rewrite Hv.
    + assert (H1 : incomplete (join_bytes (chunks ++ [b :: chunk]))).
      { specialize (Hinc 1). simpl in Hinc. apply Hinc. lia. }
      destruct H1 as (e & He & Hj). rewrite He, Hj.
      replace (chunks ++ (b :: chunk) :: cs')%list
        with ((chunks ++ [b :: chunk]) ++ cs')%list
        by (rewrite <- app_assoc; reflexivity).
      apply IH with (k := S k); auto; try lia.
      * rewrite <- app_assoc. exact Hp.
      * intros j Hj'. rewrite <- app_assoc. simpl.
        apply (Hinc (S j)). lia.
Qed.

(** When the loop is left without a value, what was accumulated is what
    it started with or is not JSON yet. *)
Lemma receive_loop_broke (sock : list recv_event) :
  forall chunks cs,
    receive_loop chunks sock = Broke cs ->
    cs = chunks \/ incomplete (join_bytes cs).
Proof.
  induction sock as [|ev rest IH]; intros chunks cs H; simpl in H.
  - inversion H. now left.
  - destruct ev as [[|b chunk]|e].
    + destruct chunks; [discriminate|]. inversion H. now left.
    + destruct (loads_bytes (join_bytes (chunks ++ [b :: chunk]))) as [v|e] eqn:Hl;
        [discriminate|].
      destruct (is_json_decode_error e) eqn:Hj; [|discriminate].
      destruct (IH _ _ H) as [->|Hinc]; [|now right].
      right. exists e. now split.
    + destruct (is_socket_timeout (exn_of e)); [|discriminate].
      inversion H. now left.
Qed.

(** The loop never lets a [JSONDecodeError] out. *)
Lemma receive_loop_raised (sock : list recv_event) :
  forall chunks e,
    receive_loop chunks sock = Raised e -> is_json_decode_error e = false.
Proof.
  induction sock as [|ev rest IH]; intros chunks e H; simpl in H.
  - discriminate.
  - destruct ev as [[|b chunk]|e'].
    + destruct chunks; inversion H; reflexivity.
    + destruct (loads_bytes (join_bytes (chunks ++ [b :: chunk]))) as [v|e0] eqn:Hl;
        [discriminate|].
      destruct (is_json_decode_error e0) eqn:Hj.
      * eauto.
      * inversion H; subst. exact Hj.
    + destruct (is_socket_timeout (exn_of e')); [discriminate|].
      inversion H; subst. apply socket_error_not_json.
Qed.

Lemma leading_chunks_length (k : nat) :
  forall sock cs, leading_chunks k sock = Some cs -> length cs = k.
Proof.
  induction k as [|k IH]; intros sock cs H; simpl in H.
  - inversion H. reflexivity.
  - destruct sock as [|[[|b chunk]|e] rest]; try discriminate.
    destruct (leading_chunks k rest) as [cs'|] eqn:Hl'; [|discriminate].
    simpl in H. inversion H. simpl. f_equal. eauto.
Qed.

(** Chunks that never add up to JSON, and then nothing: the loop is left
    with what was accumulated. *)
Lemma receive_loop_goes_quiet (k : nat) :
  forall sock chunks cs,
    leading_chunks k sock = Some cs ->
    (forall j, 0 < j <= k -> incomplete (join_bytes (chunks ++ firstn j cs))) ->
    goes_quiet (skipn k sock) ->
    (chunks ++ cs)%list <> [] ->
    receive_loop chunks sock = Broke (chunks ++ cs).
Proof.
  induction k as [|k IH]; intros sock chunks cs Hlead Hinc Hquiet Hne.
  - simpl in Hlead. inversion Hlead; subst cs. rewrite app_nil_r in *.
    simpl in Hquiet. destruct sock as [|[[|b chunk]|e] rest]; simpl.
    + reflexivity.
    + destruct chunks; [congruence|reflexivity].
    + contradiction.
    + unfold is_socket_timeout, exn_of. simpl. rewrite Hquiet. reflexivity.
  - simpl in Hlead. destruct sock as [|[[|b chunk]|e] rest]; try discriminate.
    destruct (leading_chunks k rest) as [cs'|] eqn:Hl'; [|discriminate].
    simpl in Hlead. inversion Hlead; subst cs. simpl.
    destruct (Hinc 1 ltac:(lia)) as (e & He & Hj). simpl in He.
    rewrite He, Hj.
    replace (chunks ++ (b :: chunk) :: cs')%list
      with ((chunks ++ [b :: chunk]) ++ cs')%list
      by (rewrite <- app_assoc; reflexivity).
    apply IH; auto.
    + intros j Hj'. rewrite <- app_assoc. apply (Hinc (S j)). lia.
    + rewrite <- app_assoc. simpl. intros Habs.
      apply app_eq_nil in Habs. destruct Habs; discriminate.
Qed.

Lemma receive_full_response_ret_iff (sock : list recv_event) (data : bytes) :
  receive_full_response sock = Ret data
  <-> exists k cs,
        0 < k /\ leading_chunks k sock = Some cs
        /\ data = join_bytes cs
        /\ parses data
        /\ forall j, 0 < j < k -> incomplete (join_bytes (firstn j cs)).
Proof.
  unfold receive_full_response. split.
  - destruct (receive_loop [] sock) as [d|cs|e] eqn:Hloop.
    + intros H. inversion H; subst.
      destruct (receive_loop_returned _ _ _ Hloop)
        as (k & cs & Hk & Hlead & Hdata & Hp & Hinc).
      exists k, cs. auto.
    + destruct cs as [|c cs]; [discriminate|].
      destruct (receive_loop_broke _ _ _ Hloop) as [Heq|(e & He & Hj)];
        [discriminate|].
      rewrite He, Hj. discriminate.
    + discriminate.
  - intros (k & cs & Hk & Hlead & Hdata & Hp & Hinc). subst data.
    rewrite (receive_loop_returns sock [] k cs); auto.
Qed.

Lemma receive_full_response_parses (sock : list recv_event) (data : bytes) :
  receive_full_response sock = Ret data -> parses data.
Proof.
  intros H. apply receive_full_response_ret_iff in H.
  destruct H as (k & cs & _ & _ & _ & Hp & _). exact Hp.
Qed.

Lemma receive_full_response_raise (sock : list recv_event) (e : exn) :
  receive_full_response sock = Raise e -> is_json_decode_error e = false.
Proof.
  unfold receive_full_response.
  destruct (receive_loop [] sock) as [d|cs|e'] eqn:Hloop.
  - discriminate.
  - destruct cs as [|c cs].
    + intros H. inversion H. reflexivity.
    + destruct (loads_bytes (join_bytes (c :: cs))) as [v|e0]; [discriminate|].
      destruct (is_json_decode_error e0) eqn:Hj; intros H; inversion H; subst;
        auto.
  - intros H. inversion H; subst. eapply receive_loop_raised; eauto.
Qed.

(** ** connect *)

Lemma connect_cached (s : session) (fd : nat) :
  socket (self s) = Some fd -> connect s = (Ret true, s).
Proof. intros H. unfold connect. now rewrite H. Qed.

Lemma connect_fresh (s : session) :
  socket (self s) = None ->
  let ok := match connect_script (net s) with [] => false | b :: _ => b end in
  connect s = (Ret ok, connected_to ok s).
Proof.
  intros H. unfold connect. rewrite H.
  unfold bind, open_socket, connected_to. simpl.
  destruct (connect_script (net s)) as [|[] ?]; reflexivity.
Qed.

Lemma connect_returns (s : session) :
  exists ok s', connect s = (Ret ok, s')
                /\ (ok = true -> exists fd, socket (self s') = Some fd)
                /\ (ok = false -> socket (self s') = None).
Proof.
  destruct (socket (self s)) as [fd|] eqn:H.
  - exists true, s. rewrite (connect_cached s fd H).
    split; [reflexivity|]. split; [eauto|discriminate].
  - rewrite (connect_fresh s H). do 2 eexists. split; [reflexivity|].
    destruct (connect_script (net s)) as [|[] ?]; simpl;
      split; intros; try discriminate; eauto.
Qed.

(** ** send_command *)

Lemma read_response_raise (response : pyval) (e : exn) :
  read_response response = Raise e -> is_json_decode_error e = false.
Proof.
  unfold read_response, py_get.
  destruct response; simpl; try (intros H; inversion H; reflexivity).
  destruct (eq_str _ "error"); intros H; inversion H; reflexivity.
Qed.

(** With a socket at hand [send_command] is its [try] statement. *)
Lemma send_command_connected (c : string) p (s : session) (fd : nat) :
  socket (self s) = Some fd ->
  send_command c p s
  = try_except (send_command_try c p) send_command_except s.
Proof. intros H. unfold send_command, bind. now rewrite H. Qed.

Lemma sendall_connected (data : bytes) (s : session) (fd : nat) ex rest :
  socket (self s) = Some fd ->
  exchange_script (net s) = ex :: rest ->
  sendall data s
  = (match send_outcome ex with
     | Some e => Raise (exn_of e)
     | None => Ret (replies ex)
     end, after_send fd data s).
Proof.
  intros Hs Hx. unfold sendall, after_send. rewrite Hs, Hx. simpl.
  destruct (send_outcome ex); reflexivity.
Qed.

Lemma send_command_try_answered (c : string) p (s : session) (fd : nat)
  ex rest response :
  socket (self s) = Some fd ->
  exchange_script (net s) = ex :: rest ->
  answers ex response ->
  send_command_try c p s
  = (read_response response, after_send fd (wire c p) s).
Proof.
  intros Hs Hx (Hsend & data & Hrecv & Hload).
  unfold send_command_try, bind.
  rewrite (sendall_connected _ s fd ex rest Hs Hx), Hsend.
  unfold lift. rewrite Hrecv, Hload.
  destruct (read_response response); reflexivity.
Qed.

(** The [try] block never lets a [JSONDecodeError] out: what
    [receive_full_response] returned has been parsed once already. *)
Lemma send_command_try_raise (c : string) p (s s' : session) (e : exn) :
  send_command_try c p s = (Raise e, s') -> is_json_decode_error e = false.
Proof.
  unfold send_command_try, bind, sendall.
  destruct (socket (self s)) as [fd|].
  - destruct (send_outcome _) as [err|].
    + intros H. inversion H. apply socket_error_not_json.
    + unfold lift.
      destruct (receive_full_response _) as [data|e0] eqn:Hrecv.
      * destruct (receive_full_response_parses _ _ Hrecv) as [v Hv].
        rewrite Hv.
        destruct (read_response v) as [r|e1] eqn:Hr; intros H; inversion H.
        subst. eapply read_response_raise; eauto.
      * intros H. inversion H; subst.
        eapply receive_full_response_raise; eauto.
  - intros H. inversion H. reflexivity.
Qed.

Lemma send_command_except_result (e : exn) (s : session) :
  is_json_decode_error e = false ->
  exists text, send_command_except e s
               = (Raise (Exn PlainException text), invalidated s).
Proof.
  intros Hj. unfold send_command_except. rewrite Hj.
  destruct (is_socket_timeout e); [|destruct (is_connection_error e)];
    eexists; reflexivity.
Qed.

Lemma send_command_yields (c : string) p (s : session) (fd : nat)
  ex rest result :
  socket (self s) = Some fd ->
  exchange_script (net s) = ex :: rest ->
  yields ex result ->
  send_command c p s = (Ret result, after_send fd (wire c p) s).
Proof.
  intros Hs Hx (d & Hans & Hread).
  rewrite (send_command_connected c p s fd Hs). unfold try_except.
  rewrite (send_command_try_answered c p s fd ex rest _ Hs Hx Hans), Hread.
  reflexivity.
Qed.

Lemma read_response_error (d : list (string * pyval)) :
  dict_get d "status" = Some (PStr "error") ->
  read_response (PDict d)
  = Raise (Exn PlainException
             (py_str (or_default d "message"
                        (PStr "Unknown error from Blender")))).
Proof. intros H. unfold read_response. simpl. rewrite H. reflexivity. Qed.

Lemma send_command_fails (c : string) p (s : session) (fd : nat)
  ex rest text :
  socket (self s) = Some fd ->
  exchange_script (net s) = ex :: rest ->
  fails_with ex text ->
  send_command c p s
  = (Raise (Exn PlainException ("Communication error with Blender: " ++ text)),
     invalidated (after_send fd (wire c p) s)).
Proof.
  intros Hs Hx (d & Hans & Hstatus & Htext).
  rewrite (send_command_connected c p s fd Hs). unfold try_except.
  rewrite (send_command_try_answered c p s fd ex rest _ Hs Hx Hans).
  rewrite (read_response_error d Hstatus), <- Htext. reflexivity.
Qed.

(** Whatever [send_command] raises, the cached socket is gone. *)
Lemma send_command_raise_invalidates (c : string) p (s s' : session) (e : exn) :
  send_command c p s = (Raise e, s') -> socket (self s') = None.
Proof.
  unfold send_command, bind.
  destruct (socket (self s)) as [fd|] eqn:Hs.
  - simpl. unfold try_except.
    destruct (send_command_try c p s) as [[r|e0] s0] eqn:Htry;
      [discriminate|].
    destruct (send_command_except_result e0 s0
                (send_command_try_raise _ _ _ _ _ Htry)) as [text Hex].
    rewrite Hex. intros H. inversion H. reflexivity.
  - rewrite (connect_fresh s Hs).
    destruct (connect_script (net s)) as [|[] ?]; simpl.
    + intros H. inversion H. reflexivity.
    + unfold try_except.
      destruct (send_command_try c p _) as [[r|e0] s0] eqn:Htry;
        [discriminate|].
      destruct (send_command_except_result e0 s0
                  (send_command_try_raise _ _ _ _ _ Htry)) as [text Hex].
      rewrite Hex. intros H. inversion H. reflexivity.
    + intros H. inversion H. reflexivity.
Qed.

Lemma send_command_via_connect (c : string) p (s s1 : session) :
  connect s = (Ret true, s1) ->
  send_command c p s
  = try_except (send_command_try c p) send_command_except s1.
Proof.
  intros H. unfold send_command, bind.
  destruct (socket (self s)) as [fd|] eqn:Hs.
  - rewrite (connect_cached s fd Hs) in H. inversion H; subst. reflexivity.
  - rewrite H. reflexivity.
Qed.

(** A session without a socket: the first thing [send_command] does to
    the outside is a connect, on a socket of its own, and whatever it
    sends goes to that socket. *)
Lemma send_command_reconnects (c : string) p (s : session) :
  socket (self s) = None ->
  exists ok evs,
    trace (net (snd (send_command c p s)))
    = (trace (net s)
       ++ EvConnect (host (self s)) (port (self s)) (next_fd (net s)) ok
       :: evs)%list
    /\ (evs = [] \/ evs = [EvSend (next_fd (net s)) (wire c p)]).
Proof.
  intros Hs. unfold send_command, bind. rewrite Hs, (connect_fresh s Hs).
  destruct (connect_script (net s)) as [|[] script] eqn:Hscript; simpl.
  - exists false, []. simpl. auto.
  - exists true, [EvSend (next_fd (net s)) (wire c p)]. split; [|auto].
    unfold try_except.
    destruct (send_command_try c p (connected_to true s)) as [[r|e] s0] eqn:Htry.
    + assert (Htr : trace (net s0)
                    = (trace (net (connected_to true s))
                       ++ [EvSend (next_fd (net s)) (wire c p)])%list).
      { revert Htry. unfold send_command_try, bind, sendall, lift. simpl.
        destruct (send_outcome _); [discriminate|].
        destruct (receive_full_response _); [|discriminate].
        destruct (loads_bytes _); [|discriminate].
        destruct (read_response _); [|discriminate].
        intros H. inversion H. reflexivity. }
      simpl. rewrite Htr. simpl. rewrite <- app_assoc. reflexivity.
    + assert (Htr : trace (net s0)
                    = (trace (net (connected_to true s))
                       ++ [EvSend (next_fd (net s)) (wire c p)])%list).
      { revert Htry. unfold send_command_try, bind, sendall, lift. simpl.
        destruct (send_outcome _); [intros H; inversion H; reflexivity|].
        destruct (receive_full_response _);
          [|intros H; inversion H; reflexivity].
        destruct (loads_bytes _); [|intros H; inversion H; reflexivity].
        destruct (read_response _); intros H; inversion H; reflexivity. }
      destruct (send_command_except_result e s0
                  (send_command_try_raise _ _ _ _ _ Htry)) as [text Hex].
      rewrite Hex. simpl. rewrite Htr. simpl. rewrite <- app_assoc. reflexivity.
  - exists false, []. simpl. auto.
Qed.

(** ** The status checks *)

Lemma status_check_returns (c : string) (s : session) :
  exists v s',
    try_except (send_command c None) (fun e => ret (status_failure e)) s
    = (Ret v, s')
    /\ ((send_command c None s = (Ret v, s'))
        \/ exists e, send_command c None s = (Raise e, s')
                     /\ v = status_failure e).
Proof.
  unfold try_except.
  destruct (send_command c None s) as [[v|e] s'] eqn:H.
  - exists v, s'. auto.
  - exists (status_failure e), s'. split; [reflexivity|]. right. eauto.
Qed.

End WithRuntime.

End ConnectionFacts.

(* ================================================================== *)
(** * The client: the properties of the specification                  *)
(* ================================================================== *)

Import Py.
Import Spec.
Import ConnectionFacts.

Section ClientProperties.
Context {R : PyRuntime}.

(** C8.  [connect] is idempotent: with a socket handle cached it answers
    [True] and leaves the whole session as it was (no socket is made, no
    connect goes out, the handle stays); so after a connect that
    succeeded, connecting again changes nothing. *)
Theorem connect_idempotent :
  (forall (s : BlenderConnection.session) (fd : nat),
      BlenderConnection.socket (BlenderConnection.self s) = Some fd ->
      BlenderConnection.connect s = (Ret true, s))
  /\ (forall s s1 : BlenderConnection.session,
         BlenderConnection.connect s = (Ret true, s1) ->
         BlenderConnection.connect s1 = (Ret true, s1)).
Proof.
  split.
  - exact connect_cached.
  - intros s s1 H.
    destruct (connect_returns s) as (ok & s' & Hc & Hok & _).
    rewrite H in Hc. inversion Hc; subst.
    destruct (Hok eq_refl) as [fd Hfd]. now apply connect_cached with fd.
Qed.

(** C7.  [receive_full_response] returns [data] exactly when [data] is
    the first [k] chunks received, [k >= 1], it parses as JSON, and no
    shorter accumulation did (each raised [JSONDecodeError] and the loop
    went on).  In every other case it raises: always when no
    accumulation of received chunks parses; with "Incomplete JSON
    response received" when the chunks received before a timeout or the
    close of the connection never added up to JSON; with "No data
    received" or "Connection closed before receiving any data" when a
    timeout or the close came first. *)
Theorem receive_full_response_complete_json
  (sock : list BlenderConnection.recv_event) :
  (forall data,
      BlenderConnection.receive_full_response sock = Ret data
      <-> exists k cs,
            0 < k /\ leading_chunks k sock = Some cs
            /\ data = join_bytes cs
            /\ parses data
            /\ forall j, 0 < j < k -> incomplete (join_bytes (firstn j cs)))
  /\ ((forall k cs, 0 < k -> leading_chunks k sock = Some cs ->
                    ~ parses (join_bytes cs)) ->
      exists e, BlenderConnection.receive_full_response sock = Raise e)
  /\ (forall k cs,
         0 < k -> leading_chunks k sock = Some cs ->
         (forall j, 0 < j <= k -> incomplete (join_bytes (firstn j cs))) ->
         goes_quiet (skipn k sock) ->
         BlenderConnection.receive_full_response sock
         = Raise (Exn PlainException "Incomplete JSON response received"))
  /\ (goes_quiet sock ->
      BlenderConnection.receive_full_response sock
      = Raise (Exn PlainException
                 (match sock with
                  | BlenderConnection.RecvData _ :: _ =>
                      "Connection closed before receiving any data"
                  | _ => "No data received"
                  end))).
Proof.
  split; [|split; [|split]].
  - intros data. apply receive_full_response_ret_iff.
  - intros Hnone.
    destruct (BlenderConnection.receive_full_response sock) as [data|e] eqn:H.
    + apply receive_full_response_ret_iff in H.
      destruct H as (k & cs & Hk & Hlead & Hdata & Hp & _). subst data.
      exfalso. exact (Hnone k cs Hk Hlead Hp).
    + now exists e.
  - intros k cs Hk Hlead Hinc Hquiet.
    unfold BlenderConnection.receive_full_response.
    assert (Hne : ([] ++ cs)%list <> []).
    { destruct k; [lia|]. simpl in Hlead.
      destruct sock as [|[[|b chunk]|e] rest]; try discriminate.
      destruct (leading_chunks k rest); [|discriminate].
      simpl in Hlead. inversion Hlead. discriminate. }
    rewrite (receive_loop_goes_quiet k sock [] cs Hlead Hinc Hquiet Hne).
    simpl in *. destruct cs as [|c cs]; [congruence|].
    destruct (Hinc k) as (e & He & Hj); [lia|].
    rewrite <- (leading_chunks_length k sock _ Hlead), firstn_all in He.
    rewrite He, Hj. reflexivity.
  - intros Hquiet. unfold BlenderConnection.receive_full_response.
    destruct sock as [|[[|b chunk]|e] rest]; simpl in *;
      try reflexivity; try contradiction.
    unfold is_socket_timeout, BlenderConnection.exn_of. simpl.
    rewrite Hquiet. reflexivity.
Qed.

(** C3.  Whenever the bytes [send_command] receives parse as a JSON
    object with status ["success"] and a ["result"] mapping,
    [send_command] returns that mapping, as it is. *)
Theorem send_command_returns_result (c : string)
  (p : option (list (string * pyval)))
  (s s1 : BlenderConnection.session) ex rest data d r :
  BlenderConnection.connect s = (Ret true, s1) ->
  BlenderConnection.exchange_script (BlenderConnection.net s1) = ex :: rest ->
  BlenderConnection.send_outcome ex = None ->
  BlenderConnection.receive_full_response (BlenderConnection.replies ex)
  = Ret data ->
  loads_bytes data = Ret (PDict d) ->
  dict_get d "status" = Some (PStr "success") ->
  dict_get d "result" = Some (PDict r) ->
  fst (BlenderConnection.send_command c p s) = Ret (PDict r).
Proof.
  intros Hc Hx Hsend Hrecv Hload Hstatus Hresult.
  rewrite (send_command_via_connect c p s s1 Hc).
  destruct (connect_returns s) as (ok & s' & Hc' & Hok & _).
  rewrite Hc in Hc'. inversion Hc'; subst ok s'.
  destruct (Hok eq_refl) as [fd Hfd].
  unfold try_except.
  rewrite (send_command_try_answered c p s1 fd ex rest (PDict d) Hfd Hx).
  - unfold BlenderConnection.read_response. simpl.
    rewrite Hstatus, Hresult. reflexivity.
  - split; [exact Hsend|]. exists data. auto.
Qed.

(** C6.  Whenever [send_command] raises (a receive timeout and a
    connection error among the causes) the cached socket handle is
    [None] afterwards, and the next [send_command] starts with a
    connect on a new socket, to which alone it sends. *)
Theorem send_command_failure_invalidates (c : string)
  (p : option (list (string * pyval)))
  (s s' : BlenderConnection.session) (e : exn) :
  BlenderConnection.send_command c p s = (Raise e, s') ->
  BlenderConnection.socket (BlenderConnection.self s') = None
  /\ forall c' p',
       exists ok evs,
         BlenderConnection.trace
           (BlenderConnection.net (snd (BlenderConnection.send_command c' p' s')))
         = (BlenderConnection.trace (BlenderConnection.net s')
            ++ BlenderConnection.EvConnect
                 (BlenderConnection.host (BlenderConnection.self s'))
                 (BlenderConnection.port (BlenderConnection.self s'))
                 (BlenderConnection.next_fd (BlenderConnection.net s')) ok
            :: evs)%list
         /\ (evs = []
             \/ evs = [BlenderConnection.EvSend
                         (BlenderConnection.next_fd (BlenderConnection.net s'))
                         (BlenderConnection.wire c' p')]).
Proof.
  intros H.
  assert (Hs : BlenderConnection.socket (BlenderConnection.self s') = None)
    by (eapply send_command_raise_invalidates; eauto).
  split; [exact Hs|].
  intros c' p'. now apply send_command_reconnects.
Qed.

(** C9, amended.  The status checks never raise: whatever
    [send_command] does, they return a value.  When [send_command]
    raised [e] the value is the mapping
    [{"enabled": False, "message": str(e)}]; when it returned, the value
    is its result, unchanged. *)
Theorem status_checks_total (s : BlenderConnection.session) :
  (exists v s',
      BlenderConnection.get_polyhaven_status s = (Ret v, s')
      /\ ((BlenderConnection.send_command "get_polyhaven_status" None s
           = (Ret v, s'))
          \/ exists e,
               BlenderConnection.send_command "get_polyhaven_status" None s
               = (Raise e, s')
               /\ v = PDict [("enabled", PBool false);
                             ("message", PStr (exn_text e))]))
  /\ (exists v s',
         BlenderConnection.get_hyper3d_status s = (Ret v, s')
         /\ ((BlenderConnection.send_command "get_hyper3d_status" None s
              = (Ret v, s'))
             \/ exists e,
                  BlenderConnection.send_command "get_hyper3d_status" None s
                  = (Raise e, s')
                  /\ v = PDict [("enabled", PBool false);
                                ("message", PStr (exn_text e))])).
Proof.
  split; apply status_check_returns.
Qed.

End ClientProperties.

(** ** The same on concrete sessions *)

(** C8 on a session with socket 0 cached. *)
Lemma connect_idempotent_run :
  BlenderConnection.connect (Scenario.connected [])
  = (Ret true, Scenario.connected []).
Proof.
  apply (proj1 connect_idempotent) with (fd := 0).
  reflexivity.
Defined.

(** C7 on a response that arrives in three pieces with more behind it,
    and on half a response followed by silence. *)
Lemma receive_full_response_complete_json_run :
  BlenderConnection.receive_full_response (R := Sample.runtime)
    (BlenderConnection.replies
       (Scenario.reply_in ["{'status':"; " 'success', 'result'"; ": {}}";
                           "{'status': 'late'}"]))
  = Ret (Sample.json_bytes "{'status': 'success', 'result': {}}")
  /\ BlenderConnection.receive_full_response (R := Sample.runtime)
       (BlenderConnection.replies (Scenario.reply_in ["{'status': 'succ"]))
     = Raise (Exn PlainException "Incomplete JSON response received").
Proof.
  split.
  - apply (proj1 (@receive_full_response_complete_json Sample.runtime _)).
    exists 3. eexists. split; [lia|]. split; [vm_compute; reflexivity|].
    split; [vm_compute; reflexivity|]. split.
    + eexists. vm_compute. reflexivity.
    + intros j Hj. destruct j as [|[|[|j]]]; try lia;
        (eexists; split; vm_compute; reflexivity).
  - apply (proj1 (proj2 (proj2
             (@receive_full_response_complete_json Sample.runtime _))))
      with (k := 1) (cs := [Sample.json_bytes "{'status': 'succ"]).
    + lia.
    + vm_compute. reflexivity.
    + intros j Hj. destruct j as [|[|j]]; try lia.
      eexists; split; vm_compute; reflexivity.
    + exact I.
Defined.

(** C3 on a response that arrives in two pieces. *)
Lemma send_command_returns_result_run :
  fst (BlenderConnection.send_command (R := Sample.runtime)
         "create_object" (Some [("type", PStr "CUBE")])
         (Scenario.disconnected true
            [Scenario.reply_in ["{'status':'success','resu";
                                "lt':{'name':'Cube'}}"]]))
  = Ret (PDict [("name", PStr "Cube")]).
Proof.
  eapply (@send_command_returns_result Sample.runtime);
    try (vm_compute; reflexivity).
Defined.

(** C6 on a request that is never answered, and on one the peer
    resets. *)
Lemma send_command_failure_invalidates_run :
  BlenderConnection.socket
    (BlenderConnection.self
       (snd (BlenderConnection.send_command (R := Sample.runtime)
               "get_scene_info" None (Scenario.connected [Scenario.silence]))))
  = None
  /\ BlenderConnection.socket
       (BlenderConnection.self
          (snd (BlenderConnection.send_command (R := Sample.runtime)
                  "get_scene_info" None (Scenario.connected [Scenario.reset]))))
     = None.
Proof.
  split.
  - eapply (@send_command_failure_invalidates Sample.runtime
              "get_scene_info" None (Scenario.connected [Scenario.silence])).
    vm_compute. reflexivity.
  - eapply (@send_command_failure_invalidates Sample.runtime
              "get_scene_info" None (Scenario.connected [Scenario.reset])).
    vm_compute. reflexivity.
Defined.

(** After the request that was never answered, the next one opens
    socket 1 and goes out on it. *)
Example send_command_reconnects_run :
  BlenderConnection.trace
    (BlenderConnection.net
       (snd (BlenderConnection.send_command (R := Sample.runtime)
               "get_scene_info" None
               (snd (BlenderConnection.send_command (R := Sample.runtime)
                       "get_scene_info" None
                       (Scenario.disconnected_then [true; true]
                          [Scenario.silence; Scenario.reply Scenario.box1_created]))))))
  = [BlenderConnection.EvConnect "localhost" 9876 0 true;
     BlenderConnection.EvSend 0
       (BlenderConnection.wire (R := Sample.runtime) "get_scene_info" None);
     BlenderConnection.EvConnect "localhost" 9876 1 true;
     BlenderConnection.EvSend 1
       (BlenderConnection.wire (R := Sample.runtime) "get_scene_info" None)].
Proof. vm_compute. reflexivity. Qed.

(** C9 as stated fails: a status answer whose result is a list comes
    back as that list, which is not a mapping. *)
Lemma status_check_returns_list :
  fst (BlenderConnection.get_polyhaven_status (R := Sample.runtime)
         (Scenario.connected [Scenario.reply Scenario.status_as_list]))
  = Ret (PList [])
  /\ forall d,
       fst (BlenderConnection.get_polyhaven_status (R := Sample.runtime)
              (Scenario.connected [Scenario.reply Scenario.status_as_list]))
       <> Ret (PDict d).
Proof.
  split.
  - vm_compute. reflexivity.
  - intros d. vm_compute. discriminate.
Qed.

(* ================================================================== *)
(** * Facts about the wrappers                                         *)
(* ================================================================== *)

Module ToolFacts.
Import BlenderConnection.
Import BlenderTools.
Local Open Scope py_scope.

Section WithRuntime.
Context {R : PyRuntime}.

(** A wrapper called in the world of a session runs its body on that
    session. *)
Lemma with_blender_run {A} (body : M session A) (s : session) :
  with_blender body (world_of s) = run_in body s.
Proof.
  unfold with_blender, run_in, world_of, get_blender_connection. simpl.
  destruct s as [c n]. simpl. destruct (body _) as [r s']. reflexivity.
Qed.

Lemma run_in_eq {A} (body : M session A) (s s' : session) (r : result A) :
  body s = (r, s') -> run_in body s = (r, world_of s').
Proof. intros H. unfold run_in. now rewrite H. Qed.

(** What [send_command] does to the trace: one send on the cached
    socket; without one, a connect and, if it succeeds, one send. *)
Lemma send_command_trace_connected (c : string) p (s : session) (fd : nat) :
  socket (self s) = Some fd ->
  trace (net (snd (send_command c p s)))
  = (trace (net s) ++ [EvSend fd (wire c p)])%list.
Proof.
  intros Hs. rewrite (send_command_connected c p s fd Hs). unfold try_except.
  destruct (send_command_try c p s) as [[r|e] s0] eqn:Htry.
  - revert Htry. unfold send_command_try, bind, sendall, lift. rewrite Hs.
    destruct (send_outcome _); [discriminate|].
    destruct (receive_full_response _); [|discriminate].
    destruct (loads_bytes _); [|discriminate].
    destruct (read_response _); [|discriminate].
    intros H. inversion H. reflexivity.
  - destruct (send_command_except_result e s0
                (send_command_try_raise _ _ _ _ _ Htry)) as [text Hex].
    rewrite Hex. simpl.
    revert Htry. unfold send_command_try, bind, sendall, lift. rewrite Hs.
    destruct (send_outcome _); [intros H; inversion H; reflexivity|].
    destruct (receive_full_response _); [|intros H; inversion H; reflexivity].
    destruct (loads_bytes _); [|intros H; inversion H; reflexivity].
    destruct (read_response _); intros H; inversion H; reflexivity.
Qed.

Lemma send_command_sends (c : string) p (s : session) :
  exists evs,
    trace (net (snd (send_command c p s))) = (trace (net s) ++ evs)%list
    /\ (sent evs = [] \/ sent evs = [wire c p]).
Proof.
  destruct (socket (self s)) as [fd|] eqn:Hs.
  - exists [EvSend fd (wire c p)].
    rewrite (send_command_trace_connected c p s fd Hs). auto.
  - destruct (send_command_reconnects c p s Hs) as (ok & evs & Htr & Hevs).
    eexists. split; [exact Htr|].
    destruct Hevs as [->| ->]; simpl; auto.
Qed.

Lemma status_check_sends (c : string) (s s' : session) (v : pyval) :
  try_except (send_command c None) (fun e => ret (status_failure e)) s
  = (Ret v, s') ->
  exists evs,
    trace (net s') = (trace (net s) ++ evs)%list
    /\ (sent evs = [] \/ sent evs = [wire c None]).
Proof.
  intros H. destruct (send_command_sends c None s) as (evs & Htr & Hevs).
  exists evs. split; [|exact Hevs]. rewrite <- Htr.
  revert H. unfold try_except.
  destruct (send_command c None s) as [[r|e] s0]; simpl;
    intros H; inversion H; reflexivity.
Qed.

(** The first lines of every optional-integration wrapper. *)
Lemma disabled_stops (check : M session pyval)
  (default : pyval) (rest : M session pyval)
  (s s' : session) (d : list (string * pyval)) :
  check s = (Ret (PDict d), s') ->
  truthy (or_default d "enabled" (PBool false)) = false ->
  (status <- check ;;
   enabled <- lift (py_get status "enabled" (PBool false)) ;;
   if negb (truthy enabled) then lift (py_get status "message" default)
   else rest) s
  = (Ret (or_default d "message" default), s').
Proof.
  intros Hc Hoff. unfold bind, lift. rewrite Hc. simpl.
  unfold or_default in Hoff. rewrite Hoff. reflexivity.
Qed.

End WithRuntime.

End ToolFacts.

Import ToolFacts.

Section WrapperProperties.
Context {R : PyRuntime}.

(** C4.  [create_object(type="CUBE", name="Box1")] on a connected
    session sends the serialised document
    [{"type": "create_object", "params": {"type": "CUBE", "name": "Box1"}}]
    and nothing else, and when the response read back is
    [{"status": "success", "result": {"name": "Box1"}}] it returns
    ["Created CUBE object: Box1"]. *)
Theorem create_object_box1 (s : BlenderConnection.session) (fd : nat)
  ex rest :
  BlenderConnection.socket (BlenderConnection.self s) = Some fd ->
  BlenderConnection.exchange_script (BlenderConnection.net s) = ex :: rest ->
  answers ex (PDict [("status", PStr "success");
                     ("result", PDict [("name", PStr "Box1")])]) ->
  let w' := snd (BlenderTools.create_object "CUBE" (Some "Box1") None None None
                   (world_of s)) in
  fst (BlenderTools.create_object "CUBE" (Some "Box1") None None None
         (world_of s))
  = Ret (PStr "Created CUBE object: Box1")
  /\ BlenderConnection.trace (BlenderTools.wnet w')
     = (BlenderConnection.trace (BlenderConnection.net s)
        ++ [BlenderConnection.EvSend fd
              (str_encode
                 (json_dumps
                    (PDict [("type", PStr "create_object");
                            ("params", PDict [("type", PStr "CUBE");
                                              ("name", PStr "Box1")])])))])%list.
Proof.
  intros Hs Hx Hans. unfold BlenderTools.create_object.
  rewrite with_blender_run. unfold run_in, bind.
  cbn [BlenderTools.set_if_str BlenderTools.set_if_list truthy].
  cbn [String.eqb Ascii.eqb Bool.eqb negb dict_set].
  rewrite (send_command_yields "create_object" _ s fd ex rest
             (PDict [("name", PStr "Box1")]) Hs Hx).
  - simpl. split; reflexivity.
  - eexists. split; [exact Hans|]. reflexivity.
Qed.

(** C5.  Each optional-integration wrapper stops at its status check when
    the integration is off: it returns the status message and sends
    nothing after the status command. *)
Theorem disabled_integration_short_circuits :
  (forall asset_type,
      short_circuits (BlenderTools.get_polyhaven_categories asset_type)
        BlenderConnection.get_polyhaven_status "get_polyhaven_status"
        BlenderTools.polyhaven_disabled)
  /\ (forall asset_type categories,
         short_circuits (BlenderTools.search_polyhaven_assets asset_type categories)
           BlenderConnection.get_polyhaven_status "get_polyhaven_status"
           BlenderTools.polyhaven_disabled)
  /\ (forall asset_id asset_type resolution file_format,
         short_circuits
           (BlenderTools.download_polyhaven_asset asset_id asset_type
              resolution file_format)
           BlenderConnection.get_polyhaven_status "get_polyhaven_status"
           BlenderTools.polyhaven_disabled)
  /\ (forall object_name texture_id,
         short_circuits (BlenderTools.set_texture object_name texture_id)
           BlenderConnection.get_polyhaven_status "get_polyhaven_status"
           BlenderTools.polyhaven_disabled)
  /\ (forall text_prompt model_name bbox_condition,
         short_circuits
           (BlenderTools.generate_3d_model_from_text text_prompt model_name
              bbox_condition)
           BlenderConnection.get_hyper3d_status "get_hyper3d_status"
           BlenderTools.hyper3d_disabled).
Proof.
  repeat match goal with |- _ /\ _ => split end;
    intros; intros s s' d Hcheck Hoff;
    (split;
     [ unfold BlenderTools.get_polyhaven_categories,
         BlenderTools.search_polyhaven_assets,
         BlenderTools.download_polyhaven_asset, BlenderTools.set_texture,
         BlenderTools.generate_3d_model_from_text;
       rewrite with_blender_run; apply run_in_eq; now apply disabled_stops
     | eapply status_check_sends; exact Hcheck ]).
Qed.

End WrapperProperties.

(* ================================================================== *)
(** * Facts about the polling loop                                     *)
(* ================================================================== *)

Module PollingFacts.
Import BlenderConnection.
Import BlenderTools.
Local Open Scope py_scope.

Lemma bind_eq {S A B} (m : M S A) (k : A -> M S B) (s s' : S) (a : A) :
  m s = (Ret a, s') -> bind m k s = k a s'.
Proof. intros H. unfold bind. now rewrite H. Qed.

Lemma bind_raise_eq {S A B} (m : M S A) (k : A -> M S B) (s s' : S) (e : exn) :
  m s = (Raise e, s') -> bind m k s = (Raise e, s').
Proof. intros H. unfold bind. now rewrite H. Qed.

Lemma bind_lift {S A B} (a : A) (k : A -> M S B) (s : S) :
  bind (lift (Ret a)) k s = k a s.
Proof. reflexivity. Qed.

Lemma after_polls_socket fd poll k : forall s,
  socket (self (after_polls fd poll k s)) = socket (self s).
Proof. induction k; intros s; simpl; [reflexivity|]. now rewrite IHk. Qed.

Lemma after_polls_script fd poll k : forall s,
  exchange_script (net (after_polls fd poll k s))
  = skipn k (exchange_script (net s)).
Proof.
  induction k; intros s; simpl; [reflexivity|].
  rewrite IHk. simpl. destruct (exchange_script (net s)); simpl;
    [now rewrite skipn_nil|reflexivity].
Qed.

Lemma after_polls_trace fd poll k : forall s,
  trace (net (after_polls fd poll k s))
  = (trace (net s) ++ pending_polls fd poll k)%list.
Proof.
  induction k; intros s; simpl.
  - now rewrite app_nil_r.
  - rewrite IHk. simpl. rewrite <- !app_assoc. reflexivity.
Qed.

Section WithRuntime.
Context {R : PyRuntime}.

Lemma sleep_eq (seconds : Z) (s : session) :
  sleep seconds s = (Ret tt, slept seconds s).
Proof. reflexivity. Qed.

(** [waiting] polls that find the job pending use up as many attempts
    and leave the loop where it started, later. *)
Lemma poll_loop_pending (fd : nat) (sk rid : pyval) (waiting : list exchange) :
  forall (n : nat) (s : session) (rest : list exchange),
    socket (self s) = Some fd ->
    exchange_script (net s) = (waiting ++ rest)%list ->
    Forall pending waiting ->
    poll_loop (length waiting + n) sk rid s
    = poll_loop n sk rid
        (after_polls fd (wire "poll_rodin_job_status" (Some (poll_params sk rid)))
           (length waiting) s).
Proof.
  induction waiting as [|ex waiting IH]; intros n s rest Hs Hx Hall.
  - reflexivity.
  - inversion Hall as [|? ? (r & Hy & Hcheck) Hall']; subst.
    cbn [length Nat.add poll_loop after_polls].
    rewrite (bind_eq _ _ s _ r
               (send_command_yields _ _ s fd ex (waiting ++ rest) r Hs Hx Hy)).
    unfold lift at 1. unfold bind at 1. rewrite Hcheck.
    unfold bind at 1. rewrite sleep_eq.
    apply IH with (rest := rest); auto.
    simpl. now rewrite Hx.
Qed.

Lemma check_status_done (d : list (string * pyval)) (l : list pyval) :
  dict_get d "status_list" = Some (PList l) ->
  (forall x, In x l -> x = PStr "Done") ->
  check_status (PDict d) = Ret Complete.
Proof.
  intros Hd Hall. unfold check_status, py_in, dict_has. simpl.
  rewrite Hd. simpl.
  replace (forallb (fun status => eq_str status "Done") l) with true;
    [reflexivity|].
  symmetry. apply forallb_forall. intros x Hx. now rewrite (Hall x Hx).
Qed.

Lemma check_status_failed (d : list (string * pyval)) (l : list pyval) :
  dict_get d "status_list" = Some (PList l) ->
  In (PStr "Failed") l ->
  check_status (PDict d)
  = Ret (Failed ("Error: Job failed with status: " ++ py_str (PList l))).
Proof.
  intros Hd Hin. unfold check_status, py_in, dict_has. simpl.
  rewrite Hd. simpl.
  replace (forallb (fun status => eq_str status "Done") l) with false.
  - replace (existsb (fun status => eq_str status "Failed") l) with true;
      [reflexivity|].
    symmetry. apply existsb_exists. exists (PStr "Failed"). now split.
  - symmetry. apply not_true_is_false. intros Hall.
    rewrite forallb_forall in Hall. specialize (Hall _ Hin). discriminate.
Qed.

Lemma status_check_yields (c : string) (s : session) (fd : nat)
  ex rest status :
  socket (self s) = Some fd ->
  exchange_script (net s) = ex :: rest ->
  yields ex status ->
  try_except (send_command c None) (fun e => ret (status_failure e)) s
  = (Ret status, after_send fd (wire c None) s).
Proof.
  intros Hs Hx Hy. unfold try_except.
  now rewrite (send_command_yields c None s fd ex rest status Hs Hx Hy).
Qed.

Lemma after_send_socket fd data s :
  socket (self (after_send fd data s)) = socket (self s).
Proof. reflexivity. Qed.

Lemma after_send_script fd data s :
  exchange_script (net (after_send fd data s)) = tl (exchange_script (net s)).
Proof. reflexivity. Qed.

(** With the integration on and the job created, the wrapper is at its
    polling loop, two requests later. *)
Lemma generate_reaches_polling (text_prompt model_name : string)
  (bbox_condition : option (list pyval)) (s : session) (fd : nat)
  ex_status ex_job rest status job job_id subscription_key request_id :
  socket (self s) = Some fd ->
  exchange_script (net s) = ex_status :: ex_job :: rest ->
  yields ex_status status ->
  enabled status ->
  yields ex_job job ->
  job_ids job job_id subscription_key request_id ->
  generate_3d_model_from_text text_prompt model_name bbox_condition (world_of s)
  = run_in (poll_then_import model_name job_id subscription_key request_id)
      (after_send fd
         (wire "create_rodin_job" (Some (job_params text_prompt bbox_condition)))
         (after_send fd (wire "get_hyper3d_status" None) s)).
Proof.
  intros Hs Hx Hstatus (d & -> & Hon) Hjob Hids.
  unfold generate_3d_model_from_text. rewrite with_blender_run.
  unfold run_in.
  match goal with
  | |- (fst (?body s), _) = (fst (?body' ?s2), _) =>
      assert (Hbody : body s = body' s2); [|now rewrite Hbody]
  end.
  rewrite (bind_eq _ _ s _ (PDict d)
             (status_check_yields "get_hyper3d_status" s fd ex_status _ _
                Hs Hx Hstatus)).
  cbn [py_get]. rewrite bind_lift. fold (or_default d "enabled" (PBool false)).
  rewrite Hon. cbn [negb].
  erewrite bind_eq;
    [|apply (send_command_yields _ _ _ fd ex_job rest job);
      [exact Hs|now rewrite after_send_script, Hx|exact Hjob]].
  destruct Hids as [dj job_id sk Herr Huuid Hsk|dj rid Herr Huuid Hrid].
  - cbn [py_in]. rewrite Herr, bind_lift.
    unfold dict_has. rewrite Huuid, bind_lift.
    cbn [py_getitem]. rewrite Huuid, bind_lift.
    cbn [py_get]. rewrite bind_lift.
    fold (or_default dj "jobs" (PDict [])). rewrite Hsk, bind_lift. reflexivity.
  - cbn [py_in]. rewrite Herr, bind_lift. rewrite Huuid, bind_lift.
    unfold dict_has. rewrite Hrid, bind_lift.
    cbn [py_getitem]. rewrite Hrid, bind_lift. reflexivity.
Qed.

Lemma poll_then_import_completes (model_name : string)
  (job_id sk rid : pyval) (s : session) (fd : nat) waiting ex rest r :
  socket (self s) = Some fd ->
  exchange_script (net s) = (waiting ++ ex :: rest)%list ->
  Forall pending waiting ->
  length waiting < max_attempts ->
  yields ex r ->
  check_status r = Ret Complete ->
  poll_then_import model_name job_id sk rid s
  = import_generated model_name job_id rid
      (after_send fd (poll_wire sk rid)
         (after_polls fd (poll_wire sk rid) (length waiting) s)).
Proof.
  intros Hs Hx Hwait Hlen Hy Hcheck.
  set (s1 := after_polls fd (poll_wire sk rid) (length waiting) s).
  assert (Hs1 : socket (self s1) = Some fd)
    by (unfold s1; now rewrite after_polls_socket).
  assert (Hx1 : exchange_script (net s1) = ex :: rest).
  { unfold s1. rewrite after_polls_script, Hx.
    rewrite skipn_app, skipn_all, Nat.sub_diag. reflexivity. }
  assert (Hloop : poll_loop max_attempts sk rid s
                  = (Ret Completed, after_send fd (poll_wire sk rid) s1)).
  { replace max_attempts
      with (length waiting + S (max_attempts - 1 - length waiting)) by lia.
    rewrite (poll_loop_pending fd sk rid waiting _ s (ex :: rest) Hs Hx Hwait).
    fold (poll_wire sk rid). fold s1. cbn [poll_loop].
    rewrite (bind_eq _ _ s1 _ r
               (send_command_yields _ _ s1 fd ex rest r Hs1 Hx1 Hy)).
    rewrite Hcheck. reflexivity. }
  unfold poll_then_import. now rewrite (bind_eq _ _ _ _ _ Hloop).
Qed.

Lemma poll_then_import_fails (model_name : string)
  (job_id sk rid : pyval) (s : session) (fd : nat) waiting ex rest r message :
  socket (self s) = Some fd ->
  exchange_script (net s) = (waiting ++ ex :: rest)%list ->
  Forall pending waiting ->
  length waiting < max_attempts ->
  yields ex r ->
  check_status r = Ret (Failed message) ->
  poll_then_import model_name job_id sk rid s
  = (Ret (PStr message),
     after_send fd (poll_wire sk rid)
       (after_polls fd (poll_wire sk rid) (length waiting) s)).
Proof.
  intros Hs Hx Hwait Hlen Hy Hcheck.
  set (s1 := after_polls fd (poll_wire sk rid) (length waiting) s).
  assert (Hs1 : socket (self s1) = Some fd)
    by (unfold s1; now rewrite after_polls_socket).
  assert (Hx1 : exchange_script (net s1) = ex :: rest).
  { unfold s1. rewrite after_polls_script, Hx.
    rewrite skipn_app, skipn_all, Nat.sub_diag. reflexivity. }
  assert (Hloop : poll_loop max_attempts sk rid s
                  = (Ret (Returns (PStr message)),
                     after_send fd (poll_wire sk rid) s1)).
  { replace max_attempts
      with (length waiting + S (max_attempts - 1 - length waiting)) by lia.
    rewrite (poll_loop_pending fd sk rid waiting _ s (ex :: rest) Hs Hx Hwait).
    fold (poll_wire sk rid). fold s1. cbn [poll_loop].
    rewrite (bind_eq _ _ s1 _ r
               (send_command_yields _ _ s1 fd ex rest r Hs1 Hx1 Hy)).
    rewrite Hcheck. reflexivity. }
  unfold poll_then_import. now rewrite (bind_eq _ _ _ _ _ Hloop).
Qed.

Lemma poll_then_import_times_out (model_name : string)
  (job_id sk rid : pyval) (s : session) (fd : nat) waiting rest :
  socket (self s) = Some fd ->
  exchange_script (net s) = (waiting ++ rest)%list ->
  Forall pending waiting ->
  length waiting = max_attempts ->
  poll_then_import model_name job_id sk rid s
  = (Ret (PStr "Error: Job timed out without completion"),
     after_polls fd (poll_wire sk rid) max_attempts s).
Proof.
  intros Hs Hx Hwait Hlen.
  assert (Hloop : poll_loop max_attempts sk rid s
                  = (Ret Exhausted,
                     after_polls fd (poll_wire sk rid) max_attempts s)).
  { rewrite <- Hlen at 1. rewrite <- (Nat.add_0_r (length waiting)).
    rewrite (poll_loop_pending fd sk rid waiting 0 s rest Hs Hx Hwait).
    fold (poll_wire sk rid). now rewrite Hlen. }
  unfold poll_then_import. now rewrite (bind_eq _ _ _ _ _ Hloop).
Qed.

(** Step 3 sends the import command, and nothing else. *)
Lemma import_generated_trace (model_name : string) (job_id rid : pyval)
  (s : session) (fd : nat) :
  socket (self s) = Some fd ->
  trace (net (snd (import_generated model_name job_id rid s)))
  = (trace (net s)
     ++ [EvSend fd (wire "import_generated_asset"
                      (Some (import_params model_name job_id rid)))])%list.
Proof.
  intros Hs. unfold import_generated.
  rewrite <- (send_command_trace_connected _ _ s fd Hs).
  unfold bind at 1.
  destruct (send_command _ _ s) as [[r|e] s0]; [|reflexivity].
  unfold bind, lift. simpl.
  destruct (py_get r "succeed" (PBool false)) as [v|e]; [|reflexivity].
  destruct (negb (truthy v)); [|reflexivity].
  destruct (py_get r "error" (PStr "Unknown error")); reflexivity.
Qed.

End WithRuntime.

End PollingFacts.

Import PollingFacts.

Section PollingProperties.
Context {R : PyRuntime}.

Variables (text_prompt model_name : string)
          (bbox_condition : option (list pyval)).
Variables (s : BlenderConnection.session) (fd : nat).
Variables (ex_status ex_job : BlenderConnection.exchange).
Variables (status job job_id subscription_key request_id : pyval).

(** The two requests before the loop. *)
Let started : list BlenderConnection.event :=
  [BlenderConnection.EvSend fd (BlenderConnection.wire "get_hyper3d_status" None);
   BlenderConnection.EvSend fd
     (BlenderConnection.wire "create_rodin_job"
        (Some (BlenderTools.job_params text_prompt bbox_condition)))].

Let poll : bytes := poll_wire subscription_key request_id.

Let import_request : BlenderConnection.event :=
  BlenderConnection.EvSend fd
    (BlenderConnection.wire "import_generated_asset"
       (Some (BlenderTools.import_params model_name job_id request_id))).

(** The call, with [script] to come after the status check and the job
    creation. *)
Let outcome (script : list BlenderConnection.exchange) :=
  BlenderTools.generate_3d_model_from_text text_prompt model_name bbox_condition
    (world_of (with_script (ex_status :: ex_job :: script) s)).

Let trace_of (script : list BlenderConnection.exchange) :=
  BlenderConnection.trace (BlenderTools.wnet (snd (outcome script))).

Let script_after (script : list BlenderConnection.exchange) :=
  BlenderConnection.exchange_script (BlenderTools.wnet (snd (outcome script))).

Hypothesis Hsocket :
  BlenderConnection.socket (BlenderConnection.self s) = Some fd.
Hypothesis Hstatus : yields ex_status status.
Hypothesis Henabled : enabled status.
Hypothesis Hjob : yields ex_job job.
Hypothesis Hids : job_ids job job_id subscription_key request_id.

Lemma polling_starts (script : list BlenderConnection.exchange) :
  exists s2,
    outcome script
    = run_in (BlenderTools.poll_then_import model_name job_id
                subscription_key request_id) s2
    /\ BlenderConnection.socket (BlenderConnection.self s2) = Some fd
    /\ BlenderConnection.exchange_script (BlenderConnection.net s2) = script
    /\ BlenderConnection.trace (BlenderConnection.net s2)
       = (BlenderConnection.trace (BlenderConnection.net s) ++ started)%list.
Proof.
  eexists. split.
  - unfold outcome.
    apply (generate_reaches_polling text_prompt model_name bbox_condition _ fd
             ex_status ex_job script status job job_id subscription_key
             request_id); auto.
  - simpl. repeat split; auto. rewrite <- app_assoc. reflexivity.
Qed.

(** The loop left on a poll that means completion: that poll was the
    last, and the import request follows it. *)
Lemma polling_completes (waiting : list BlenderConnection.exchange)
  ex rest r :
  Forall pending waiting ->
  length waiting < BlenderTools.max_attempts ->
  yields ex r ->
  BlenderTools.check_status r = Ret BlenderTools.Complete ->
  trace_of (waiting ++ ex :: rest)
  = (BlenderConnection.trace (BlenderConnection.net s) ++ started
     ++ pending_polls fd poll (length waiting)
     ++ [BlenderConnection.EvSend fd poll; import_request])%list.
Proof.
  intros Hwait Hlen Hy Hcheck. unfold trace_of.
  destruct (polling_starts (waiting ++ ex :: rest)) as (s2 & -> & Hs2 & Hx2 & Ht2).
  unfold run_in. cbn [snd world_of BlenderTools.wnet].
  rewrite (poll_then_import_completes model_name job_id subscription_key
             request_id s2 fd waiting ex rest r Hs2 Hx2 Hwait Hlen Hy Hcheck).
  rewrite (import_generated_trace model_name job_id request_id _ fd).
  - cbn [after_send BlenderConnection.net BlenderConnection.trace].
    rewrite after_polls_trace, Ht2. fold poll.
    rewrite <- !app_assoc. reflexivity.
  - rewrite after_send_socket, after_polls_socket. exact Hs2.
Qed.

Lemma polling_fails (waiting : list BlenderConnection.exchange)
  ex rest r message :
  Forall pending waiting ->
  length waiting < BlenderTools.max_attempts ->
  yields ex r ->
  BlenderTools.check_status r = Ret (BlenderTools.Failed message) ->
  fst (outcome (waiting ++ ex :: rest)) = Ret (PStr message)
  /\ trace_of (waiting ++ ex :: rest)
     = (BlenderConnection.trace (BlenderConnection.net s) ++ started
        ++ pending_polls fd poll (length waiting)
        ++ [BlenderConnection.EvSend fd poll])%list
  /\ script_after (waiting ++ ex :: rest) = rest.
Proof.
  intros Hwait Hlen Hy Hcheck. unfold trace_of, script_after.
  destruct (polling_starts (waiting ++ ex :: rest)) as (s2 & -> & Hs2 & Hx2 & Ht2).
  unfold run_in.
  rewrite (poll_then_import_fails model_name job_id subscription_key
             request_id s2 fd waiting ex rest r message
             Hs2 Hx2 Hwait Hlen Hy Hcheck).
  cbn [fst snd world_of BlenderTools.wnet after_send
       BlenderConnection.net BlenderConnection.trace
       BlenderConnection.exchange_script].
  split; [reflexivity|]. split.
  - rewrite after_polls_trace, Ht2. fold poll.
    rewrite <- !app_assoc. reflexivity.
  - rewrite after_polls_script, Hx2, skipn_app, skipn_all, Nat.sub_diag.
    reflexivity.
Qed.

(** C2.  With the integration on and the job created: (a) a poll
    answered with a ["status_list"] whose entries are all ["Done"],
    after fewer than 60 polls that found the job pending, is the last
    poll, and the import request follows it at once; (b) a poll answered
    with a ["status_list"] that has an entry ["Failed"] makes the
    wrapper return the failure message, with no sleep and no request
    after that poll; (c) after 60 polls that found the job pending, each
    followed by a five-second sleep, the wrapper returns
    ["Error: Job timed out without completion"] and asks nothing more. *)
Theorem polling_terminates :
  (forall waiting ex rest,
      Forall pending waiting ->
      length waiting < 60 ->
      all_done ex ->
      trace_of (waiting ++ ex :: rest)
      = (BlenderConnection.trace (BlenderConnection.net s) ++ started
         ++ pending_polls fd poll (length waiting)
         ++ [BlenderConnection.EvSend fd poll; import_request])%list)
  /\ (forall waiting ex rest l,
         Forall pending waiting ->
         length waiting < 60 ->
         some_failed ex l ->
         fst (outcome (waiting ++ ex :: rest))
         = Ret (PStr ("Error: Job failed with status: " ++ py_str (PList l)))
         /\ trace_of (waiting ++ ex :: rest)
            = (BlenderConnection.trace (BlenderConnection.net s) ++ started
               ++ pending_polls fd poll (length waiting)
               ++ [BlenderConnection.EvSend fd poll])%list
         /\ script_after (waiting ++ ex :: rest) = rest)
  /\ (forall waiting rest,
         Forall pending waiting ->
         length waiting = 60 ->
         fst (outcome (waiting ++ rest))
         = Ret (PStr "Error: Job timed out without completion")
         /\ trace_of (waiting ++ rest)
            = (BlenderConnection.trace (BlenderConnection.net s) ++ started
               ++ pending_polls fd poll 60)%list
         /\ script_after (waiting ++ rest) = rest).
Proof.
  split; [|split].
  - intros waiting ex rest Hwait Hlen (d & l & Hy & Hd & Hall).
    apply polling_completes with (r := PDict d); auto.
    now apply check_status_done with l.
  - intros waiting ex rest l Hwait Hlen (d & Hy & Hd & Hin).
    apply polling_fails with (r := PDict d); auto.
    now apply check_status_failed.
  - intros waiting rest Hwait Hlen. unfold trace_of, script_after.
    destruct (polling_starts (waiting ++ rest)) as (s2 & -> & Hs2 & Hx2 & Ht2).
    unfold run_in.
    rewrite (poll_then_import_times_out model_name job_id subscription_key
               request_id s2 fd waiting rest Hs2 Hx2 Hwait Hlen).
    cbn [fst snd world_of BlenderTools.wnet].
    split; [reflexivity|]. split.
    + rewrite after_polls_trace, Ht2. fold poll.
      rewrite <- !app_assoc. reflexivity.
    + rewrite after_polls_script, Hx2. unfold BlenderTools.max_attempts.
      rewrite <- Hlen, skipn_app, skipn_all, Nat.sub_diag. reflexivity.
Qed.

(** C10.  A poll answered with the empty ["status_list"] counts as
    completion: it is the last poll and the import request follows it,
    though no item ever reported a status. *)
Theorem empty_status_list_completes
  (waiting : list BlenderConnection.exchange) ex rest d :
  Forall pending waiting ->
  length waiting < 60 ->
  yields ex (PDict d) ->
  dict_get d "status_list" = Some (PList []) ->
  BlenderTools.check_status (PDict d) = Ret BlenderTools.Complete
  /\ trace_of (waiting ++ ex :: rest)
     = (BlenderConnection.trace (BlenderConnection.net s) ++ started
        ++ pending_polls fd poll (length waiting)
        ++ [BlenderConnection.EvSend fd poll; import_request])%list.
Proof.
  intros Hwait Hlen Hy Hd.
  assert (Hc : BlenderTools.check_status (PDict d) = Ret BlenderTools.Complete).
  { apply check_status_done with []; auto. intros x []. }
  split; [exact Hc|].
  apply polling_completes with (r := PDict d); auto.
Qed.

End PollingProperties.

(* ================================================================== *)
(** * An error response at the wrappers                                *)
(* ================================================================== *)

Module ErrorFacts.
Import BlenderConnection.
Import BlenderTools.
Local Open Scope py_scope.

Section WithRuntime.
Context {R : PyRuntime}.

Lemma status_check_fails (c : string) (s : session) (fd : nat) ex rest text :
  socket (self s) = Some fd ->
  exchange_script (net s) = ex :: rest ->
  fails_with ex text ->
  try_except (send_command c None) (fun e => ret (status_failure e)) s
  = (Ret (PDict [("enabled", PBool false);
                 ("message", PStr ("Communication error with Blender: " ++ text))]),
     invalidated (after_send fd (wire c None) s)).
Proof.
  intros Hs Hx Hf. unfold try_except.
  now rewrite (send_command_fails c None s fd ex rest text Hs Hx Hf).
Qed.

(** An error response to a poll, after polls that found the job
    pending, goes up through the loop. *)
Lemma poll_then_import_raises (model_name : string)
  (job_id sk rid : pyval) (s : session) (fd : nat) waiting ex rest text :
  socket (self s) = Some fd ->
  exchange_script (net s) = (waiting ++ ex :: rest)%list ->
  Forall pending waiting ->
  length waiting < max_attempts ->
  fails_with ex text ->
  fst (poll_then_import model_name job_id sk rid s)
  = Raise (Exn PlainException ("Communication error with Blender: " ++ text)).
Proof.
  intros Hs Hx Hwait Hlen Hf.
  set (s1 := after_polls fd (poll_wire sk rid) (length waiting) s).
  assert (Hs1 : socket (self s1) = Some fd)
    by (unfold s1; now rewrite after_polls_socket).
  assert (Hx1 : exchange_script (net s1) = ex :: rest).
  { unfold s1. rewrite after_polls_script, Hx.
    rewrite skipn_app, skipn_all, Nat.sub_diag. reflexivity. }
  unfold poll_then_import.
  erewrite bind_raise_eq; [reflexivity|].
  replace max_attempts
    with (length waiting + S (max_attempts - 1 - length waiting)) by lia.
  rewrite (poll_loop_pending fd sk rid waiting _ s (ex :: rest) Hs Hx Hwait).
  fold (poll_wire sk rid). fold s1. cbn [poll_loop].
  apply bind_raise_eq.
  apply (send_command_fails _ _ s1 fd ex rest text Hs1 Hx1 Hf).
Qed.

(** An error response to the import request goes up as well. *)
Lemma poll_then_import_import_raises (model_name : string)
  (job_id sk rid : pyval) (s : session) (fd : nat) waiting done ex rest text :
  socket (self s) = Some fd ->
  exchange_script (net s) = (waiting ++ done :: ex :: rest)%list ->
  Forall pending waiting ->
  length waiting < max_attempts ->
  all_done done ->
  fails_with ex text ->
  fst (poll_then_import model_name job_id sk rid s)
  = Raise (Exn PlainException ("Communication error with Blender: " ++ text)).
Proof.
  intros Hs Hx Hwait Hlen (d & l & Hy & Hd & Hall) Hf.
  rewrite (poll_then_import_completes model_name job_id sk rid s fd waiting
             done (ex :: rest) (PDict d) Hs Hx Hwait Hlen Hy
             (check_status_done d l Hd Hall)).
  unfold import_generated.
  erewrite bind_raise_eq; [reflexivity|].
  apply send_command_fails with (ex := ex) (rest := rest); auto.
  - rewrite after_send_socket, after_polls_socket. exact Hs.
  - rewrite after_send_script, after_polls_script, Hx.
    rewrite skipn_app, skipn_all, Nat.sub_diag. reflexivity.
Qed.

End WithRuntime.

(** The wrapper's first request is answered with an error. *)
Ltac first_command_fails Hs Hx Hf :=
  rewrite with_blender_run; unfold run_in; cbv zeta;
  erewrite bind_raise_eq
    by (eapply send_command_fails; [exact Hs|exact Hx|exact Hf]);
  reflexivity.

(** The wrapper's status check is answered with an error. *)
Ltac status_check_fails Hs Hx Hf :=
  rewrite with_blender_run; unfold run_in;
  erewrite bind_eq
    by (eapply status_check_fails; [exact Hs|exact Hx|exact Hf]);
  reflexivity.

(** The status check says the integration is on and the request after it
    is answered with an error. *)
Ltac second_command_fails d Hs Hx Hy Hon Hf :=
  rewrite with_blender_run; unfold run_in;
  erewrite bind_eq
    by (eapply status_check_yields; [exact Hs|exact Hx|exact Hy]);
  cbn [py_get]; rewrite bind_lift;
  fold (or_default d "enabled" (PBool false)); rewrite Hon; cbn [negb];
  cbv zeta;
  erewrite bind_raise_eq
    by (eapply send_command_fails;
        [exact Hs|rewrite after_send_script, Hx; reflexivity|exact Hf]);
  reflexivity.

End ErrorFacts.

Import ErrorFacts.

Section ErrorProperties.
Context {R : PyRuntime}.

(** C1, amended.  An error response reaches the caller of a wrapper as
    an exception, not as a returned string, unless it answers a status
    check.  With [text] the message of the error response:
    - every basic wrapper, whose one request is so answered, raises
      [Exception("Communication error with Blender: " + text)], the
      exception [send_command] raised;
    - the two status wrappers, and the five optional-integration
      wrappers when it is their status check that is so answered, return
      that text as their string;
    - the five optional-integration wrappers, with the integration on
      and the request after the status check so answered, raise that
      exception;
    - so does [generate_3d_model_from_text] when it is a poll, or the
      import request after the last poll, that is so answered. *)
Theorem error_status_reaches_caller :
  (forall (s : BlenderConnection.session) (fd : nat) ex rest text,
      BlenderConnection.socket (BlenderConnection.self s) = Some fd ->
      BlenderConnection.exchange_script (BlenderConnection.net s) = ex :: rest ->
      fails_with ex text ->
      let message := "Communication error with Blender: " ++ text in
      let raised (tool : M BlenderTools.world pyval) :=
        fst (tool (world_of s)) = Raise (Exn PlainException message) in
      let returned (tool : M BlenderTools.world pyval) :=
        fst (tool (world_of s)) = Ret (PStr message) in
      raised BlenderTools.get_scene_info
      /\ (forall name, raised (BlenderTools.get_object_info name))
      /\ (forall type name location rotation scale,
             raised (BlenderTools.create_object type name location rotation scale))
      /\ (forall name location rotation scale visible,
             raised (BlenderTools.modify_object name location rotation scale
                       visible))
      /\ (forall name, raised (BlenderTools.delete_object name))
      /\ (forall object_name material_name color,
             raised (BlenderTools.set_material object_name material_name color))
      /\ (forall code, raised (BlenderTools.execute_blender_code code))
      /\ (forall file_path name,
             raised (BlenderTools.import_model file_path name))
      /\ returned BlenderTools.get_polyhaven_status
      /\ returned BlenderTools.get_hyper3d_status
      /\ (forall asset_type,
             returned (BlenderTools.get_polyhaven_categories asset_type))
      /\ (forall asset_type categories,
             returned (BlenderTools.search_polyhaven_assets asset_type categories))
      /\ (forall asset_id asset_type resolution file_format,
             returned (BlenderTools.download_polyhaven_asset asset_id asset_type
                         resolution file_format))
      /\ (forall object_name texture_id,
             returned (BlenderTools.set_texture object_name texture_id))
      /\ (forall text_prompt model_name bbox_condition,
             returned (BlenderTools.generate_3d_model_from_text text_prompt
                         model_name bbox_condition)))
  /\ (forall (s : BlenderConnection.session) (fd : nat) ex_status ex rest
             status text,
         BlenderConnection.socket (BlenderConnection.self s) = Some fd ->
         BlenderConnection.exchange_script (BlenderConnection.net s)
         = ex_status :: ex :: rest ->
         yields ex_status status ->
         enabled status ->
         fails_with ex text ->
         let raised (tool : M BlenderTools.world pyval) :=
           fst (tool (world_of s))
           = Raise (Exn PlainException
                      ("Communication error with Blender: " ++ text)) in
         (forall asset_type,
             raised (BlenderTools.get_polyhaven_categories asset_type))
         /\ (forall asset_type categories,
                raised (BlenderTools.search_polyhaven_assets asset_type
                          categories))
         /\ (forall asset_id asset_type resolution file_format,
                raised (BlenderTools.download_polyhaven_asset asset_id
                          asset_type resolution file_format))
         /\ (forall object_name texture_id,
                raised (BlenderTools.set_texture object_name texture_id))
         /\ (forall text_prompt model_name bbox_condition,
                raised (BlenderTools.generate_3d_model_from_text text_prompt
                          model_name bbox_condition)))
  /\ (forall (s : BlenderConnection.session) (fd : nat) ex_status ex_job
             status job job_id subscription_key request_id
             text_prompt model_name bbox_condition waiting ex rest text,
         BlenderConnection.socket (BlenderConnection.self s) = Some fd ->
         yields ex_status status ->
         enabled status ->
         yields ex_job job ->
         job_ids job job_id subscription_key request_id ->
         Forall pending waiting ->
         length waiting < 60 ->
         fails_with ex text ->
         let raised (script : list BlenderConnection.exchange) :=
           fst (BlenderTools.generate_3d_model_from_text text_prompt
                  model_name bbox_condition
                  (world_of (with_script (ex_status :: ex_job :: script) s)))
           = Raise (Exn PlainException
                      ("Communication error with Blender: " ++ text)) in
         raised (waiting ++ ex :: rest)%list
         /\ (forall done, all_done done ->
                          raised (waiting ++ done :: ex :: rest)%list)).
Proof.
  split; [|split].
  - intros s fd ex rest text Hs Hx Hf message raised returned.
    unfold raised, returned, message.
    repeat match goal with |- _ /\ _ => split end; intros.
    + unfold BlenderTools.get_scene_info. first_command_fails Hs Hx Hf.
    + unfold BlenderTools.get_object_info. first_command_fails Hs Hx Hf.
    + unfold BlenderTools.create_object. first_command_fails Hs Hx Hf.
    + unfold BlenderTools.modify_object. first_command_fails Hs Hx Hf.
    + unfold BlenderTools.delete_object. first_command_fails Hs Hx Hf.
    + unfold BlenderTools.set_material. first_command_fails Hs Hx Hf.
    + unfold BlenderTools.execute_blender_code. first_command_fails Hs Hx Hf.
    + unfold BlenderTools.import_model. first_command_fails Hs Hx Hf.
    + unfold BlenderTools.get_polyhaven_status. status_check_fails Hs Hx Hf.
    + unfold BlenderTools.get_hyper3d_status. status_check_fails Hs Hx Hf.
    + unfold BlenderTools.get_polyhaven_categories. status_check_fails Hs Hx Hf.
    + unfold BlenderTools.search_polyhaven_assets. status_check_fails Hs Hx Hf.
    + unfold BlenderTools.download_polyhaven_asset. status_check_fails Hs Hx Hf.
    + unfold BlenderTools.set_texture. status_check_fails Hs Hx Hf.
    + unfold BlenderTools.generate_3d_model_from_text.
      status_check_fails Hs Hx Hf.
  - intros s fd ex_status ex rest status text Hs Hx Hy (d & -> & Hon) Hf raised.
    unfold raised.
    repeat match goal with |- _ /\ _ => split end; intros.
    + unfold BlenderTools.get_polyhaven_categories.
      second_command_fails d Hs Hx Hy Hon Hf.
    + unfold BlenderTools.search_polyhaven_assets.
      second_command_fails d Hs Hx Hy Hon Hf.
    + unfold BlenderTools.download_polyhaven_asset.
      second_command_fails d Hs Hx Hy Hon Hf.
    + unfold BlenderTools.set_texture.
      second_command_fails d Hs Hx Hy Hon Hf.
    + unfold BlenderTools.generate_3d_model_from_text.
      second_command_fails d Hs Hx Hy Hon Hf.
  - intros s fd ex_status ex_job status job job_id sk rid text_prompt
      model_name bbox_condition waiting ex rest text
      Hs Hy Hon Hjob Hids Hwait Hlen Hf raised.
    unfold raised. split; [|intros done Hdone].
    + destruct (polling_starts text_prompt model_name bbox_condition s fd
                  ex_status ex_job status job job_id sk rid Hs Hy Hon Hjob Hids
                  (waiting ++ ex :: rest)) as (s2 & -> & Hs2 & Hx2 & _).
      unfold run_in. cbn [fst].
      now apply poll_then_import_raises with fd waiting ex rest.
    + destruct (polling_starts text_prompt model_name bbox_condition s fd
                  ex_status ex_job status job job_id sk rid Hs Hy Hon Hjob Hids
                  (waiting ++ done :: ex :: rest)) as (s2 & -> & Hs2 & Hx2 & _).
      unfold run_in. cbn [fst].
      now apply poll_then_import_import_raises with fd waiting done ex rest.
Qed.

End ErrorProperties.

(* ================================================================== *)
(** * The wrappers on concrete sessions                                *)
(* ================================================================== *)

(** An exchange of [Scenario] answers what its text says. *)
Ltac run_answers :=
  split; [reflexivity|];
  eexists; split; vm_compute; reflexivity.

Ltac run_yields :=
  eexists; split; [run_answers | vm_compute; reflexivity].

Ltac run_fails :=
  eexists; split; [run_answers | split; vm_compute; reflexivity].

Ltac run_pending :=
  eexists; split; [run_yields | vm_compute; reflexivity].

(** C1 as stated fails: [create_object] answered with an error raises;
    it returns no string. *)
Lemma create_object_error_raises :
  fst (BlenderTools.create_object (R := Sample.runtime)
         "CUBE" (Some "Box1") None None None
         (world_of (Scenario.connected [Scenario.reply Scenario.unknown_type])))
  = Raise (Exn PlainException
             "Communication error with Blender: Unknown object type")
  /\ forall v,
       fst (BlenderTools.create_object (R := Sample.runtime)
              "CUBE" (Some "Box1") None None None
              (world_of (Scenario.connected [Scenario.reply Scenario.unknown_type])))
       <> Ret v.
Proof.
  split.
  - vm_compute. reflexivity.
  - intros v. vm_compute. discriminate.
Qed.

(** C4 on the bytes of the example. *)
Lemma create_object_box1_run :
  fst (BlenderTools.create_object (R := Sample.runtime)
         "CUBE" (Some "Box1") None None None
         (world_of (Scenario.connected [Scenario.reply Scenario.box1_created])))
  = Ret (PStr "Created CUBE object: Box1")
  /\ BlenderConnection.trace
       (BlenderTools.wnet
          (snd (BlenderTools.create_object (R := Sample.runtime)
                  "CUBE" (Some "Box1") None None None
                  (world_of
                     (Scenario.connected [Scenario.reply Scenario.box1_created])))))
     = [BlenderConnection.EvSend 0
          (Sample.json_bytes
             "{'type': 'create_object', 'params': {'type': 'CUBE', 'name': 'Box1'}}")].
Proof.
  assert (H := @create_object_box1 Sample.runtime
                 (Scenario.connected [Scenario.reply Scenario.box1_created])
                 0 (Scenario.reply Scenario.box1_created) []
                 eq_refl eq_refl).
  assert (Hans : answers (R := Sample.runtime)
                   (Scenario.reply Scenario.box1_created)
                   (PDict [("status", PStr "success");
                           ("result", PDict [("name", PStr "Box1")])]))
    by run_answers.
  specialize (H Hans). vm_compute in H. vm_compute. exact H.
Defined.

(** C5 on a PolyHaven wrapper and on the Hyper3D wrapper. *)
Lemma disabled_integration_short_circuits_run :
  BlenderTools.get_polyhaven_categories (R := Sample.runtime) "hdris"
    (world_of (Scenario.connected [Scenario.reply Scenario.polyhaven_off]))
  = (Ret (PStr "PolyHaven is off"),
     world_of
       (after_send 0
          (BlenderConnection.wire (R := Sample.runtime)
             "get_polyhaven_status" None)
          (Scenario.connected [Scenario.reply Scenario.polyhaven_off])))
  /\ BlenderTools.generate_3d_model_from_text (R := Sample.runtime)
       "a chair" "chair" None
       (world_of (Scenario.connected [Scenario.reply Scenario.hyper3d_off]))
     = (Ret (PStr "Hyper3D is off"),
        world_of
          (after_send 0
             (BlenderConnection.wire (R := Sample.runtime)
                "get_hyper3d_status" None)
             (Scenario.connected [Scenario.reply Scenario.hyper3d_off]))).
Proof.
  destruct (@disabled_integration_short_circuits Sample.runtime)
    as (Hcategories & _ & _ & _ & Hgenerate).
  split.
  - refine (proj1 (Hcategories "hdris" _ _
                     [("enabled", PBool false);
                      ("message", PStr "PolyHaven is off")] _ _)).
    + vm_compute. reflexivity.
    + reflexivity.
  - refine (proj1 (Hgenerate "a chair" "chair" None _ _
                     [("enabled", PBool false);
                      ("message", PStr "Hyper3D is off")] _ _)).
    + vm_compute. reflexivity.
    + reflexivity.
Defined.

(** C1, amended, on the session of the counterexample and on a failing
    status check. *)
Lemma error_status_reaches_caller_run :
  fst (BlenderTools.create_object (R := Sample.runtime)
         "CUBE" (Some "Box1") None None None
         (world_of (Scenario.connected [Scenario.reply Scenario.unknown_type])))
  = Raise (Exn PlainException
             "Communication error with Blender: Unknown object type")
  /\ fst (BlenderTools.set_texture (R := Sample.runtime) "Box1" "rock"
            (world_of (Scenario.connected [Scenario.reply Scenario.unknown_type])))
     = Ret (PStr "Communication error with Blender: Unknown object type").
Proof.
  assert (Hf : fails_with (R := Sample.runtime)
                 (Scenario.reply Scenario.unknown_type) "Unknown object type")
    by run_fails.
  destruct (proj1 (@error_status_reaches_caller Sample.runtime)
              (Scenario.connected [Scenario.reply Scenario.unknown_type])
              0 (Scenario.reply Scenario.unknown_type) []
              "Unknown object type" eq_refl eq_refl Hf)
    as (_ & _ & Hcreate & _ & _ & _ & _ & _ & _ & _ & _ & _ & _ & Htexture & _).
  split.
  - exact (Hcreate "CUBE" (Some "Box1") None None None).
  - exact (Htexture "Box1" "rock").
Defined.

(** The generation job of the runs below: the integration is on, the job
    is created with a uuid and a subscription key. *)
Lemma job_started_run :
  yields (R := Sample.runtime) (Scenario.reply Scenario.integration_on)
    (PDict [("enabled", PBool true); ("message", PStr "ready")])
  /\ enabled (PDict [("enabled", PBool true); ("message", PStr "ready")])
  /\ yields (R := Sample.runtime) (Scenario.reply Scenario.job_created)
       (PDict [("uuid", PStr "job-1");
               ("jobs", PDict [("subscription_key", PStr "key-1")])])
  /\ job_ids
       (PDict [("uuid", PStr "job-1");
               ("jobs", PDict [("subscription_key", PStr "key-1")])])
       (PStr "job-1") (PStr "key-1") PNone.
Proof.
  split; [run_yields|]. split; [eexists; split; reflexivity|].
  split; [run_yields|]. constructor; reflexivity.
Defined.

Lemma waiting_run (n : nat) :
  Forall (pending (R := Sample.runtime))
    (repeat (Scenario.reply Scenario.poll_waiting) n).
Proof.
  apply Forall_forall. intros ex Hin. apply repeat_spec in Hin. subst ex.
  run_pending.
Defined.

(** C2 on a job that is done at the third poll, on one that fails at the
    second, and on one that is still waiting at the sixtieth. *)
Lemma polling_terminates_run :
  let generate script :=
    BlenderTools.generate_3d_model_from_text (R := Sample.runtime)
      "a chair" "chair" None
      (world_of
         (Scenario.connected
            (Scenario.reply Scenario.integration_on
             :: Scenario.reply Scenario.job_created :: script))) in
  let send command params :=
    BlenderConnection.EvSend 0
      (BlenderConnection.wire (R := Sample.runtime) command (Some params)) in
  let poll := send "poll_rodin_job_status" [("subscription_key", PStr "key-1")] in
  let sleep := BlenderConnection.EvSleep 5 in
  BlenderConnection.trace
    (BlenderTools.wnet
       (snd (generate [Scenario.reply Scenario.poll_waiting;
                       Scenario.reply Scenario.poll_waiting;
                       Scenario.reply Scenario.poll_done;
                       Scenario.reply Scenario.import_succeeded])))
  = [BlenderConnection.EvSend 0
       (BlenderConnection.wire (R := Sample.runtime) "get_hyper3d_status" None);
     send "create_rodin_job"
       [("text_prompt", PStr "a chair"); ("images", PNone);
        ("bbox_condition", PNone)];
     poll; sleep; poll; sleep; poll;
     send "import_generated_asset"
       [("name", PStr "chair"); ("task_uuid", PStr "job-1")]]
  /\ fst (generate [Scenario.reply Scenario.poll_waiting;
                    Scenario.reply Scenario.poll_failed;
                    Scenario.reply Scenario.poll_done])
     = Ret (PStr "Error: Job failed with status: ['Done', 'Failed']")
  /\ fst (generate (repeat (Scenario.reply Scenario.poll_waiting) 60
                    ++ [Scenario.reply Scenario.poll_done])%list)
     = Ret (PStr "Error: Job timed out without completion").
Proof.
  destruct job_started_run as (Hstatus & Hon & Hjob & Hids).
  destruct (@polling_terminates Sample.runtime "a chair" "chair" None
              (Scenario.connected []) 0
              (Scenario.reply Scenario.integration_on)
              (Scenario.reply Scenario.job_created)
              _ _ _ _ _ eq_refl Hstatus Hon Hjob Hids)
    as (Hdone & Hfailed & Htimeout).
  split; [|split].
  - assert (H := Hdone (repeat (Scenario.reply Scenario.poll_waiting) 2)
                   (Scenario.reply Scenario.poll_done)
                   [Scenario.reply Scenario.import_succeeded]
                   (waiting_run 2)).
    assert (Hlen : length (repeat (Scenario.reply Scenario.poll_waiting) 2) < 60)
      by (simpl; lia).
    assert (Hall : all_done (R := Sample.runtime)
                     (Scenario.reply Scenario.poll_done)).
    { exists [("status_list", PList [PStr "Done"; PStr "Done"])],
        [PStr "Done"; PStr "Done"].
      split; [run_yields|]. split; [reflexivity|].
      intros x [<-|[<-|[]]]; reflexivity. }
    specialize (H Hlen Hall). vm_compute in H. vm_compute. exact H.
  - assert (Hlen : length (repeat (Scenario.reply Scenario.poll_waiting) 1) < 60)
      by (simpl; lia).
    assert (Hsome : some_failed (R := Sample.runtime)
                      (Scenario.reply Scenario.poll_failed)
                      [PStr "Done"; PStr "Failed"]).
    { exists [("status_list", PList [PStr "Done"; PStr "Failed"])].
      split; [run_yields|]. split; [reflexivity|]. right. left. reflexivity. }
    assert (H := proj1 (Hfailed (repeat (Scenario.reply Scenario.poll_waiting) 1)
                          (Scenario.reply Scenario.poll_failed)
                          [Scenario.reply Scenario.poll_done]
                          [PStr "Done"; PStr "Failed"]
                          (waiting_run 1) Hlen Hsome)).
    vm_compute in H. vm_compute. exact H.
  - assert (Hlen : length (repeat (Scenario.reply Scenario.poll_waiting) 60) = 60)
      by apply repeat_length.
    exact (proj1 (Htimeout (repeat (Scenario.reply Scenario.poll_waiting) 60)
                    [Scenario.reply Scenario.poll_done]
                    (waiting_run 60) Hlen)).
Defined.

(** C10 on a job whose first poll answers with an empty list. *)
Lemma empty_status_list_completes_run :
  BlenderConnection.trace
    (BlenderTools.wnet
       (snd (BlenderTools.generate_3d_model_from_text (R := Sample.runtime)
               "a chair" "chair" None
               (world_of
                  (Scenario.connected
                     [Scenario.reply Scenario.integration_on;
                      Scenario.reply Scenario.job_created;
                      Scenario.reply Scenario.poll_empty;
                      Scenario.reply Scenario.import_succeeded])))))
  = [BlenderConnection.EvSend 0
       (BlenderConnection.wire (R := Sample.runtime) "get_hyper3d_status" None);
     BlenderConnection.EvSend 0
       (BlenderConnection.wire (R := Sample.runtime) "create_rodin_job"
          (Some [("text_prompt", PStr "a chair"); ("images", PNone);
                 ("bbox_condition", PNone)]));
     BlenderConnection.EvSend 0
       (BlenderConnection.wire (R := Sample.runtime) "poll_rodin_job_status"
          (Some [("subscription_key", PStr "key-1")]));
     BlenderConnection.EvSend 0
       (BlenderConnection.wire (R := Sample.runtime) "import_generated_asset"
          (Some [("name", PStr "chair"); ("task_uuid", PStr "job-1")]))].
Proof.
  destruct job_started_run as (Hstatus & Hon & Hjob & Hids).
  assert (Hy : yields (R := Sample.runtime) (Scenario.reply Scenario.poll_empty)
                 (PDict [("status_list", PList [])])) by run_yields.
  assert (H := proj2 (@empty_status_list_completes Sample.runtime
                        "a chair" "chair" None (Scenario.connected []) 0
                        (Scenario.reply Scenario.integration_on)
                        (Scenario.reply Scenario.job_created)
                        _ _ _ _ _ eq_refl Hstatus Hon Hjob Hids
                        [] (Scenario.reply Scenario.poll_empty)
                        [Scenario.reply Scenario.import_succeeded]
                        [("status_list", PList [])]
                        (Forall_nil _) (Nat.lt_0_succ 59) Hy eq_refl)).
  vm_compute in H. vm_compute. exact H.
Defined.

(* ================================================================== *)
(** * The sample runtime and the client at work                        *)
(* ================================================================== *)

Example loads_object :
  Sample.loads
    (Sample.json_text "{'status': 'success', 'result': {'n': [1, -2, true, null]}}")
  = Some (PDict [("status", PStr "success");
                 ("result", PDict [("n", PList [PInt 1; PInt (-2);
                                                PBool true; PNone])])]).
Proof. reflexivity. Qed.

Example loads_incomplete :
  Sample.loads (Sample.json_text "{'status': 'succ") = None.
Proof. reflexivity. Qed.

Example dumps_command :
  Sample.dumps (PDict [("type", PStr "get_scene_info"); ("params", PDict [])])
  = Sample.json_text "{'type': 'get_scene_info', 'params': {}}".
Proof. reflexivity. Qed.

Example repr_statuses :
  Sample.repr (PList [PStr "Done"; PStr "Failed"; PFloat 1.5])
  = "['Done', 'Failed', 1.5]".
Proof. vm_compute. reflexivity. Qed.

Example sort_by_count :
  Sample.sort_descending _
    [(PInt 3, "a"); (PInt 7, "b"); (PInt 3, "c"); (PFloat 4.5, "d")]
  = Ret ["b"; "d"; "a"; "c"].
Proof. vm_compute. reflexivity. Qed.

(** A response in three pieces is returned whole, at the piece that
    completes it. *)
Example receive_in_pieces :
  BlenderConnection.receive_full_response (R := Sample.runtime)
    (BlenderConnection.replies
       (Scenario.reply_in ["{'status':"; " 'success', 'result'"; ": {}}";
                           "{'status': 'late'}"]))
  = Ret (Sample.json_bytes "{'status': 'success', 'result': {}}").
Proof. vm_compute. reflexivity. Qed.

(** Half a response and then silence: an exception, not the half. *)
Example receive_half :
  BlenderConnection.receive_full_response (R := Sample.runtime)
    (BlenderConnection.replies (Scenario.reply_in ["{'status': 'succ"]))
  = Raise (Exn PlainException "Incomplete JSON response received").
Proof. vm_compute. reflexivity. Qed.

(** The peer closes at once. *)
Example receive_closed :
  BlenderConnection.receive_full_response (R := Sample.runtime)
    [BlenderConnection.RecvData []]
  = Raise (Exn PlainException "Connection closed before receiving any data").
Proof. vm_compute. reflexivity. Qed.

(** A receive timeout reaches the caller of [send_command] as a
    communication error, with the socket dropped. *)
Example send_command_unanswered :
  BlenderConnection.send_command (R := Sample.runtime) "get_scene_info" None
    (Scenario.connected [Scenario.silence])
  = (Raise (Exn PlainException
              "Communication error with Blender: No data received"),
     invalidated
       (after_send 0
          (BlenderConnection.wire (R := Sample.runtime) "get_scene_info" None)
          (Scenario.connected [Scenario.silence]))).
Proof. vm_compute. reflexivity. Qed.

(** A connection reset does so as a lost connection. *)
Example send_command_reset :
  fst (BlenderConnection.send_command (R := Sample.runtime) "get_scene_info" None
         (Scenario.connected [Scenario.reset]))
  = Raise (Exn PlainException
             "Connection to Blender lost: [Errno 104] Connection reset by peer").
Proof. vm_compute. reflexivity. Qed.

(** The whole of a generation: two polls, then the import. *)
Example generate_chair :
  fst (BlenderTools.generate_3d_model_from_text (R := Sample.runtime)
         "a chair" "chair" None
         (world_of
            (Scenario.connected
               [Scenario.reply Scenario.integration_on;
                Scenario.reply Scenario.job_created;
                Scenario.reply Scenario.poll_waiting;
                Scenario.reply Scenario.poll_done;
                Scenario.reply Scenario.import_succeeded])))
  = Ret (PStr "Successfully generated and imported 3D model 'chair' based on the text prompt.").
Proof. vm_compute. reflexivity. Qed.

(** The same through the other API: a request id, a status string. *)
Example generate_by_request_id :
  let reply text := Scenario.reply text in
  let send command params :=
    BlenderConnection.EvSend 0
      (BlenderConnection.wire (R := Sample.runtime) command params) in
  BlenderTools.generate_3d_model_from_text (R := Sample.runtime)
    "a chair" "chair" (Some [PInt 1; PInt 1; PInt 2])
    (world_of
       (Scenario.connected
          [reply Scenario.integration_on;
           reply "{'status':'success','result':{'request_id':'r-9'}}";
           reply "{'status':'success','result':{'status':'IN_QUEUE'}}";
           reply "{'status':'success','result':{'status':'COMPLETED'}}";
           reply "{'status':'success','result':{'succeed':false,'error':'no mesh'}}"]))
  = (Ret (PStr "Error importing generated model: no mesh"),
     world_of
       {| BlenderConnection.self :=
            BlenderConnection.self (Scenario.connected []);
          BlenderConnection.net :=
            {| BlenderConnection.connect_script := [];
               BlenderConnection.exchange_script := [];
               BlenderConnection.next_fd := 1;
               BlenderConnection.trace :=
                 [send "get_hyper3d_status" None;
                  send "create_rodin_job"
                    (Some [("text_prompt", PStr "a chair"); ("images", PNone);
                           ("bbox_condition", PList [PInt 1; PInt 1; PInt 2])]);
                  send "poll_rodin_job_status" (Some [("request_id", PStr "r-9")]);
                  BlenderConnection.EvSleep 5;
                  send "poll_rodin_job_status" (Some [("request_id", PStr "r-9")]);
                  send "import_generated_asset"
                    (Some [("name", PStr "chair"); ("request_id", PStr "r-9")])]
            |} |}).
Proof. vm_compute. reflexivity. Qed.

(** A status other than the three known ones ends the wait. *)
Example generate_cancelled :
  fst (BlenderTools.generate_3d_model_from_text (R := Sample.runtime)
         "a chair" "chair" None
         (world_of
            (Scenario.connected
               [Scenario.reply Scenario.integration_on;
                Scenario.reply "{'status':'success','result':{'request_id':'r-9'}}";
                Scenario.reply "{'status':'success','result':{'status':'CANCELLED'}}"])))
  = Ret (PStr "Error: Job failed with status: CANCELLED").
Proof. vm_compute. reflexivity. Qed.

(** The listing of PolyHaven categories, most assets first. *)
Example categories_listed :
  fst (BlenderTools.get_polyhaven_categories (R := Sample.runtime) "hdris"
         (world_of
            (Scenario.connected
               [Scenario.reply Scenario.integration_on;
                Scenario.reply
                  "{'status':'success','result':{'categories':{'sky':3,'indoor':12,'night':3}}}"])))
  = Ret (PStr ("Categories for hdris:" ++ BlenderTools.nl ++ BlenderTools.nl
               ++ "- indoor: 12 assets" ++ BlenderTools.nl
               ++ "- sky: 3 assets" ++ BlenderTools.nl
               ++ "- night: 3 assets" ++ BlenderTools.nl)).
Proof. vm_compute. reflexivity. Qed.

(** A search result, with one asset. *)
Example assets_listed :
  fst (BlenderTools.search_polyhaven_assets (R := Sample.runtime)
         "textures" (Some "rock")
         (world_of
            (Scenario.connected
               [Scenario.reply Scenario.integration_on;
                Scenario.reply
                  "{'status':'success','result':{'assets':{'rock_01':{'name':'Rock','type':1,'categories':['rock','ground'],'download_count':7}},'total_count':1,'returned_count':1}}"])))
  = Ret (PStr ("Found 1 assets in categories: rock" ++ BlenderTools.nl
               ++ "Showing 1 assets:" ++ BlenderTools.nl ++ BlenderTools.nl
               ++ "- Rock (ID: rock_01)" ++ BlenderTools.nl
               ++ "  Type: Texture" ++ BlenderTools.nl
               ++ "  Categories: rock, ground" ++ BlenderTools.nl
               ++ "  Downloads: 7" ++ BlenderTools.nl ++ BlenderTools.nl)).
Proof. vm_compute. reflexivity. Qed.

(** An import of a local model. *)
Example model_imported :
  fst (BlenderTools.import_model (R := Sample.runtime) "./car.glb" (Some "car")
         (world_of
            (Scenario.connected
               [Scenario.reply
                  "{'status':'success','result':{'main_object':{'name':'car'},'imported_objects':['car','wheel']}}"])))
  = Ret (PStr "Successfully imported ./car.glb. Main object: 'car'. Total objects imported: 2.").
Proof. vm_compute. reflexivity. Qed.

(* ================================================================== *)
(** * More about the client                                            *)
(* ================================================================== *)

Module MoreConnectionFacts.
Import BlenderConnection.
Import Further.
Local Open Scope py_scope.

Section WithRuntime.
Context {R : PyRuntime}.

Lemma socket_timeout_class (e : socket_error) :
  is_socket_timeout (exn_of e) = true <-> error_class e = Timeout.
Proof.
  destruct e as [[] ?]; unfold is_socket_timeout, exn_of; simpl; split;
    intros H; congruence.
Qed.

Lemma receive_loop_raised_not_timeout (sock : list recv_event) :
  forall chunks e,
    receive_loop chunks sock = Raised e -> is_socket_timeout e = false.
Proof.
  induction sock as [|ev rest IH]; intros chunks e H; simpl in H.
  - discriminate.
  - destruct ev as [[|b chunk]|e'].
    + destruct chunks; inversion H; reflexivity.
    + unfold loads_bytes in H.
      destruct (bytes_decode _) as [text|].
      * destruct (json_loads text); [discriminate|]. simpl in H. eauto.
      * simpl in H. inversion H. reflexivity.
    + destruct (is_socket_timeout (exn_of e')) eqn:Ht; [discriminate|].
      inversion H; subst. exact Ht.
Qed.

Lemma receive_full_response_not_timeout (sock : list recv_event) (e : exn) :
  receive_full_response sock = Raise e -> is_socket_timeout e = false.
Proof.
  unfold receive_full_response.
  destruct (receive_loop [] sock) as [d|cs|e'] eqn:Hloop.
  - discriminate.
  - destruct cs as [|c cs].
    + intros H. inversion H. reflexivity.
    + unfold loads_bytes. destruct (bytes_decode _) as [text|].
      * destruct (json_loads text); [discriminate|]. simpl.
        intros H. inversion H. reflexivity.
      * simpl. intros H. inversion H. reflexivity.
  - intros H. inversion H; subst.
    eapply receive_loop_raised_not_timeout; eauto.
Qed.

Lemma read_response_not_timeout (response : pyval) (e : exn) :
  read_response response = Raise e -> is_socket_timeout e = false.
Proof.
  unfold read_response, py_get.
  destruct response; simpl; try (intros H; inversion H; reflexivity).
  destruct (eq_str _ "error"); intros H; inversion H; reflexivity.
Qed.

(** The three exceptions the handlers of [send_command] make. *)
Lemma send_command_except_forms (e : exn) (s : session) :
  is_json_decode_error e = false ->
  send_command_except e s
  = (Raise (Exn PlainException
              (if is_socket_timeout e then
                 "Timeout waiting for Blender response - try simplifying your request"
               else if is_connection_error e then
                 "Connection to Blender lost: " ++ exn_text e
               else "Communication error with Blender: " ++ exn_text e)),
     invalidated s).
Proof.
  intros Hj. unfold send_command_except. rewrite Hj.
  destruct (is_socket_timeout e); [|destruct (is_connection_error e)];
    reflexivity.
Qed.

(** What the [try] block does to the network, whatever its outcome: the
    one send. *)
Lemma send_command_try_net (c : string) p (s : session) (fd : nat) :
  socket (self s) = Some fd ->
  snd (send_command_try c p s) = after_send fd (wire c p) s.
Proof.
  intros Hs. unfold send_command_try, bind, sendall, lift, after_send.
  rewrite Hs.
  destruct (send_outcome _); [reflexivity|].
  destruct (receive_full_response _); [|reflexivity].
  destruct (loads_bytes _); [|reflexivity].
  destruct (read_response _); reflexivity.
Qed.

Lemma send_command_net_connected (c : string) p (s : session) (fd : nat) :
  socket (self s) = Some fd ->
  net (snd (send_command c p s)) = net (after_send fd (wire c p) s).
Proof.
  intros Hs. rewrite (send_command_connected c p s fd Hs). unfold try_except.
  pose proof (send_command_try_net c p s fd Hs) as Hnet.
  destruct (send_command_try c p s) as [[r|e] s0] eqn:Htry; simpl in Hnet.
  - now subst.
  - rewrite (send_command_except_forms e s0
               (send_command_try_raise _ _ _ _ _ Htry)).
    simpl. now subst.
Qed.

(** The network after [send_command], whatever its outcome. *)
Lemma send_command_net (c : string) p (s : session) :
  net (snd (send_command c p s))
  = match socket (self s) with
    | Some fd => net (after_send fd (wire c p) s)
    | None =>
        match connect_script (net s) with
        | true :: _ =>
            net (after_send (next_fd (net s)) (wire c p) (connected_to true s))
        | _ => net (connected_to false s)
        end
    end.
Proof.
  destruct (socket (self s)) as [fd|] eqn:Hs.
  - now apply send_command_net_connected.
  - pose proof (connect_fresh s Hs) as Hc. simpl in Hc.
    destruct (connect_script (net s)) as [|[] more] eqn:Hscript.
    + unfold send_command, bind. rewrite Hs, Hc. reflexivity.
    + rewrite (send_command_via_connect c p s _ Hc).
      rewrite <- (send_command_connected c p (connected_to true s)
                    (next_fd (net s))) by reflexivity.
      now apply send_command_net_connected.
    + unfold send_command, bind. rewrite Hs, Hc. reflexivity.
Qed.

(** The first chunks of a socket are the first chunks of any socket
    that goes on from it. *)
Lemma leading_chunks_app (k : nat) :
  forall sock more cs,
    leading_chunks k sock = Some cs ->
    leading_chunks k (sock ++ more) = Some cs.
Proof.
  induction k as [|k IH]; intros sock more cs H; simpl in *; [exact H|].
  destruct sock as [|[[|b chunk]|e] rest]; try discriminate. simpl.
  destruct (leading_chunks k rest) as [cs'|] eqn:Hl; [|discriminate].
  now rewrite (IH rest more cs' Hl).
Qed.

(** Chunks that are not JSON yet, and then one that does not decode. *)
Lemma receive_loop_undecodable (k : nat) :
  forall sock chunks cs,
    leading_chunks (S k) sock = Some cs ->
    (forall j, 0 < j <= k -> incomplete (join_bytes (chunks ++ firstn j cs))) ->
    bytes_decode (join_bytes (chunks ++ cs)) = None ->
    receive_loop chunks sock
    = Raised (Exn UnicodeDecodeError
                (decode_error_text (join_bytes (chunks ++ cs)))).
Proof.
  induction k as [|k IH]; intros sock chunks cs Hlead Hinc Hdec.
  - simpl in Hlead. destruct sock as [|[[|b chunk]|e] rest]; try discriminate.
    inversion Hlead; subst cs. simpl.
    unfold loads_bytes. rewrite Hdec. reflexivity.
  - remember (S k) as k1. simpl in Hlead.
    destruct sock as [|[[|b chunk]|e] rest]; try discriminate.
    destruct (leading_chunks k1 rest) as [cs'|] eqn:Hl; [|discriminate].
    simpl in Hlead. inversion Hlead; subst cs. simpl.
    destruct (Hinc 1 ltac:(lia)) as (e & He & Hj). simpl in He.
    rewrite He, Hj.
    replace (chunks ++ (b :: chunk) :: cs')%list
      with ((chunks ++ [b :: chunk]) ++ cs')%list in *
      by (rewrite <- app_assoc; reflexivity).
    subst k1. apply IH; auto.
    intros j Hj'. rewrite <- app_assoc. apply (Hinc (S j)). lia.
Qed.

(** A [try] block that returns leaves the object as it was. *)
Lemma send_command_try_ret (c : string) p (s s' : session) (fd : nat) r :
  socket (self s) = Some fd ->
  send_command_try c p s = (Ret r, s') ->
  s' = after_send fd (wire c p) s.
Proof.
  intros Hs H. pose proof (send_command_try_net c p s fd Hs) as Hnet.
  rewrite H in Hnet. exact Hnet.
Qed.

Lemma eq_str_false (v : pyval) (t : string) :
  v <> PStr t -> eq_str v t = false.
Proof.
  destruct v; try reflexivity. simpl. intros H.
  destruct (String.eqb s t) eqn:E; [|reflexivity].
  apply String.eqb_eq in E. congruence.
Qed.

(** Any status but ["error"] is read as success. *)
Lemma read_response_lenient (d : list (string * pyval)) :
  dict_get d "status" <> Some (PStr "error") ->
  read_response (PDict d) = Ret (or_default d "result" (PDict [])).
Proof.
  intros H. unfold read_response. simpl.
  rewrite eq_str_false; [reflexivity|].
  destruct (dict_get d "status"); congruence.
Qed.

Lemma read_response_not_mapping (v : pyval) :
  (forall d, v <> PDict d) ->
  read_response v
  = Raise (Exn AttributeError
             ("'" ++ type_name v ++ "' object has no attribute 'get'")).
Proof.
  intros H. destruct v; try reflexivity. now destruct (H d).
Qed.

(** With nobody listening [send_command] stops at its first line. *)
Lemma send_command_unreachable (c : string) p (s : session) :
  unreachable s ->
  send_command c p s
  = (Raise (Exn ConnectionError "Not connected to Blender"),
     connected_to false s)
  /\ unreachable (connected_to false s).
Proof.
  intros [Hs Hno]. unfold send_command, bind.
  rewrite Hs, (connect_fresh s Hs).
  unfold unreachable.
  destruct (connect_script (net s)) as [|[] more] eqn:Hc; simpl in *;
    try discriminate; rewrite ?Hc; simpl; auto.
Qed.

End WithRuntime.

End MoreConnectionFacts.

Import Further.
Import MoreConnectionFacts.

Section MoreClientProperties.
Context {R : PyRuntime}.

(** X1.  What [send_command] raises is one of four exceptions:
    [ConnectionError("Not connected to Blender")], or an [Exception]
    whose text is the timeout text or starts with "Connection to
    Blender lost: " or "Communication error with Blender: ".  The
    handler that says "Invalid response from Blender" never runs. *)
Theorem send_command_raises_one_of_four (c : string)
  (p : option (list (string * pyval)))
  (s s' : BlenderConnection.session) (e : exn) :
  BlenderConnection.send_command c p s = (Raise e, s') ->
  e = Exn ConnectionError "Not connected to Blender"
  \/ e = Exn PlainException
           "Timeout waiting for Blender response - try simplifying your request"
  \/ (exists cause,
         e = Exn PlainException ("Connection to Blender lost: " ++ cause))
  \/ (exists cause,
         e = Exn PlainException ("Communication error with Blender: " ++ cause)).
Proof.
  unfold BlenderConnection.send_command, bind.
  assert (Htry : forall s0 s1 e0,
             try_except (BlenderConnection.send_command_try c p)
               BlenderConnection.send_command_except s0 = (Raise e0, s1) ->
             e0 = Exn PlainException
                    "Timeout waiting for Blender response - try simplifying your request"
             \/ (exists cause,
                    e0 = Exn PlainException
                           ("Connection to Blender lost: " ++ cause))
             \/ (exists cause,
                    e0 = Exn PlainException
                           ("Communication error with Blender: " ++ cause))).
  { intros s0 s1 e0. unfold try_except.
    destruct (BlenderConnection.send_command_try c p s0) as [[r|e1] s2] eqn:Ht;
      [discriminate|].
    rewrite (send_command_except_forms e1 s2
               (send_command_try_raise _ _ _ _ _ Ht)).
    intros H. inversion H.
    destruct (is_socket_timeout e1); [now left|].
    destruct (is_connection_error e1); right; [left|right];
      exists (exn_text e1); reflexivity. }
  destruct (BlenderConnection.socket (BlenderConnection.self s)) as [fd|] eqn:Hs.
  - simpl. intros H. right. eapply Htry; eauto.
  - rewrite (connect_fresh s Hs).
    destruct (BlenderConnection.connect_script (BlenderConnection.net s))
      as [|[] ?]; simpl; intros H.
    + inversion H. now left.
    + right. eapply Htry; eauto.
    + inversion H. now left.
Qed.

(** X2.  On a cached socket the timeout text is what [send_command]
    raises exactly when it is [sendall] that times out.  A [recv] that
    times out, or a peer that closes, before any data is reported as a
    communication error instead: "No data received", or "Connection
    closed before receiving any data". *)
Theorem timeout_text_is_for_sendall (c : string)
  (p : option (list (string * pyval)))
  (s : BlenderConnection.session) (fd : nat) ex rest :
  BlenderConnection.socket (BlenderConnection.self s) = Some fd ->
  BlenderConnection.exchange_script (BlenderConnection.net s) = ex :: rest ->
  (fst (BlenderConnection.send_command c p s)
   = Raise (Exn PlainException
              "Timeout waiting for Blender response - try simplifying your request")
   <-> exists err, BlenderConnection.send_outcome ex = Some err
                   /\ BlenderConnection.error_class err
                      = BlenderConnection.Timeout)
  /\ (BlenderConnection.send_outcome ex = None ->
      goes_quiet (BlenderConnection.replies ex) ->
      fst (BlenderConnection.send_command c p s)
      = Raise (Exn PlainException
                 ("Communication error with Blender: "
                  ++ match BlenderConnection.replies ex with
                     | BlenderConnection.RecvData _ :: _ =>
                         "Connection closed before receiving any data"
                     | _ => "No data received"
                     end))).
Proof.
  intros Hs Hx.
  rewrite (send_command_connected c p s fd Hs). unfold try_except.
  assert (Htry : BlenderConnection.send_command_try c p s
                 = (match BlenderConnection.send_outcome ex with
                    | Some err => Raise (BlenderConnection.exn_of err)
                    | None =>
                        (data <~ BlenderConnection.receive_full_response
                                   (BlenderConnection.replies ex) ;;
                         response <~ loads_bytes data ;;
                         BlenderConnection.read_response response)%py
                    end, after_send fd (BlenderConnection.wire c p) s)).
  { unfold BlenderConnection.send_command_try, bind.
    rewrite (sendall_connected _ s fd ex rest Hs Hx).
    destruct (BlenderConnection.send_outcome ex); [reflexivity|].
    unfold lift, rbind.
    destruct (BlenderConnection.receive_full_response _); [|reflexivity].
    destruct (loads_bytes _); [|reflexivity].
    destruct (BlenderConnection.read_response _); reflexivity. }
  split.
  - destruct (BlenderConnection.send_command_try c p s) as [[r|e] s0] eqn:Ht.
    + split; [discriminate|]. intros (err & Herr & _).
      rewrite Herr in Htry. discriminate.
    + rewrite (send_command_except_forms e s0
                 (send_command_try_raise _ _ _ _ _ Ht)). simpl.
      destruct (BlenderConnection.send_outcome ex) as [err|] eqn:Hout.
      * inversion Htry; subst e.
        destruct (is_socket_timeout (BlenderConnection.exn_of err)) eqn:Hto.
        -- split; [|reflexivity]. intros _. exists err. split; [reflexivity|].
           now apply socket_timeout_class.
        -- split.
           ++ destruct (is_connection_error _); intros H; inversion H.
           ++ intros (err' & Herr' & Hclass). inversion Herr'; subst err'.
              apply socket_timeout_class in Hclass. congruence.
      * assert (Hto : is_socket_timeout e = false).
        { inversion Htry as [[Hr Hs0]]. clear Hs0. revert Hr. unfold rbind.
          destruct (BlenderConnection.receive_full_response _) as [data|e1] eqn:Hrecv.
          - destruct (loads_bytes data) as [v|e2] eqn:Hl.
            + intros Hr. eapply read_response_not_timeout; eauto.
            + destruct (receive_full_response_parses _ _ Hrecv) as [v Hv].
              congruence.
          - intros Hr. inversion Hr; subst.
            eapply receive_full_response_not_timeout; eauto. }
        rewrite Hto. split.
        -- destruct (is_connection_error e); intros H; inversion H.
        -- intros (err & Herr & _). discriminate.
  - intros Hout Hquiet. rewrite Htry, Hout.
    assert (Hrecv : BlenderConnection.receive_full_response
                      (BlenderConnection.replies ex)
                    = Raise (Exn PlainException
                               (match BlenderConnection.replies ex with
                                | BlenderConnection.RecvData _ :: _ =>
                                    "Connection closed before receiving any data"
                                | _ => "No data received"
                                end))).
    { unfold BlenderConnection.receive_full_response.
      destruct (BlenderConnection.replies ex) as [|[[|b chunk]|e] more];
        simpl in *; try reflexivity; try contradiction.
      unfold is_socket_timeout, BlenderConnection.exn_of. simpl.
      rewrite Hquiet. reflexivity. }
    rewrite Hrecv. simpl.
    destruct (BlenderConnection.replies ex) as [|[|] ?]; reflexivity.
Qed.

(** X3.  Whatever its outcome, one call of [send_command] is at most
    one connect and at most one request on the wire: with a cached
    socket the request goes out on it; without one a single connect is
    tried, and the request goes out on the new socket or, when the
    connect fails, not at all.  Nothing is retried, closed or slept. *)
Theorem send_command_network_effect (c : string)
  (p : option (list (string * pyval))) (s : BlenderConnection.session) :
  let n := BlenderConnection.net s in
  let n' := BlenderConnection.net (snd (BlenderConnection.send_command c p s)) in
  let added (evs : list BlenderConnection.event) :=
    BlenderConnection.trace n' = (BlenderConnection.trace n ++ evs)%list in
  let connect_to (ok : bool) :=
    BlenderConnection.EvConnect
      (BlenderConnection.host (BlenderConnection.self s))
      (BlenderConnection.port (BlenderConnection.self s))
      (BlenderConnection.next_fd n) ok in
  match BlenderConnection.socket (BlenderConnection.self s) with
  | Some fd =>
      added [BlenderConnection.EvSend fd (BlenderConnection.wire c p)]
      /\ BlenderConnection.connect_script n' = BlenderConnection.connect_script n
      /\ BlenderConnection.exchange_script n'
         = tl (BlenderConnection.exchange_script n)
  | None =>
      match BlenderConnection.connect_script n with
      | true :: oks =>
          added [connect_to true;
                 BlenderConnection.EvSend (BlenderConnection.next_fd n)
                   (BlenderConnection.wire c p)]
          /\ BlenderConnection.connect_script n' = oks
          /\ BlenderConnection.exchange_script n'
             = tl (BlenderConnection.exchange_script n)
      | oks =>
          added [connect_to false]
          /\ BlenderConnection.connect_script n' = tl oks
          /\ BlenderConnection.exchange_script n'
             = BlenderConnection.exchange_script n
      end
  end.
Proof.
  cbv zeta. rewrite send_command_net.
  destruct (BlenderConnection.socket (BlenderConnection.self s)) as [fd|].
  - simpl. auto.
  - destruct (BlenderConnection.connect_script (BlenderConnection.net s))
      as [|[] oks] eqn:Hc; simpl; rewrite ?Hc, <- ?app_assoc;
      repeat split; reflexivity.
Qed.

(** X4.  A command that returns keeps its socket: the request went out
    on it as the last event, and whatever command comes next goes out
    on the same socket, without a connect. *)
Theorem send_command_success_keeps_socket (c : string)
  (p : option (list (string * pyval)))
  (s s' : BlenderConnection.session) (r : pyval) :
  BlenderConnection.send_command c p s = (Ret r, s') ->
  exists fd evs,
    BlenderConnection.socket (BlenderConnection.self s') = Some fd
    /\ BlenderConnection.trace (BlenderConnection.net s')
       = (BlenderConnection.trace (BlenderConnection.net s)
          ++ evs ++ [BlenderConnection.EvSend fd (BlenderConnection.wire c p)])%list
    /\ sent evs = []
    /\ forall c' p',
         BlenderConnection.trace
           (BlenderConnection.net (snd (BlenderConnection.send_command c' p' s')))
         = (BlenderConnection.trace (BlenderConnection.net s')
            ++ [BlenderConnection.EvSend fd (BlenderConnection.wire c' p')])%list.
Proof.
  intros H.
  assert (Hkept : forall s0 fd,
             BlenderConnection.socket (BlenderConnection.self s0) = Some fd ->
             try_except (BlenderConnection.send_command_try c p)
               BlenderConnection.send_command_except s0 = (Ret r, s') ->
             s' = after_send fd (BlenderConnection.wire c p) s0).
  { intros s0 fd Hs0. unfold try_except.
    destruct (BlenderConnection.send_command_try c p s0) as [[r0|e] s1] eqn:Ht.
    - intros Heq. inversion Heq; subst.
      eapply send_command_try_ret; eauto.
    - rewrite (send_command_except_forms e s1
                 (send_command_try_raise _ _ _ _ _ Ht)). discriminate. }
  assert (Hnext : forall fd,
             BlenderConnection.socket (BlenderConnection.self s') = Some fd ->
             forall c' p',
               BlenderConnection.trace
                 (BlenderConnection.net
                    (snd (BlenderConnection.send_command c' p' s')))
               = (BlenderConnection.trace (BlenderConnection.net s')
                  ++ [BlenderConnection.EvSend fd
                        (BlenderConnection.wire c' p')])%list).
  { intros fd Hs' c' p'.
    now rewrite (send_command_net_connected c' p' s' fd Hs'). }
  destruct (BlenderConnection.socket (BlenderConnection.self s)) as [fd|] eqn:Hs.
  - rewrite (send_command_connected c p s fd Hs) in H.
    pose proof (Hkept s fd Hs H) as Hs'. exists fd, [].
    assert (Hsock : BlenderConnection.socket (BlenderConnection.self s') = Some fd)
      by (subst s'; exact Hs).
    split; [exact Hsock|]. split; [now subst s'|]. split; [reflexivity|].
    now apply Hnext.
  - pose proof (connect_fresh s Hs) as Hc. simpl in Hc.
    destruct (BlenderConnection.connect_script (BlenderConnection.net s))
      as [|[] more] eqn:Hscript.
    + unfold BlenderConnection.send_command, bind in H. rewrite Hs, Hc in H.
      discriminate.
    + rewrite (send_command_via_connect c p s _ Hc) in H.
      pose proof (Hkept (connected_to true s)
                    (BlenderConnection.next_fd (BlenderConnection.net s))
                    eq_refl H) as Hs'.
      exists (BlenderConnection.next_fd (BlenderConnection.net s)).
      eexists [_].
      assert (Hsock : BlenderConnection.socket (BlenderConnection.self s')
                      = Some (BlenderConnection.next_fd (BlenderConnection.net s)))
        by (subst s'; reflexivity).
      split; [exact Hsock|]. split.
      * subst s'. simpl. rewrite <- app_assoc. reflexivity.
      * split; [reflexivity|]. now apply Hnext.
    + unfold BlenderConnection.send_command, bind in H. rewrite Hs, Hc in H.
      discriminate.
Qed.

(** X5.  What arrives after the first complete JSON text is not read:
    a socket that goes on after a response is received gives the same
    response. *)
Theorem receive_full_response_ignores_rest
  (sock more : list BlenderConnection.recv_event) (data : bytes) :
  BlenderConnection.receive_full_response sock = Ret data ->
  BlenderConnection.receive_full_response (sock ++ more) = Ret data.
Proof.
  intros H. apply receive_full_response_ret_iff in H.
  destruct H as (k & cs & Hk & Hlead & Hdata & Hp & Hinc).
  apply receive_full_response_ret_iff. exists k, cs.
  repeat split; auto. now apply leading_chunks_app.
Qed.

(** X6.  Bytes are decoded after every chunk, so a response whose
    chunking cuts a multi-byte character does not come through: when
    the bytes read so far stop decoding as UTF-8 before they parse,
    [receive_full_response] raises the [UnicodeDecodeError], whatever
    would arrive next, and [send_command] reports it as a communication
    error and drops the socket. *)
Theorem cut_character_is_an_error (c : string)
  (p : option (list (string * pyval)))
  (s : BlenderConnection.session) (fd k : nat) ex rest cs :
  BlenderConnection.socket (BlenderConnection.self s) = Some fd ->
  BlenderConnection.exchange_script (BlenderConnection.net s) = ex :: rest ->
  BlenderConnection.send_outcome ex = None ->
  leading_chunks (S k) (BlenderConnection.replies ex) = Some cs ->
  (forall j, 0 < j <= k -> incomplete (join_bytes (firstn j cs))) ->
  bytes_decode (join_bytes cs) = None ->
  BlenderConnection.receive_full_response (BlenderConnection.replies ex)
  = Raise (Exn UnicodeDecodeError (decode_error_text (join_bytes cs)))
  /\ BlenderConnection.send_command c p s
     = (Raise (Exn PlainException
                 ("Communication error with Blender: "
                  ++ decode_error_text (join_bytes cs))),
        invalidated (after_send fd (BlenderConnection.wire c p) s)).
Proof.
  intros Hs Hx Hout Hlead Hinc Hdec.
  assert (Hrecv : BlenderConnection.receive_full_response
                    (BlenderConnection.replies ex)
                  = Raise (Exn UnicodeDecodeError
                             (decode_error_text (join_bytes cs)))).
  { unfold BlenderConnection.receive_full_response.
    now rewrite (receive_loop_undecodable k _ [] cs Hlead Hinc Hdec). }
  split; [exact Hrecv|].
  rewrite (send_command_connected c p s fd Hs). unfold try_except.
  unfold BlenderConnection.send_command_try, bind.
  rewrite (sendall_connected _ s fd ex rest Hs Hx), Hout.
  unfold lift. rewrite Hrecv. reflexivity.
Qed.

(** X7.  Only the status ["error"] makes [send_command] raise: a
    response mapping with any other status, or with none, is a success,
    and its ["result"] is returned, the empty mapping when it has
    none. *)
Theorem send_command_status_lenient (c : string)
  (p : option (list (string * pyval)))
  (s : BlenderConnection.session) (fd : nat) ex rest d :
  BlenderConnection.socket (BlenderConnection.self s) = Some fd ->
  BlenderConnection.exchange_script (BlenderConnection.net s) = ex :: rest ->
  answers ex (PDict d) ->
  dict_get d "status" <> Some (PStr "error") ->
  BlenderConnection.send_command c p s
  = (Ret (or_default d "result" (PDict [])),
     after_send fd (BlenderConnection.wire c p) s).
Proof.
  intros Hs Hx Hans Hstatus.
  apply (send_command_yields c p s fd ex rest _ Hs Hx).
  exists d. split; [exact Hans|]. now apply read_response_lenient.
Qed.

(** X8.  A response that is JSON but not an object (a list, a string, a
    number, [null]) is an error of the call: [send_command] raises
    "Communication error with Blender: '<type>' object has no attribute
    'get'" and drops the socket. *)
Theorem send_command_response_not_object (c : string)
  (p : option (list (string * pyval)))
  (s : BlenderConnection.session) (fd : nat) ex rest v :
  BlenderConnection.socket (BlenderConnection.self s) = Some fd ->
  BlenderConnection.exchange_script (BlenderConnection.net s) = ex :: rest ->
  answers ex v ->
  (forall d, v <> PDict d) ->
  BlenderConnection.send_command c p s
  = (Raise (Exn PlainException
              ("Communication error with Blender: '" ++ type_name v
               ++ "' object has no attribute 'get'")),
     invalidated (after_send fd (BlenderConnection.wire c p) s)).
Proof.
  intros Hs Hx Hans Hv.
  rewrite (send_command_connected c p s fd Hs). unfold try_except.
  rewrite (send_command_try_answered c p s fd ex rest _ Hs Hx Hans).
  rewrite (read_response_not_mapping v Hv). reflexivity.
Qed.

End MoreClientProperties.

(* ================================================================== *)
(** * What a call may add to the trace                                 *)
(* ================================================================== *)

Module BudgetFacts.
Import BlenderConnection.
Import BlenderTools.
Import Further.
Local Open Scope py_scope.

Lemma sent_app (l1 l2 : list event) : sent (l1 ++ l2) = (sent l1 ++ sent l2)%list.
Proof.
  induction l1 as [|[] l1 IH]; simpl; auto. now rewrite IH.
Qed.

Lemma sleeps_app (l1 l2 : list event) :
  sleeps (l1 ++ l2) = (sleeps l1 ++ sleeps l2)%list.
Proof.
  induction l1 as [|[] l1 IH]; simpl; auto. now rewrite IH.
Qed.

Lemma closes_app (l1 l2 : list event) :
  closes (l1 ++ l2) = (closes l1 ++ closes l2)%list.
Proof.
  induction l1 as [|[] l1 IH]; simpl; auto. now rewrite IH.
Qed.

Lemma adds_refl (a b : nat) (t : list event) : adds_at_most a b t t.
Proof.
  exists []. rewrite app_nil_r. simpl. repeat split; auto; lia.
Qed.

Lemma adds_weaken (a b a' b' : nat) (t t' : list event) :
  a <= a' -> b <= b' -> adds_at_most a b t t' -> adds_at_most a' b' t t'.
Proof.
  intros Ha Hb (evs & Ht & Hs & Hn & Hf & Hc). exists evs.
  repeat split; auto; lia.
Qed.

Lemma adds_trans (a b c d : nat) (t1 t2 t3 : list event) :
  adds_at_most a b t1 t2 -> adds_at_most c d t2 t3 ->
  adds_at_most (a + c) (b + d) t1 t3.
Proof.
  intros (e1 & H1 & Hs1 & Hn1 & Hf1 & Hc1) (e2 & H2 & Hs2 & Hn2 & Hf2 & Hc2).
  exists (e1 ++ e2)%list. subst.
  rewrite sent_app, sleeps_app, closes_app, !length_app, Hc1, Hc2.
  repeat split; auto; try lia.
  - now rewrite app_assoc.
  - apply Forall_app. now split.
Qed.

Section WithRuntime.
Context {R : PyRuntime}.

Lemma costs_ret {A} (a b : nat) (x : A) : costs a b (ret x).
Proof. intros s. apply adds_refl. Qed.

Lemma costs_raise {A} (a b : nat) (e : exn) : costs a b (@raise session A e).
Proof. intros s. apply adds_refl. Qed.

Lemma costs_lift {A} (a b : nat) (r : result A) : costs a b (lift r).
Proof. intros s. apply adds_refl. Qed.

Lemma costs_bind {A B} (a b c d : nat) (m : M session A) (k : A -> M session B) :
  costs a b m -> (forall x, costs c d (k x)) -> costs (a + c) (b + d) (bind m k).
Proof.
  intros Hm Hk s. unfold bind. specialize (Hm s).
  destruct (m s) as [[x|e] s1]; simpl in *.
  - eapply adds_trans; [exact Hm|apply Hk].
  - eapply adds_weaken; [| |exact Hm]; lia.
Qed.

Lemma costs_try_except {A} (a b c d : nat) (m : M session A)
  (h : exn -> M session A) :
  costs a b m -> (forall e, costs c d (h e)) ->
  costs (a + c) (b + d) (try_except m h).
Proof.
  intros Hm Hh s. unfold try_except. specialize (Hm s).
  destruct (m s) as [[x|e] s1]; simpl in *.
  - eapply adds_weaken; [| |exact Hm]; lia.
  - eapply adds_trans; [exact Hm|apply Hh].
Qed.

Lemma costs_send_command (c : string) p : costs 1 0 (send_command c p).
Proof.
  intros s. rewrite send_command_net.
  destruct (socket (self s)) as [fd|];
    [|destruct (connect_script (net s)) as [|[] more]]; simpl.
  - exists [EvSend fd (wire c p)]. simpl. repeat split; auto.
  - eexists [_]. simpl. repeat split; auto.
  - eexists [_; _]. simpl. rewrite <- app_assoc. repeat split; auto.
  - eexists [_]. simpl. repeat split; auto.
Qed.

Lemma costs_sleep : costs 0 1 (sleep 5).
Proof.
  intros s. exists [EvSleep 5]. simpl. repeat split; auto.
Qed.

Lemma costs_status_check (c : string) :
  costs 1 0 (try_except (send_command c None) (fun e => ret (status_failure e))).
Proof.
  apply (costs_try_except 1 0 0 0); [apply costs_send_command|].
  intros e. apply costs_ret.
Qed.

(** The same, by the shape of the code. *)
Lemma costs_then_send {B} (a b : nat) (c : string) p (k : pyval -> M session B) :
  (forall x, costs a b (k x)) -> costs (S a) b (bind (send_command c p) k).
Proof. intros H. apply (costs_bind 1 0 a b); [apply costs_send_command|exact H]. Qed.

Lemma costs_then_lift {A B} (a b : nat) (r : result A) (k : A -> M session B) :
  (forall x, costs a b (k x)) -> costs a b (bind (lift r) k).
Proof. intros H. apply (costs_bind 0 0 a b); [apply costs_lift|exact H]. Qed.

Lemma costs_then_polyhaven {B} (a b : nat) (k : pyval -> M session B) :
  (forall x, costs a b (k x)) ->
  costs (S a) b (bind BlenderConnection.get_polyhaven_status k).
Proof. intros H. apply (costs_bind 1 0 a b); [apply costs_status_check|exact H]. Qed.

Lemma costs_then_hyper3d {B} (a b : nat) (k : pyval -> M session B) :
  (forall x, costs a b (k x)) ->
  costs (S a) b (bind BlenderConnection.get_hyper3d_status k).
Proof. intros H. apply (costs_bind 1 0 a b); [apply costs_status_check|exact H]. Qed.

Lemma costs_poll_loop (sk rid : pyval) (n : nat) : costs n n (poll_loop n sk rid).
Proof.
  induction n as [|n IH]; simpl.
  - apply costs_ret.
  - apply costs_then_send. intros status_result.
    apply costs_then_lift. intros [| |message].
    + apply costs_ret.
    + apply (costs_bind 0 1 n n); [apply costs_sleep|]. intros _. exact IH.
    + apply costs_ret.
Qed.

(** Every straight-line body: sends, pure steps, branches. *)
Ltac costs_step :=
  first
    [ apply costs_ret
    | apply costs_raise
    | apply costs_lift
    | apply costs_then_send; intros ?
    | apply costs_then_polyhaven; intros ?
    | apply costs_then_hyper3d; intros ?
    | apply costs_then_lift; intros ?
    | match goal with
      | |- costs _ _ (if ?b then _ else _) => destruct b
      | |- costs _ _ (error_line _) => unfold error_line
      end ].

Lemma costs_import_generated (model_name : string) (job_id rid : pyval) :
  costs 1 0 (import_generated model_name job_id rid).
Proof. unfold import_generated. repeat costs_step. Qed.

Lemma costs_poll_then_import (model_name : string) (job_id sk rid : pyval) :
  costs 61 60 (poll_then_import model_name job_id sk rid).
Proof.
  unfold poll_then_import.
  apply (costs_bind 60 60 1 0); [apply costs_poll_loop|].
  intros [| |v]; [apply costs_import_generated|apply costs_ret|apply costs_ret].
Qed.

(** A wrapper adds what its body adds; without a connection object,
    nothing. *)
Lemma with_blender_adds {A} (a b : nat) (body : M session A) (w : world) :
  costs a b body ->
  adds_at_most a b (trace (wnet w)) (trace (wnet (snd (with_blender body w)))).
Proof.
  intros H. unfold with_blender, get_blender_connection.
  destruct (blender_connection w) as [c|].
  - specialize (H {| self := c; net := wnet w |}).
    destruct (body _) as [r s']. exact H.
  - apply adds_refl.
Qed.

End WithRuntime.

Ltac costs_step :=
  first
    [ apply costs_ret
    | apply costs_raise
    | apply costs_lift
    | apply costs_poll_then_import
    | apply costs_then_send; intros ?
    | apply costs_then_polyhaven; intros ?
    | apply costs_then_hyper3d; intros ?
    | apply costs_then_lift; intros ?
    | match goal with
      | |- costs _ _ (if ?b then _ else _) => destruct b
      | |- costs _ _ (error_line _) => unfold error_line
      end ].

Ltac within_budget :=
  apply with_blender_adds; cbv zeta; repeat costs_step.

End BudgetFacts.

Import BudgetFacts.

Section BudgetProperties.
Context {R : PyRuntime}.

(** X9.  What one call of a tool can do to the outside, whatever
    Blender answers and whether or not the call raises: a basic tool or
    a status tool sends at most one request, a PolyHaven tool at most
    two (its status check and its command); none of them sleeps, and no
    tool closes a socket. *)
Theorem tools_request_budget (w : BlenderTools.world) :
  let budget (sends : nat) (tool : M BlenderTools.world pyval) :=
    adds_at_most sends 0
      (BlenderConnection.trace (BlenderTools.wnet w))
      (BlenderConnection.trace (BlenderTools.wnet (snd (tool w)))) in
  budget 1 BlenderTools.get_scene_info
  /\ (forall name, budget 1 (BlenderTools.get_object_info name))
  /\ (forall type name location rotation scale,
         budget 1 (BlenderTools.create_object type name location rotation scale))
  /\ (forall name location rotation scale visible,
         budget 1 (BlenderTools.modify_object name location rotation scale
                     visible))
  /\ (forall name, budget 1 (BlenderTools.delete_object name))
  /\ (forall object_name material_name color,
         budget 1 (BlenderTools.set_material object_name material_name color))
  /\ (forall code, budget 1 (BlenderTools.execute_blender_code code))
  /\ (forall file_path name, budget 1 (BlenderTools.import_model file_path name))
  /\ budget 1 BlenderTools.get_polyhaven_status
  /\ budget 1 BlenderTools.get_hyper3d_status
  /\ (forall asset_type,
         budget 2 (BlenderTools.get_polyhaven_categories asset_type))
  /\ (forall asset_type categories,
         budget 2 (BlenderTools.search_polyhaven_assets asset_type categories))
  /\ (forall asset_id asset_type resolution file_format,
         budget 2 (BlenderTools.download_polyhaven_asset asset_id asset_type
                     resolution file_format))
  /\ (forall object_name texture_id,
         budget 2 (BlenderTools.set_texture object_name texture_id)).
Proof.
  cbv zeta.
  repeat match goal with |- _ /\ _ => split end; intros;
    unfold BlenderTools.get_scene_info, BlenderTools.get_object_info,
      BlenderTools.create_object, BlenderTools.modify_object,
      BlenderTools.delete_object, BlenderTools.set_material,
      BlenderTools.execute_blender_code, BlenderTools.import_model,
      BlenderTools.get_polyhaven_status, BlenderTools.get_hyper3d_status,
      BlenderTools.get_polyhaven_categories,
      BlenderTools.search_polyhaven_assets,
      BlenderTools.download_polyhaven_asset, BlenderTools.set_texture;
    within_budget.
Qed.


End BudgetProperties.

(* ================================================================== *)
(** * More about the wrappers                                          *)
(* ================================================================== *)

Module MoreToolFacts.
Import BlenderConnection.
Import BlenderTools.
Import Further.
Local Open Scope py_scope.

Section WithRuntime.
Context {R : PyRuntime}.

(** After a body's request, steps that leave the session alone. *)
Lemma bind_snd {A B} (m : M session A) (k : A -> M session B) (s : session) :
  (forall x s0, snd (k x s0) = s0) -> snd (bind m k s) = snd (m s).
Proof.
  intros H. unfold bind. destruct (m s) as [[x|e] s1]; simpl; auto.
Qed.

Lemma status_check_unreachable (c : string) (s : session) :
  unreachable s ->
  try_except (send_command c None) (fun e => ret (status_failure e)) s
  = (Ret (PDict [("enabled", PBool false);
                 ("message", PStr "Not connected to Blender")]),
     connected_to false s).
Proof.
  intros H. unfold try_except.
  now rewrite (proj1 (send_command_unreachable c None s H)).
Qed.



End WithRuntime.

(** The wrapper's one request is answered with [result]. *)
Ltac command_yields Hs Hx Hy :=
  erewrite bind_eq
    by (eapply send_command_yields; [exact Hs|exact Hx|exact Hy]).

(** The status check says the integration is on, and the request after
    it is answered. *)
Ltac second_command_yields d Hs Hx Hy Hon Hy2 :=
  erewrite bind_eq
    by (eapply status_check_yields; [exact Hs|exact Hx|exact Hy]);
  cbn [py_get]; rewrite bind_lift;
  fold (or_default d "enabled" (PBool false)); rewrite Hon; cbn [negb];
  cbv zeta;
  erewrite bind_eq
    by (eapply send_command_yields;
        [exact Hs|rewrite after_send_script, Hx; reflexivity|exact Hy2]).

End MoreToolFacts.

Import MoreToolFacts.

Section MoreWrapperProperties.
Context {R : PyRuntime}.

(** X11.  The name in the text of [create_object] and [modify_object]
    is the one Blender answers with, not the one asked for.  When the
    result has no ["name"] the wrapper raises [KeyError('name')]: the
    request has gone out by then, and the socket is kept. *)
Theorem object_name_comes_from_blender
  (s : BlenderConnection.session) (fd : nat) ex rest d :
  BlenderConnection.socket (BlenderConnection.self s) = Some fd ->
  BlenderConnection.exchange_script (BlenderConnection.net s) = ex :: rest ->
  yields ex (PDict d) ->
  (forall v, dict_get d "name" = Some v ->
     (forall type name location rotation scale,
         fst (BlenderTools.create_object type name location rotation scale
                (world_of s))
         = Ret (PStr ("Created " ++ type ++ " object: " ++ py_str v)))
     /\ (forall name location rotation scale visible,
            fst (BlenderTools.modify_object name location rotation scale visible
                   (world_of s))
            = Ret (PStr ("Modified object: " ++ py_str v))))
  /\ (dict_get d "name" = None ->
      (forall type name location rotation scale,
          exists data,
            BlenderTools.create_object type name location rotation scale
              (world_of s)
            = (Raise (Exn KeyError (py_repr (PStr "name"))),
               world_of (after_send fd data s)))
      /\ (forall name location rotation scale visible,
             exists data,
               BlenderTools.modify_object name location rotation scale visible
                 (world_of s)
               = (Raise (Exn KeyError (py_repr (PStr "name"))),
                  world_of (after_send fd data s)))).
Proof.
  intros Hs Hx Hy. split.
  - intros v Hname. split; intros;
      unfold BlenderTools.create_object, BlenderTools.modify_object;
      rewrite with_blender_run; unfold run_in; cbv zeta;
      command_yields Hs Hx Hy;
      unfold bind, lift, ret; simpl; rewrite Hname; reflexivity.
  - intros Hname. split; intros; eexists;
      unfold BlenderTools.create_object, BlenderTools.modify_object;
      rewrite with_blender_run; apply run_in_eq; cbv zeta;
      command_yields Hs Hx Hy;
      unfold bind, lift, ret; simpl; rewrite Hname; reflexivity.
Qed.

(** X12.  What the optional arguments put on the wire.  [create_object],
    [set_material] and [import_model] ask [if x:], so an argument that
    is given but empty (the empty string, the empty list) is left out
    like one that is not given; [modify_object] asks
    [if x is not None:], so an empty list and [False] are sent. *)
Theorem optional_arguments_on_the_wire
  (s : BlenderConnection.session) (fd : nat) :
  BlenderConnection.socket (BlenderConnection.self s) = Some fd ->
  let request (tool : M BlenderTools.world pyval) (c : string)
        (params : list (string * pyval)) :=
    BlenderConnection.trace (BlenderTools.wnet (snd (tool (world_of s))))
    = (BlenderConnection.trace (BlenderConnection.net s)
       ++ [BlenderConnection.EvSend fd
             (BlenderConnection.wire c (Some params))])%list in
  (forall type name location rotation scale,
      request (BlenderTools.create_object type name location rotation scale)
        "create_object"
        (("type", PStr type)
         :: if_truthy "name" (option_map PStr name)
         ++ if_truthy "location" (option_map PList location)
         ++ if_truthy "rotation" (option_map PList rotation)
         ++ if_truthy "scale" (option_map PList scale))%list)
  /\ (forall name location rotation scale visible,
         request (BlenderTools.modify_object name location rotation scale
                    visible)
           "modify_object"
           (("name", PStr name)
            :: if_given "location" (option_map PList location)
            ++ if_given "rotation" (option_map PList rotation)
            ++ if_given "scale" (option_map PList scale)
            ++ if_given "visible" (option_map PBool visible))%list)
  /\ (forall object_name material_name color,
         request (BlenderTools.set_material object_name material_name color)
           "set_material"
           (("object_name", PStr object_name)
            :: if_truthy "material_name" (option_map PStr material_name)
            ++ if_truthy "color" (option_map PList color))%list)
  /\ (forall file_path name,
         request (BlenderTools.import_model file_path name)
           "import_model"
           (("file_path", PStr file_path)
            :: if_truthy "name" (option_map PStr name))%list).
Proof.
  intros Hs. cbv zeta.
  assert (Hone : forall (c : string) p (k : pyval -> M BlenderConnection.session pyval),
             (forall x s0, snd (k x s0) = s0) ->
             BlenderConnection.trace
               (BlenderTools.wnet
                  (snd (BlenderTools.with_blender
                          (bind (BlenderConnection.send_command c p) k)
                          (world_of s))))
             = (BlenderConnection.trace (BlenderConnection.net s)
                ++ [BlenderConnection.EvSend fd (BlenderConnection.wire c p)])%list).
  { intros c p k Hk. rewrite with_blender_run. unfold run_in. simpl.
    rewrite (bind_snd _ k s Hk).
    now apply send_command_trace_connected. }
  repeat match goal with |- _ /\ _ => split end; intros.
  - unfold BlenderTools.create_object. cbv zeta. rewrite Hone.
    + do 3 f_equal.
      destruct name as [[|? ?]|], location as [[|? ?]|], rotation as [[|? ?]|],
        scale as [[|? ?]|]; reflexivity.
    + intros x s0. unfold bind, lift, ret.
      destruct (py_getitem x "name"); reflexivity.
  - unfold BlenderTools.modify_object. cbv zeta. rewrite Hone.
    + do 3 f_equal.
      destruct location, rotation, scale, visible; reflexivity.
    + intros x s0. unfold bind, lift, ret.
      destruct (py_getitem x "name"); reflexivity.
  - unfold BlenderTools.set_material. cbv zeta. rewrite Hone.
    + do 3 f_equal.
      destruct material_name as [[|? ?]|], color as [[|? ?]|]; reflexivity.
    + intros x s0. reflexivity.
  - unfold BlenderTools.import_model. cbv zeta. rewrite Hone.
    + do 3 f_equal. destruct name as [[|? ?]|]; reflexivity.
    + intros x s0. unfold bind, lift, ret.
      destruct (py_in "error" x) as [[]|]; simpl; try reflexivity.
      * destruct (py_getitem x "error"); reflexivity.
      * destruct (py_get x "main_object" (PDict [])) as [m|]; simpl;
          [|reflexivity].
        destruct (py_get m "name" (PStr "Unknown")); simpl; [|reflexivity].
        destruct (py_get x "imported_objects" (PList [])) as [l|]; simpl;
          [|reflexivity].
        destruct (py_len l); reflexivity.
Qed.

(** X13.  An ["error"] key inside the result of a successful response
    does not raise: the wrapper returns it as text.  [import_model]
    returns "Error importing model: ...", the four PolyHaven wrappers
    "Error: ...", and [generate_3d_model_from_text] "Error creating
    generation job: ..." when it is the job request that is so
    answered. *)
Theorem error_in_result_is_returned
  (s : BlenderConnection.session) (fd : nat) (d : list (string * pyval))
  (err : pyval) :
  BlenderConnection.socket (BlenderConnection.self s) = Some fd ->
  dict_get d "error" = Some err ->
  (forall ex rest file_path name,
      BlenderConnection.exchange_script (BlenderConnection.net s) = ex :: rest ->
      yields ex (PDict d) ->
      fst (BlenderTools.import_model file_path name (world_of s))
      = Ret (PStr ("Error importing model: " ++ py_str err)))
  /\ (forall ex_status ex rest status,
         BlenderConnection.exchange_script (BlenderConnection.net s)
         = ex_status :: ex :: rest ->
         yields ex_status status ->
         enabled status ->
         yields ex (PDict d) ->
         let returned (tool : M BlenderTools.world pyval) (text : string) :=
           fst (tool (world_of s)) = Ret (PStr (text ++ py_str err)) in
         (forall asset_type,
             returned (BlenderTools.get_polyhaven_categories asset_type)
               "Error: ")
         /\ (forall asset_type categories,
                returned (BlenderTools.search_polyhaven_assets asset_type
                            categories) "Error: ")
         /\ (forall asset_id asset_type resolution file_format,
                returned (BlenderTools.download_polyhaven_asset asset_id
                            asset_type resolution file_format) "Error: ")
         /\ (forall object_name texture_id,
                returned (BlenderTools.set_texture object_name texture_id)
                  "Error: ")
         /\ (forall text_prompt model_name bbox_condition,
                returned (BlenderTools.generate_3d_model_from_text text_prompt
                            model_name bbox_condition)
                  "Error creating generation job: ")).
Proof.
  intros Hs Herr.
  assert (Hin : py_in "error" (PDict d) = Ret true)
    by (unfold py_in, dict_has; now rewrite Herr).
  assert (Hitem : py_getitem (PDict d) "error" = Ret err)
    by (unfold py_getitem; now rewrite Herr).
  split.
  - intros ex rest file_path name Hx Hy. unfold BlenderTools.import_model.
    rewrite with_blender_run. unfold run_in. cbv zeta.
    command_yields Hs Hx Hy.
    rewrite Hin, bind_lift, Hitem, bind_lift. reflexivity.
  - intros ex_status ex rest status Hx Hstatus (ds & -> & Hon) Hy. cbv zeta.
    repeat match goal with |- _ /\ _ => split end; intros;
      unfold BlenderTools.get_polyhaven_categories,
        BlenderTools.search_polyhaven_assets,
        BlenderTools.download_polyhaven_asset, BlenderTools.set_texture,
        BlenderTools.generate_3d_model_from_text, BlenderTools.error_line,
        BlenderConnection.get_polyhaven_status,
        BlenderConnection.get_hyper3d_status;
      rewrite with_blender_run; unfold run_in;
      second_command_yields ds Hs Hx Hstatus Hon Hy;
      rewrite Hin, bind_lift; cbv iota; rewrite Hitem, bind_lift; reflexivity.
Qed.

(** X14.  A job result that is a mapping with none of ["error"],
    ["uuid"], ["request_id"] ends the call at once:
    [generate_3d_model_from_text] returns "Error: Unexpected job result
    format: " and the result's [repr], after its two requests, with no
    poll and no sleep. *)
Theorem job_without_id_is_not_polled
  (text_prompt model_name : string) (bbox_condition : option (list pyval))
  (s : BlenderConnection.session) (fd : nat) ex_status ex_job rest status d :
  BlenderConnection.socket (BlenderConnection.self s) = Some fd ->
  BlenderConnection.exchange_script (BlenderConnection.net s)
  = ex_status :: ex_job :: rest ->
  yields ex_status status ->
  enabled status ->
  yields ex_job (PDict d) ->
  dict_has d "error" = false ->
  dict_has d "uuid" = false ->
  dict_has d "request_id" = false ->
  BlenderTools.generate_3d_model_from_text text_prompt model_name bbox_condition
    (world_of s)
  = (Ret (PStr ("Error: Unexpected job result format: " ++ py_repr (PDict d))),
     world_of
       (after_send fd
          (BlenderConnection.wire "create_rodin_job"
             (Some (BlenderTools.job_params text_prompt bbox_condition)))
          (after_send fd (BlenderConnection.wire "get_hyper3d_status" None) s))).
Proof.
  intros Hs Hx Hstatus (ds & -> & Hon) Hy He Hu Hr.
  unfold BlenderTools.generate_3d_model_from_text,
    BlenderConnection.get_hyper3d_status.
  rewrite with_blender_run. apply run_in_eq.
  second_command_yields ds Hs Hx Hstatus Hon Hy.
  unfold py_in. rewrite He, bind_lift, Hu, bind_lift, Hr, bind_lift.
  reflexivity.
Qed.


(** X16.  While nobody listens, a tool call is one failed connect and
    nothing sent.  The basic tools raise
    [ConnectionError("Not connected to Blender")] as it is; the status
    tools and the optional-integration tools return the text "Not
    connected to Blender".  Nobody listens afterwards either, so the
    next call does the same. *)
Theorem tools_when_unreachable (s : BlenderConnection.session) :
  unreachable s ->
  let raises (tool : M BlenderTools.world pyval) :=
    tool (world_of s)
    = (Raise (Exn ConnectionError "Not connected to Blender"),
       world_of (connected_to false s)) in
  let returns (tool : M BlenderTools.world pyval) :=
    tool (world_of s)
    = (Ret (PStr "Not connected to Blender"),
       world_of (connected_to false s)) in
  unreachable (connected_to false s)
  /\ raises BlenderTools.get_scene_info
  /\ (forall name, raises (BlenderTools.get_object_info name))
  /\ (forall type name location rotation scale,
         raises (BlenderTools.create_object type name location rotation scale))
  /\ (forall name location rotation scale visible,
         raises (BlenderTools.modify_object name location rotation scale visible))
  /\ (forall name, raises (BlenderTools.delete_object name))
  /\ (forall object_name material_name color,
         raises (BlenderTools.set_material object_name material_name color))
  /\ (forall code, raises (BlenderTools.execute_blender_code code))
  /\ (forall file_path name, raises (BlenderTools.import_model file_path name))
  /\ returns BlenderTools.get_polyhaven_status
  /\ returns BlenderTools.get_hyper3d_status
  /\ (forall asset_type,
         returns (BlenderTools.get_polyhaven_categories asset_type))
  /\ (forall asset_type categories,
         returns (BlenderTools.search_polyhaven_assets asset_type categories))
  /\ (forall asset_id asset_type resolution file_format,
         returns (BlenderTools.download_polyhaven_asset asset_id asset_type
                    resolution file_format))
  /\ (forall object_name texture_id,
         returns (BlenderTools.set_texture object_name texture_id))
  /\ (forall text_prompt model_name bbox_condition,
         returns (BlenderTools.generate_3d_model_from_text text_prompt
                    model_name bbox_condition)).
Proof.
  intros H. cbv zeta.
  split; [exact (proj2 (send_command_unreachable EmptyString None s H))|].
  repeat match goal with |- _ /\ _ => split end; intros;
    unfold BlenderTools.get_scene_info, BlenderTools.get_object_info,
      BlenderTools.create_object, BlenderTools.modify_object,
      BlenderTools.delete_object, BlenderTools.set_material,
      BlenderTools.execute_blender_code, BlenderTools.import_model,
      BlenderTools.get_polyhaven_status, BlenderTools.get_hyper3d_status,
      BlenderTools.get_polyhaven_categories,
      BlenderTools.search_polyhaven_assets,
      BlenderTools.download_polyhaven_asset, BlenderTools.set_texture,
      BlenderTools.generate_3d_model_from_text,
      BlenderConnection.get_polyhaven_status,
      BlenderConnection.get_hyper3d_status;
    rewrite with_blender_run; apply run_in_eq; cbv zeta;
    first
      [ erewrite bind_raise_eq
          by (apply (proj1 (send_command_unreachable _ _ s H)));
        reflexivity
      | erewrite bind_eq by (apply (status_check_unreachable _ s H));
        reflexivity ].
Qed.

End MoreWrapperProperties.

(* ================================================================== *)
(** * The agent's set-up and shutdown                                  *)
(* ================================================================== *)

Module AgentFacts.
Import BlenderConnection.
Import BlenderTools.
Import Further.
Local Open Scope py_scope.

Section WithRuntime.
Context {R : PyRuntime}.

Lemma connect_unreachable (s : session) :
  unreachable s -> connect s = (Ret false, connected_to false s).
Proof.
  intros [Hs Hno]. rewrite (connect_fresh s Hs).
  destruct (connect_script (net s)) as [|[] more]; simpl in *;
    try discriminate; reflexivity.
Qed.

Lemma unreachable_stays (s : session) :
  unreachable s -> unreachable (connected_to false s).
Proof.
  intros H. exact (proj2 (send_command_unreachable EmptyString None s H)).
Qed.

(** The status checks always return. *)
Lemma get_polyhaven_status_returns (s : session) :
  exists v s', BlenderConnection.get_polyhaven_status s = (Ret v, s').
Proof.
  destruct (status_check_returns "get_polyhaven_status" s) as (v & s' & H & _).
  now exists v, s'.
Qed.

Lemma get_hyper3d_status_returns (s : session) :
  exists v s', BlenderConnection.get_hyper3d_status s = (Ret v, s').
Proof.
  destruct (status_check_returns "get_hyper3d_status" s) as (v & s' & H & _).
  now exists v, s'.
Qed.

Lemma add_polyhaven_tools_returns (l l' : list BlenderAgent.tool)
  (s s' : session) :
  BlenderAgent.add_polyhaven_tools l s = (Ret l', s') ->
  exists on,
    l' = (l ++ BlenderAgent.get_polyhaven_status
            :: (if on : bool then
                  [BlenderAgent.get_polyhaven_categories;
                   BlenderAgent.search_polyhaven_assets;
                   BlenderAgent.download_polyhaven_asset;
                   BlenderAgent.set_texture]
                else []))%list.
Proof.
  unfold BlenderAgent.add_polyhaven_tools, bind, lift, ret.
  destruct (get_polyhaven_status_returns s) as (v & s1 & ->).
  destruct (py_get v "enabled" (PBool false)) as [enabled|]; [|discriminate].
  destruct (truthy enabled).
  - intros H. inversion H. exists true. now rewrite <- app_assoc.
  - destruct (py_get v "message" (PStr EmptyString)); [|discriminate].
    intros H. inversion H. now exists false.
Qed.

Lemma add_hyper3d_tools_returns (l l' : list BlenderAgent.tool)
  (s s' : session) :
  BlenderAgent.add_hyper3d_tools l s = (Ret l', s') ->
  exists on,
    l' = (l ++ BlenderAgent.get_hyper3d_status
            :: (if on : bool then [BlenderAgent.generate_3d_model_from_text]
                else []))%list.
Proof.
  unfold BlenderAgent.add_hyper3d_tools, bind, lift, ret.
  destruct (get_hyper3d_status_returns s) as (v & s1 & ->).
  destruct (py_get v "enabled" (PBool false)) as [enabled|]; [|discriminate].
  destruct (truthy enabled).
  - intros H. inversion H. exists true. now rewrite <- app_assoc.
  - destruct (py_get v "message" (PStr EmptyString)); [|discriminate].
    intros H. inversion H. now exists false.
Qed.

Lemma add_polyhaven_tools_unreachable (l : list BlenderAgent.tool) (s : session) :
  unreachable s ->
  BlenderAgent.add_polyhaven_tools l s
  = (Ret (l ++ [BlenderAgent.get_polyhaven_status])%list, connected_to false s).
Proof.
  intros H. unfold BlenderAgent.add_polyhaven_tools,
    BlenderConnection.get_polyhaven_status.
  erewrite bind_eq by (apply (status_check_unreachable _ s H)).
  reflexivity.
Qed.

Lemma add_hyper3d_tools_unreachable (l : list BlenderAgent.tool) (s : session) :
  unreachable s ->
  BlenderAgent.add_hyper3d_tools l s
  = (Ret (l ++ [BlenderAgent.get_hyper3d_status])%list, connected_to false s).
Proof.
  intros H. unfold BlenderAgent.add_hyper3d_tools,
    BlenderConnection.get_hyper3d_status.
  erewrite bind_eq by (apply (status_check_unreachable _ s H)).
  reflexivity.
Qed.

Lemma add_polyhaven_tools_answered (l : list BlenderAgent.tool) (s : session)
  (fd : nat) ex rest d :
  socket (self s) = Some fd ->
  exchange_script (net s) = ex :: rest ->
  yields ex (PDict d) ->
  BlenderAgent.add_polyhaven_tools l s
  = (Ret (l ++ BlenderAgent.get_polyhaven_status
            :: (if truthy (or_default d "enabled" (PBool false)) then
                  [BlenderAgent.get_polyhaven_categories;
                   BlenderAgent.search_polyhaven_assets;
                   BlenderAgent.download_polyhaven_asset;
                   BlenderAgent.set_texture]
                else []))%list,
     after_send fd (wire "get_polyhaven_status" None) s).
Proof.
  intros Hs Hx Hy. unfold BlenderAgent.add_polyhaven_tools,
    BlenderConnection.get_polyhaven_status.
  erewrite bind_eq
    by (eapply status_check_yields; [exact Hs|exact Hx|exact Hy]).
  cbn [py_get]. rewrite bind_lift.
  fold (or_default d "enabled" (PBool false)).
  destruct (truthy (or_default d "enabled" (PBool false))).
  - unfold ret. now rewrite <- app_assoc.
  - rewrite bind_lift. reflexivity.
Qed.

Lemma add_hyper3d_tools_answered (l : list BlenderAgent.tool) (s : session)
  (fd : nat) ex rest d :
  socket (self s) = Some fd ->
  exchange_script (net s) = ex :: rest ->
  yields ex (PDict d) ->
  BlenderAgent.add_hyper3d_tools l s
  = (Ret (l ++ BlenderAgent.get_hyper3d_status
            :: (if truthy (or_default d "enabled" (PBool false)) then
                  [BlenderAgent.generate_3d_model_from_text]
                else []))%list,
     after_send fd (wire "get_hyper3d_status" None) s).
Proof.
  intros Hs Hx Hy. unfold BlenderAgent.add_hyper3d_tools,
    BlenderConnection.get_hyper3d_status.
  erewrite bind_eq
    by (eapply status_check_yields; [exact Hs|exact Hx|exact Hy]).
  cbn [py_get]. rewrite bind_lift.
  fold (or_default d "enabled" (PBool false)).
  destruct (truthy (or_default d "enabled" (PBool false))).
  - unfold ret. now rewrite <- app_assoc.
  - rewrite bind_lift. reflexivity.
Qed.

(** The set-up is its body run on the new object. *)
Lemma create_blender_agent_run (h : string) (p : Z)
  (include_polyhaven include_hyper3d : bool) (w : world) :
  BlenderAgent.create_blender_agent h p include_polyhaven include_hyper3d w
  = run_in
      (_ <- connect ;;
       available_tools <-
         (if include_polyhaven
          then BlenderAgent.add_polyhaven_tools BlenderAgent.basic_tools
          else ret BlenderAgent.basic_tools) ;;
       if include_hyper3d then BlenderAgent.add_hyper3d_tools available_tools
       else ret available_tools)
      (fresh_session h p w).
Proof.
  unfold BlenderAgent.create_blender_agent, set_blender_connection, modify.
  unfold bind at 1. rewrite <- with_blender_run. reflexivity.
Qed.

End WithRuntime.

End AgentFacts.

Import AgentFacts.

Section AgentProperties.
Context {R : PyRuntime}.

(** X17.  Whenever [create_blender_agent] gets as far as its tool list,
    the list is the nine basic tools in their order, then, only with
    [include_polyhaven], the PolyHaven status tool and possibly the
    four PolyHaven tools, then, only with [include_hyper3d], the
    Hyper3D status tool and possibly the generation tool. *)
Theorem agent_tools_shape (host : string) (port : Z)
  (include_polyhaven include_hyper3d : bool)
  (w w' : BlenderTools.world) (tools : list BlenderAgent.tool) :
  BlenderAgent.create_blender_agent host port include_polyhaven include_hyper3d w
  = (Ret tools, w') ->
  exists polyhaven_on hyper3d_on,
    tools = offered include_polyhaven polyhaven_on include_hyper3d hyper3d_on.
Proof.
  rewrite create_blender_agent_run. unfold run_in, bind.
  destruct (connect_returns (fresh_session host port w)) as (ok & s1 & -> & _).
  intros H. inversion H as [[Hr Hw]]. clear H Hw. revert Hr.
  destruct include_polyhaven.
  - destruct (BlenderAgent.add_polyhaven_tools BlenderAgent.basic_tools s1)
      as [[l|e] s2] eqn:Hph; [|cbn [fst]; discriminate].
    destruct (add_polyhaven_tools_returns _ _ _ _ Hph) as [on ->].
    destruct include_hyper3d.
    + destruct (BlenderAgent.add_hyper3d_tools _ s2) as [[l'|e] s3] eqn:Hh;
        [|cbn [fst]; discriminate].
      destruct (add_hyper3d_tools_returns _ _ _ _ Hh) as [on' ->].
      intros Hr. cbn [fst] in Hr. inversion Hr. subst. exists on, on'. unfold offered.
      simpl. rewrite ?app_nil_r. reflexivity.
    + intros Hr. cbn [fst] in Hr. inversion Hr. subst. exists on, false. unfold offered.
      simpl. rewrite ?app_nil_r. reflexivity.
  - unfold ret at 1. destruct include_hyper3d.
    + destruct (BlenderAgent.add_hyper3d_tools _ s1) as [[l'|e] s3] eqn:Hh;
        [|cbn [fst]; discriminate].
      destruct (add_hyper3d_tools_returns _ _ _ _ Hh) as [on' ->].
      intros Hr. cbn [fst] in Hr. inversion Hr. subst. exists false, on'. reflexivity.
    + intros Hr. cbn [fst] in Hr. inversion Hr. subst. exists false, false. unfold offered.
      simpl. rewrite ?app_nil_r. reflexivity.
Qed.

(** X18.  With Blender not running [create_blender_agent] still sets
    the agent up: it warns and goes on, offering the basic tools and
    the status tool of each integration asked for, and none of the
    integration tools.  It has tried one connect, and one more for each
    status check, and has sent nothing; the global names the new
    object, which has no socket. *)
Theorem agent_set_up_offline (host : string) (port : Z)
  (include_polyhaven include_hyper3d : bool) (w : BlenderTools.world) :
  forallb negb
    (BlenderConnection.connect_script (BlenderTools.wnet w)) = true ->
  BlenderAgent.create_blender_agent host port include_polyhaven include_hyper3d w
  = (Ret (offered include_polyhaven false include_hyper3d false),
     world_of
       (after_refusals
          (1 + (if include_polyhaven then 1 else 0)
           + (if include_hyper3d then 1 else 0))
          (fresh_session host port w))).
Proof.
  intros Hno. rewrite create_blender_agent_run. apply run_in_eq.
  assert (H0 : unreachable (fresh_session host port w))
    by (split; [reflexivity|exact Hno]).
  pose proof (unreachable_stays _ H0) as H1.
  pose proof (unreachable_stays _ H1) as H2.
  rewrite (bind_eq _ _ _ _ _ (connect_unreachable _ H0)).
  destruct include_polyhaven, include_hyper3d; simpl.
  - rewrite (bind_eq _ _ _ _ _ (add_polyhaven_tools_unreachable _ _ H1)).
    rewrite (add_hyper3d_tools_unreachable _ _ H2). reflexivity.
  - rewrite (bind_eq _ _ _ _ _ (add_polyhaven_tools_unreachable _ _ H1)).
    reflexivity.
  - unfold bind at 1, ret at 1.
    rewrite (add_hyper3d_tools_unreachable _ _ H1). reflexivity.
  - reflexivity.
Qed.

(** X19.  With Blender running, the first connect going through and
    both status checks answered with a mapping, the integration tools
    offered are those of the integrations whose status says
    ["enabled"]; the status tools are offered either way.  The set-up
    is one connect and the two status requests, on one socket. *)
Theorem agent_tools_follow_status (host : string) (port : Z)
  (w : BlenderTools.world) oks ex_polyhaven ex_hyper3d rest dp dh :
  BlenderConnection.connect_script (BlenderTools.wnet w) = true :: oks ->
  BlenderConnection.exchange_script (BlenderTools.wnet w)
  = ex_polyhaven :: ex_hyper3d :: rest ->
  yields ex_polyhaven (PDict dp) ->
  yields ex_hyper3d (PDict dh) ->
  let fd := BlenderConnection.next_fd (BlenderTools.wnet w) in
  BlenderAgent.create_blender_agent host port true true w
  = (Ret (offered true (truthy (or_default dp "enabled" (PBool false)))
            true (truthy (or_default dh "enabled" (PBool false)))),
     world_of
       (after_send fd (BlenderConnection.wire "get_hyper3d_status" None)
          (after_send fd (BlenderConnection.wire "get_polyhaven_status" None)
             (connected_to true (fresh_session host port w))))).
Proof.
  intros Hc Hx Hp Hh. cbv zeta.
  rewrite create_blender_agent_run. apply run_in_eq.
  pose proof (connect_fresh (fresh_session host port w) eq_refl) as Hconnect.
  simpl in Hconnect. rewrite Hc in Hconnect.
  rewrite (bind_eq _ _ _ _ _ Hconnect).
  erewrite bind_eq
    by (eapply add_polyhaven_tools_answered;
        [reflexivity|simpl; exact Hx|exact Hp]).
  rewrite (add_hyper3d_tools_answered _ _
             (BlenderConnection.next_fd (BlenderTools.wnet w))
             ex_hyper3d rest dh);
    [ unfold offered; simpl; reflexivity
    | reflexivity
    | simpl; now rewrite Hx
    | exact Hh ].
Qed.

(** X20.  [shutdown_blender_connection] never raises, not even when no
    connection was ever set: the [ValueError] is swallowed and nothing
    changes.  Otherwise it closes the cached socket, if there is one,
    and leaves the object without a socket; a second shutdown does
    nothing more. *)
Theorem shutdown_never_raises (w : BlenderTools.world) :
  let w' := snd (BlenderAgent.shutdown_blender_connection w) in
  fst (BlenderAgent.shutdown_blender_connection w) = Ret tt
  /\ (BlenderTools.blender_connection w = None -> w' = w)
  /\ (forall c, BlenderTools.blender_connection w = Some c ->
        BlenderTools.blender_connection w'
        = Some {| BlenderConnection.host := BlenderConnection.host c;
                  BlenderConnection.port := BlenderConnection.port c;
                  BlenderConnection.socket := None |}
        /\ BlenderConnection.trace (BlenderTools.wnet w')
           = (BlenderConnection.trace (BlenderTools.wnet w)
              ++ match BlenderConnection.socket c with
                 | Some fd => [BlenderConnection.EvClose fd]
                 | None => []
                 end)%list)
  /\ BlenderAgent.shutdown_blender_connection w' = (Ret tt, w').
Proof.
  cbv zeta.
  unfold BlenderAgent.shutdown_blender_connection, try_except,
    BlenderTools.with_blender, BlenderTools.get_blender_connection,
    BlenderConnection.disconnect.
  destruct w as [[[h p [fd|]]|] n]; simpl;
    (split; [reflexivity|]); (split; [intros H; first [discriminate|reflexivity]|]);
    (split; [|reflexivity]); intros c Hc; inversion Hc; subst; simpl;
    (split; [reflexivity|]); rewrite ?app_nil_r; reflexivity.
Qed.

End AgentProperties.

(* ================================================================== *)
(** * More runs                                                        *)
(* ================================================================== *)

(** X1 on a request the peer resets. *)
Lemma send_command_raises_one_of_four_run :
  let e := Exn PlainException
             "Connection to Blender lost: [Errno 104] Connection reset by peer" in
  e = Exn ConnectionError "Not connected to Blender"
  \/ e = Exn PlainException
           "Timeout waiting for Blender response - try simplifying your request"
  \/ (exists cause,
         e = Exn PlainException ("Connection to Blender lost: " ++ cause))
  \/ (exists cause,
         e = Exn PlainException ("Communication error with Blender: " ++ cause)).
Proof.
  eapply (@send_command_raises_one_of_four Sample.runtime
            "get_scene_info" None (Scenario.connected [Scenario.reset])).
  vm_compute. reflexivity.
Defined.

(** X2 on a [sendall] that times out, and on a request that is never
    answered. *)
Lemma timeout_text_is_for_sendall_run :
  fst (BlenderConnection.send_command (R := Sample.runtime)
         "get_scene_info" None (Scenario.connected [send_times_out]))
  = Raise (Exn PlainException
             "Timeout waiting for Blender response - try simplifying your request")
  /\ fst (BlenderConnection.send_command (R := Sample.runtime)
            "get_scene_info" None (Scenario.connected [Scenario.silence]))
     = Raise (Exn PlainException
                "Communication error with Blender: No data received").
Proof.
  split.
  - apply (proj1 (@timeout_text_is_for_sendall Sample.runtime
                    "get_scene_info" None (Scenario.connected [send_times_out])
                    0 send_times_out [] eq_refl eq_refl)).
    eexists. split; reflexivity.
  - exact (proj2 (@timeout_text_is_for_sendall Sample.runtime
                    "get_scene_info" None (Scenario.connected [Scenario.silence])
                    0 Scenario.silence [] eq_refl eq_refl) eq_refl I).
Defined.

(** X4 on a command that is answered. *)
Lemma send_command_success_keeps_socket_run :
  let s := Scenario.connected [Scenario.reply Scenario.box1_created] in
  let s' := snd (BlenderConnection.send_command (R := Sample.runtime)
                   "get_scene_info" None s) in
  exists fd evs,
    BlenderConnection.socket (BlenderConnection.self s') = Some fd
    /\ BlenderConnection.trace (BlenderConnection.net s')
       = (BlenderConnection.trace (BlenderConnection.net s)
          ++ evs
          ++ [BlenderConnection.EvSend fd
                (BlenderConnection.wire (R := Sample.runtime)
                   "get_scene_info" None)])%list
    /\ sent evs = []
    /\ forall c' p',
         BlenderConnection.trace
           (BlenderConnection.net
              (snd (BlenderConnection.send_command (R := Sample.runtime)
                      c' p' s')))
         = (BlenderConnection.trace (BlenderConnection.net s')
            ++ [BlenderConnection.EvSend fd
                  (BlenderConnection.wire (R := Sample.runtime) c' p')])%list.
Proof.
  cbv zeta.
  eapply (@send_command_success_keeps_socket Sample.runtime
            "get_scene_info" None
            (Scenario.connected [Scenario.reply Scenario.box1_created])).
  vm_compute. reflexivity.
Defined.

(** X5 on a response followed by more bytes. *)
Lemma receive_full_response_ignores_rest_run :
  BlenderConnection.receive_full_response (R := Sample.runtime)
    (BlenderConnection.replies (Scenario.reply Scenario.box1_created)
     ++ [BlenderConnection.RecvData (Sample.json_bytes "{'status':'error'}")])%list
  = Ret (Sample.json_bytes Scenario.box1_created).
Proof.
  apply (@receive_full_response_ignores_rest Sample.runtime).
  vm_compute. reflexivity.
Defined.

(** X6 on the response whose e acute is cut in two. *)
Lemma cut_character_is_an_error_run :
  fst (BlenderConnection.send_command (R := Sample.runtime)
         "get_scene_info" None (Scenario.connected [cut_character]))
  = Raise (Exn PlainException
             "Communication error with Blender: 'utf-8' codec can't decode the data").
Proof.
  assert (Hlead : leading_chunks 1 (BlenderConnection.replies cut_character)
                  = Some [(Sample.json_bytes
                             "{'status':'success','result':{'name':'caf"
                           ++ [Byte.xc3])%list])
    by (vm_compute; reflexivity).
  assert (Hnone : forall j, 0 < j <= 0 ->
                    incomplete (R := Sample.runtime)
                      (join_bytes
                         (firstn j
                            [(Sample.json_bytes
                                "{'status':'success','result':{'name':'caf"
                              ++ [Byte.xc3])%list])))
    by (intros j Hj; lia).
  assert (Hdec : bytes_decode (PyRuntime := Sample.runtime)
                   (join_bytes
                      [(Sample.json_bytes
                          "{'status':'success','result':{'name':'caf"
                        ++ [Byte.xc3])%list])
                 = None)
    by (vm_compute; reflexivity).
  rewrite (proj2 (@cut_character_is_an_error Sample.runtime
                    "get_scene_info" None
                    (Scenario.connected [cut_character]) 0 0
                    cut_character [] _
                    eq_refl eq_refl eq_refl Hlead Hnone Hdec)).
  vm_compute. reflexivity.
Defined.

(** The same response in one chunk comes through. *)
Example whole_character_received :
  fst (BlenderConnection.send_command (R := Sample.runtime)
         "get_scene_info" None (Scenario.connected [whole_character]))
  = Ret (PDict [("name",
                 PStr ("caf" ++ String (ascii_of_nat 195)
                                  (String (ascii_of_nat 169) EmptyString)))]).
Proof. vm_compute. reflexivity. Qed.

(** X7 on a response without a status. *)
Lemma send_command_status_lenient_run :
  BlenderConnection.send_command (R := Sample.runtime) "get_scene_info" None
    (Scenario.connected [Scenario.reply no_status])
  = (Ret (PDict [("objects", PInt 3)]),
     after_send 0
       (BlenderConnection.wire (R := Sample.runtime) "get_scene_info" None)
       (Scenario.connected [Scenario.reply no_status])).
Proof.
  assert (Hans : answers (R := Sample.runtime) (Scenario.reply no_status)
                   (PDict [("result", PDict [("objects", PInt 3)])]))
    by run_answers.
  apply (@send_command_status_lenient Sample.runtime "get_scene_info" None
           (Scenario.connected [Scenario.reply no_status]) 0
           (Scenario.reply no_status) []
           [("result", PDict [("objects", PInt 3)])]
           eq_refl eq_refl Hans).
  simpl. discriminate.
Defined.

(** X8 on a response that is a list. *)
Lemma send_command_response_not_object_run :
  BlenderConnection.send_command (R := Sample.runtime) "get_scene_info" None
    (Scenario.connected [Scenario.reply not_an_object])
  = (Raise (Exn PlainException
              "Communication error with Blender: 'list' object has no attribute 'get'"),
     invalidated
       (after_send 0
          (BlenderConnection.wire (R := Sample.runtime) "get_scene_info" None)
          (Scenario.connected [Scenario.reply not_an_object]))).
Proof.
  assert (Hans : answers (R := Sample.runtime) (Scenario.reply not_an_object)
                   (PList [PInt 1; PInt 2]))
    by run_answers.
  apply (@send_command_response_not_object Sample.runtime "get_scene_info" None
           (Scenario.connected [Scenario.reply not_an_object]) 0
           (Scenario.reply not_an_object) [] (PList [PInt 1; PInt 2])
           eq_refl eq_refl Hans).
  intros d. discriminate.
Defined.

(** X11 on a name Blender changed, and on a result without a name. *)
Lemma object_name_comes_from_blender_run :
  fst (BlenderTools.create_object (R := Sample.runtime)
         "CUBE" (Some "Box1") None None None
         (world_of (Scenario.connected [Scenario.reply renamed])))
  = Ret (PStr "Created CUBE object: Box1.001")
  /\ fst (BlenderTools.modify_object (R := Sample.runtime)
            "Box1" None None None (Some false)
            (world_of (Scenario.connected [Scenario.reply nameless])))
     = Raise (Exn KeyError "'name'").
Proof.
  split.
  - assert (Hy : yields (R := Sample.runtime) (Scenario.reply renamed)
                   (PDict [("name", PStr "Box1.001")])) by run_yields.
    exact (proj1 (proj1 (@object_name_comes_from_blender Sample.runtime
                           (Scenario.connected [Scenario.reply renamed]) 0
                           (Scenario.reply renamed) []
                           [("name", PStr "Box1.001")] eq_refl eq_refl Hy)
                    (PStr "Box1.001") eq_refl)
             "CUBE" (Some "Box1") None None None).
  - assert (Hy : yields (R := Sample.runtime) (Scenario.reply nameless)
                   (PDict [("type", PStr "CUBE")])) by run_yields.
    destruct (proj2 (proj2 (@object_name_comes_from_blender Sample.runtime
                              (Scenario.connected [Scenario.reply nameless]) 0
                              (Scenario.reply nameless) []
                              [("type", PStr "CUBE")] eq_refl eq_refl Hy)
                       eq_refl)
                "Box1" None None None (Some false)) as [data H].
    rewrite H. vm_compute. reflexivity.
Defined.

(** X12 on arguments that are given but empty. *)
Lemma optional_arguments_on_the_wire_run :
  BlenderConnection.trace
    (BlenderTools.wnet
       (snd (BlenderTools.create_object (R := Sample.runtime)
               "CUBE" (Some EmptyString) (Some []) None None
               (world_of (Scenario.connected [])))))
  = [BlenderConnection.EvSend 0
       (Sample.json_bytes "{'type': 'create_object', 'params': {'type': 'CUBE'}}")]
  /\ BlenderConnection.trace
       (BlenderTools.wnet
          (snd (BlenderTools.modify_object (R := Sample.runtime)
                  "Box1" (Some []) None None (Some false)
                  (world_of (Scenario.connected [])))))
     = [BlenderConnection.EvSend 0
          (Sample.json_bytes
             "{'type': 'modify_object', 'params': {'name': 'Box1', 'location': [], 'visible': false}}")].
Proof.
  destruct (@optional_arguments_on_the_wire Sample.runtime
              (Scenario.connected []) 0 eq_refl)
    as (Hcreate & Hmodify & _).
  split.
  - assert (H := Hcreate "CUBE" (Some EmptyString) (Some []) None None).
    vm_compute in H. vm_compute. exact H.
  - assert (H := Hmodify "Box1" (Some []) None None (Some false)).
    vm_compute in H. vm_compute. exact H.
Defined.

(** X13 on a file Blender does not find. *)
Lemma error_in_result_is_returned_run :
  fst (BlenderTools.import_model (R := Sample.runtime) "./car.glb" (Some "car")
         (world_of (Scenario.connected [Scenario.reply error_in_result])))
  = Ret (PStr "Error importing model: File not found")
  /\ fst (BlenderTools.set_texture (R := Sample.runtime) "Box1" "rock"
            (world_of
               (Scenario.connected
                  [Scenario.reply Scenario.integration_on;
                   Scenario.reply error_in_result])))
     = Ret (PStr "Error: File not found").
Proof.
  assert (Hy : yields (R := Sample.runtime) (Scenario.reply error_in_result)
                 (PDict [("error", PStr "File not found")])) by run_yields.
  destruct job_started_run as (Hstatus & Hon & _).
  split.
  - exact (proj1 (@error_in_result_is_returned Sample.runtime
                    (Scenario.connected [Scenario.reply error_in_result]) 0
                    [("error", PStr "File not found")] (PStr "File not found")
                    eq_refl eq_refl)
             (Scenario.reply error_in_result) [] "./car.glb" (Some "car")
             eq_refl Hy).
  - destruct (proj2 (@error_in_result_is_returned Sample.runtime
                       (Scenario.connected
                          [Scenario.reply Scenario.integration_on;
                           Scenario.reply error_in_result]) 0
                       [("error", PStr "File not found")] (PStr "File not found")
                       eq_refl eq_refl)
                (Scenario.reply Scenario.integration_on)
                (Scenario.reply error_in_result) [] _ eq_refl Hstatus Hon Hy)
      as (_ & _ & _ & Htexture & _).
    exact (Htexture "Box1" "rock").
Defined.

(** X14 on a job result that names no job. *)
Lemma job_without_id_is_not_polled_run :
  fst (BlenderTools.generate_3d_model_from_text (R := Sample.runtime)
         "a chair" "chair" None
         (world_of
            (Scenario.connected
               [Scenario.reply Scenario.integration_on;
                Scenario.reply job_without_id])))
  = Ret (PStr "Error: Unexpected job result format: {'state': 'queued'}").
Proof.
  assert (Hy : yields (R := Sample.runtime) (Scenario.reply job_without_id)
                 (PDict [("state", PStr "queued")])) by run_yields.
  destruct job_started_run as (Hstatus & Hon & _).
  rewrite (@job_without_id_is_not_polled Sample.runtime "a chair" "chair" None
             (Scenario.connected
                [Scenario.reply Scenario.integration_on;
                 Scenario.reply job_without_id]) 0
             (Scenario.reply Scenario.integration_on)
             (Scenario.reply job_without_id) [] _
             [("state", PStr "queued")]
             eq_refl eq_refl Hstatus Hon Hy eq_refl eq_refl eq_refl).
  vm_compute. reflexivity.
Defined.


(** X16 with nobody listening. *)
Lemma tools_when_unreachable_run :
  fst (BlenderTools.get_scene_info (R := Sample.runtime)
         (world_of (Scenario.disconnected false [])))
  = Raise (Exn ConnectionError "Not connected to Blender")
  /\ fst (BlenderTools.generate_3d_model_from_text (R := Sample.runtime)
            "a chair" "chair" None
            (world_of (Scenario.disconnected false [])))
     = Ret (PStr "Not connected to Blender").
Proof.
  assert (Hno : unreachable (Scenario.disconnected false []))
    by (split; reflexivity).
  destruct (@tools_when_unreachable Sample.runtime
              (Scenario.disconnected false []) Hno)
    as (_ & Hscene & _ & _ & _ & _ & _ & _ & _ & _ & _ & _ & _ & _ & _ & Hgenerate).
  split.
  - now rewrite Hscene.
  - now rewrite (Hgenerate "a chair" "chair" None).
Defined.

(** X17 on a set-up that finds PolyHaven on. *)
Lemma agent_tools_shape_run :
  exists polyhaven_on hyper3d_on,
    (BlenderAgent.basic_tools
     ++ [BlenderAgent.get_polyhaven_status;
         BlenderAgent.get_polyhaven_categories;
         BlenderAgent.search_polyhaven_assets;
         BlenderAgent.download_polyhaven_asset;
         BlenderAgent.set_texture])%list
    = offered true polyhaven_on false hyper3d_on.
Proof.
  eapply (@agent_tools_shape Sample.runtime "localhost" 9876 true false
            (unset (Scenario.disconnected true
                      [Scenario.reply Scenario.integration_on]))).
  vm_compute. reflexivity.
Defined.

(** X18 with nobody listening and both integrations asked for. *)
Lemma agent_set_up_offline_run :
  BlenderAgent.create_blender_agent (R := Sample.runtime)
    "localhost" 9876 true true (unset (Scenario.disconnected false []))
  = (Ret (BlenderAgent.basic_tools
          ++ [BlenderAgent.get_polyhaven_status;
              BlenderAgent.get_hyper3d_status])%list,
     world_of
       (after_refusals 3
          (fresh_session "localhost" 9876
             (unset (Scenario.disconnected false []))))).
Proof.
  exact (@agent_set_up_offline Sample.runtime "localhost" 9876 true true
           (unset (Scenario.disconnected false [])) eq_refl).
Defined.

(** X19 with PolyHaven on and Hyper3D off. *)
Lemma agent_tools_follow_status_run :
  fst (BlenderAgent.create_blender_agent (R := Sample.runtime)
         "localhost" 9876 true true
         (unset (Scenario.disconnected true
                   [Scenario.reply Scenario.integration_on;
                    Scenario.reply Scenario.hyper3d_off])))
  = Ret (BlenderAgent.basic_tools
         ++ [BlenderAgent.get_polyhaven_status;
             BlenderAgent.get_polyhaven_categories;
             BlenderAgent.search_polyhaven_assets;
             BlenderAgent.download_polyhaven_asset;
             BlenderAgent.set_texture;
             BlenderAgent.get_hyper3d_status])%list.
Proof.
  assert (Hp : yields (R := Sample.runtime)
                 (Scenario.reply Scenario.integration_on)
                 (PDict [("enabled", PBool true); ("message", PStr "ready")]))
    by run_yields.
  assert (Hh : yields (R := Sample.runtime)
                 (Scenario.reply Scenario.hyper3d_off)
                 (PDict [("enabled", PBool false);
                         ("message", PStr "Hyper3D is off")]))
    by run_yields.
  rewrite (@agent_tools_follow_status Sample.runtime "localhost" 9876
             (unset (Scenario.disconnected true
                       [Scenario.reply Scenario.integration_on;
                        Scenario.reply Scenario.hyper3d_off]))
             [] (Scenario.reply Scenario.integration_on)
             (Scenario.reply Scenario.hyper3d_off) [] _ _
             eq_refl eq_refl Hp Hh).
  reflexivity.
Defined.

(** The job of the other shape that completes at its second poll. *)
Example job_by_request_completed :
  fst (BlenderTools.generate_3d_model_from_text (R := Sample.runtime)
         "a chair" "chair" None
         (world_of
            (Scenario.connected
               [Scenario.reply Scenario.integration_on;
                Scenario.reply job_by_request;
                Scenario.reply poll_in_queue;
                Scenario.reply poll_completed;
                Scenario.reply Scenario.import_succeeded])))
  = Ret (PStr "Successfully generated and imported 3D model 'chair' based on the text prompt.").
Proof. vm_compute. reflexivity. Qed.
